(** * Order / invoice lifecycle and sequential numbering of the backend

    A shallow embedding of the Django models, serializers, views and
    signal handlers under [backend/orders], [backend/billing],
    [backend/commercial] and [backend/products], and the properties of
    the lifecycle proved over it.

    Modelling conventions.
    - A database table is the list of its rows in insertion order; the
      [AutoField] primary key comes from a per-table counter that is never
      reused (a sequence), so that deleting a row does not free its key.
    - [Decimal] values are exact rationals ([Qc]).  Within the ten digits
      the columns allow, the sums, products and the division by one hundred
      that the code performs are exact in Python's default decimal context.
      The quantisation a database column applies when it stores a value is
      outside the model: a row holds the value the code hands to the ORM.
    - A Python exception is the [Raise] result of a computation in the
      monad [M]; the database keeps what was written before the exception
      (every [save] is committed on its own, no request-wide transaction).
    - Requests are handled one at a time. *)

From Stdlib Require Import ZArith List String Ascii Bool Lia.
From Stdlib Require Import QArith Qcanon.
From Stdlib Require Import DecimalString DecimalN DecimalZ.
Import ListNotations.

Local Open Scope string_scope.
Local Open Scope Z_scope.

(** ** Python builtins used by the numbering code *)

Module Py.

Definition is_digit (c : ascii) : bool :=
    let n := nat_of_ascii c in (Nat.leb 48 n && Nat.leb n 57)%bool.

  (** The ASCII characters [str.isspace] accepts. *)
Definition is_space (c : ascii) : bool :=
    let n := nat_of_ascii c in
    ((Nat.leb 9 n && Nat.leb n 13) || (Nat.leb 28 n && Nat.leb n 32))%bool.

Definition is_empty (s : string) : bool :=
    match s with EmptyString => true | String _ _ => false end.

Fixpoint lstrip (s : string) : string :=
    match s with
    | String c r => if is_space c then lstrip r else s
    | EmptyString => EmptyString
    end.

Fixpoint rstrip (s : string) : string :=
    match s with
    | String c r =>
        let r' := rstrip r in
        if (is_empty r' && is_space c)%bool then EmptyString else String c r'
    | EmptyString => EmptyString
    end.

Definition strip (s : string) : string := rstrip (lstrip s).

  (** [s[n:]] *)
Fixpoint slice_from (n : nat) (s : string) : string :=
    match n, s with
    | O, _ => s
    | S n', String _ r => slice_from n' r
    | S _, EmptyString => EmptyString
    end.

  (** The digit part of an integer literal: digits, with single
      underscores allowed between two digits.  Returns the digits. *)
Fixpoint digit_part (after_digit : bool) (s : string) : option string :=
    match s with
    | EmptyString => if after_digit then Some EmptyString else None
    | String c r =>
        if is_digit c then option_map (String c) (digit_part true r)
        else if Ascii.eqb c "_"%char
             then (if after_digit then digit_part false r else None)
             else None
    end.

Definition digits_value (s : string) : option Z :=
    match digit_part false s with
    | Some ds =>
        option_map (fun d => Z.of_N (N.of_uint d)) (NilEmpty.uint_of_string ds)
    | None => None
    end.

  (** [int(s)] on an ASCII string; [None] is [ValueError]. *)
Definition int (s : string) : option Z :=
    match strip s with
    | String c r =>
        if Ascii.eqb c "-"%char then option_map Z.opp (digits_value r)
        else if Ascii.eqb c "+"%char then digits_value r
        else digits_value (String c r)
    | EmptyString => None
    end.

  (** [str(z)] *)
Definition str (z : Z) : string := NilZero.string_of_int (Z.to_int z).

Fixpoint zeros (n : nat) : string :=
    match n with O => EmptyString | S n' => String "0"%char (zeros n') end.

  (** [s.zfill(width)] *)
Definition zfill (width : nat) (s : string) : string :=
    if Nat.leb width (String.length s) then s
    else
      let pad := zeros (width - String.length s) in
      match s with
      | String c r =>
          if (Ascii.eqb c "-"%char || Ascii.eqb c "+"%char)%bool
          then String c (pad ++ r)
          else pad ++ s
      | EmptyString => pad
      end.

End Py.

Arguments Py.str : simpl never.
Arguments Py.zfill : simpl never.
Arguments Py.int : simpl never.

(** ** Data model *)

Definition Decimal := Qc.
Definition pk := Z.
(** A [DateField] value, as a day count. *)
Definition date := Z.

Definition is_zero (d : Decimal) : bool := Qc_eq_bool d 0%Qc.
Definition Decimal_of_int (z : Z) : Decimal := Q2Qc (inject_Z z).
(** [a >= b] and [a > b] on decimals *)
Definition Decimal_geb (a b : Decimal) : bool := Qle_bool b a.
Definition Decimal_gtb (a b : Decimal) : bool := negb (Qle_bool a b).

Module User.
Record t := mk {
    id : pk;
    first_name : string;
    last_name : string;
    email : string
  }.
End User.

Module Product.
Record t := mk {
    id : pk;
    name : string;
    price : Decimal;
    stock_quantity : Z
  }.
Definition with_stock_quantity (p : t) (q : Z) : t :=
    mk (id p) (name p) (price p) q.
End Product.

Module Order.
Inductive Status :=
  | PENDING | CONFIRMED | IN_PRODUCTION | READY_FOR_DELIVERY
  | IN_TRANSIT | DELIVERED | CANCELLED.

Definition status_eqb (a b : Status) : bool :=
    match a, b with
    | PENDING, PENDING | CONFIRMED, CONFIRMED
    | IN_PRODUCTION, IN_PRODUCTION
    | READY_FOR_DELIVERY, READY_FOR_DELIVERY
    | IN_TRANSIT, IN_TRANSIT | DELIVERED, DELIVERED
    | CANCELLED, CANCELLED => true
    | _, _ => false
    end.

Record t := mk {
    id : pk;
    order_number : string;
    client : pk;
    status : Status;
    total_amount : Decimal;
    shipping_address : string;
    delivery_notes : string;
    delivery_date : option date
  }.

Definition with_status (o : t) (s : Status) : t :=
    mk (id o) (order_number o) (client o) s (total_amount o)
       (shipping_address o) (delivery_notes o) (delivery_date o).
Definition with_total_amount (o : t) (a : Decimal) : t :=
    mk (id o) (order_number o) (client o) (status o) a
       (shipping_address o) (delivery_notes o) (delivery_date o).
Definition with_id (o : t) (k : pk) : t :=
    mk k (order_number o) (client o) (status o) (total_amount o)
       (shipping_address o) (delivery_notes o) (delivery_date o).
End Order.

Module OrderItem.
Record t := mk {
    id : pk;
    order : pk;
    product : pk;
    quantity : Z;
    unit_price : Decimal;
    total_price : Decimal
  }.
Definition with_total_price (i : t) (a : Decimal) : t :=
    mk (id i) (order i) (product i) (quantity i) (unit_price i) a.
Definition with_id (i : t) (k : pk) : t :=
    mk k (order i) (product i) (quantity i) (unit_price i) (total_price i).
End OrderItem.

Module DeliveryStatus.
Record t := mk {
    id : pk;
    order : pk;
    status : Order.Status;
    location : string;
    notes : string;
    updated_by : pk
  }.
Definition with_id (d : t) (k : pk) : t :=
    mk k (order d) (status d) (location d) (notes d) (updated_by d).
End DeliveryStatus.

Module Invoice.
Inductive Status :=
  | DRAFT | PENDING | PAID | PARTIALLY_PAID | OVERDUE | CANCELLED.

Record t := mk {
    id : pk;
    invoice_number : string;
    order : pk;
    client : pk;
    status : Status;
    issue_date : date;
    due_date : date;
    subtotal : Decimal;
    tax_rate : Decimal;
    tax_amount : Decimal;
    total_amount : Decimal;
    notes : string
  }.

Definition with_status (i : t) (s : Status) : t :=
    mk (id i) (invoice_number i) (order i) (client i) s (issue_date i)
       (due_date i) (subtotal i) (tax_rate i) (tax_amount i)
       (total_amount i) (notes i).
Definition with_tax_amount (i : t) (a : Decimal) : t :=
    mk (id i) (invoice_number i) (order i) (client i) (status i)
       (issue_date i) (due_date i) (subtotal i) (tax_rate i) a
       (total_amount i) (notes i).
Definition with_total_amount (i : t) (a : Decimal) : t :=
    mk (id i) (invoice_number i) (order i) (client i) (status i)
       (issue_date i) (due_date i) (subtotal i) (tax_rate i)
       (tax_amount i) a (notes i).
Definition with_id (i : t) (k : pk) : t :=
    mk k (invoice_number i) (order i) (client i) (status i)
       (issue_date i) (due_date i) (subtotal i) (tax_rate i)
       (tax_amount i) (total_amount i) (notes i).
End Invoice.

Module Payment.
Inductive PaymentMethod := BANK_TRANSFER | CREDIT_CARD | CHECK | CASH.

Record t := mk {
    id : pk;
    invoice : pk;
    amount : Decimal;
    payment_method : PaymentMethod;
    payment_date : date;
    transaction_id : string;
    notes : string;
    created_by : pk
  }.
Definition with_id (p : t) (k : pk) : t :=
    mk k (invoice p) (amount p) (payment_method p) (payment_date p)
       (transaction_id p) (notes p) (created_by p).
End Payment.

Module CreditNote.
Record t := mk {
    id : pk;
    credit_note_number : string;
    invoice : pk;
    amount : Decimal;
    reason : string;
    issue_date : date;
    created_by : pk
  }.
Definition with_id (c : t) (k : pk) : t :=
    mk k (credit_note_number c) (invoice c) (amount c) (reason c)
       (issue_date c) (created_by c).
End CreditNote.

Module Quote.
Inductive Status := DRAFT | SENT | ACCEPTED | REJECTED | EXPIRED | CONVERTED.

Record t := mk {
    id : pk;
    quote_number : string;
    customer : pk;
    customer_name : string;
    valid_until : date;
    status : Status;
    subtotal : Decimal;
    discount : Decimal;
    tax : Decimal;
    total : Decimal;
    notes : string
  }.
Definition with_total (q : t) (a : Decimal) : t :=
    mk (id q) (quote_number q) (customer q) (customer_name q)
       (valid_until q) (status q) (subtotal q) (discount q) (tax q) a
       (notes q).
Definition with_quote_number (q : t) (n : string) : t :=
    mk (id q) n (customer q) (customer_name q) (valid_until q) (status q)
       (subtotal q) (discount q) (tax q) (total q) (notes q).
Definition with_customer_name (q : t) (n : string) : t :=
    mk (id q) (quote_number q) (customer q) n (valid_until q) (status q)
       (subtotal q) (discount q) (tax q) (total q) (notes q).
Definition with_id (q : t) (k : pk) : t :=
    mk k (quote_number q) (customer q) (customer_name q) (valid_until q)
       (status q) (subtotal q) (discount q) (tax q) (total q) (notes q).
End Quote.

(** ** The database and the monad of request handling *)

Record DB := mkDB {
  users : list User.t;
  products : list Product.t;
  orders : list Order.t;
  order_items : list OrderItem.t;
  delivery_updates : list DeliveryStatus.t;
  invoices : list Invoice.t;
  payments : list Payment.t;
  credit_notes : list CreditNote.t;
  quotes : list Quote.t;
  (* last primary key issued, per table *)
  order_seq : pk;
  order_item_seq : pk;
  delivery_status_seq : pk;
  invoice_seq : pk;
  payment_seq : pk;
  credit_note_seq : pk;
  quote_seq : pk
}.

Definition empty_db (us : list User.t) (ps : list Product.t) : DB :=
  mkDB us ps [] [] [] [] [] [] [] 0 0 0 0 0 0 0.

Definition set_products (db : DB) (ps : list Product.t) : DB :=
  mkDB (users db) ps (orders db) (order_items db) (delivery_updates db)
       (invoices db) (payments db) (credit_notes db) (quotes db)
       (order_seq db) (order_item_seq db) (delivery_status_seq db)
       (invoice_seq db) (payment_seq db) (credit_note_seq db) (quote_seq db).

Definition set_orders (db : DB) (os : list Order.t) (k : pk) : DB :=
  mkDB (users db) (products db) os (order_items db) (delivery_updates db)
       (invoices db) (payments db) (credit_notes db) (quotes db)
       k (order_item_seq db) (delivery_status_seq db)
       (invoice_seq db) (payment_seq db) (credit_note_seq db) (quote_seq db).

Definition set_order_items (db : DB) (its : list OrderItem.t) (k : pk) : DB :=
  mkDB (users db) (products db) (orders db) its (delivery_updates db)
       (invoices db) (payments db) (credit_notes db) (quotes db)
       (order_seq db) k (delivery_status_seq db)
       (invoice_seq db) (payment_seq db) (credit_note_seq db) (quote_seq db).

Definition set_delivery_updates (db : DB) (ds : list DeliveryStatus.t)
    (k : pk) : DB :=
  mkDB (users db) (products db) (orders db) (order_items db) ds
       (invoices db) (payments db) (credit_notes db) (quotes db)
       (order_seq db) (order_item_seq db) k
       (invoice_seq db) (payment_seq db) (credit_note_seq db) (quote_seq db).

Definition set_invoices (db : DB) (ivs : list Invoice.t) (k : pk) : DB :=
  mkDB (users db) (products db) (orders db) (order_items db)
       (delivery_updates db) ivs (payments db) (credit_notes db) (quotes db)
       (order_seq db) (order_item_seq db) (delivery_status_seq db)
       k (payment_seq db) (credit_note_seq db) (quote_seq db).

Definition set_payments (db : DB) (ps : list Payment.t) (k : pk) : DB :=
  mkDB (users db) (products db) (orders db) (order_items db)
       (delivery_updates db) (invoices db) ps (credit_notes db) (quotes db)
       (order_seq db) (order_item_seq db) (delivery_status_seq db)
       (invoice_seq db) k (credit_note_seq db) (quote_seq db).

Definition set_credit_notes (db : DB) (cs : list CreditNote.t) (k : pk) : DB :=
  mkDB (users db) (products db) (orders db) (order_items db)
       (delivery_updates db) (invoices db) (payments db) cs (quotes db)
       (order_seq db) (order_item_seq db) (delivery_status_seq db)
       (invoice_seq db) (payment_seq db) k (quote_seq db).

Definition set_quotes (db : DB) (qs : list Quote.t) (k : pk) : DB :=
  mkDB (users db) (products db) (orders db) (order_items db)
       (delivery_updates db) (invoices db) (payments db) (credit_notes db) qs
       (order_seq db) (order_item_seq db) (delivery_status_seq db)
       (invoice_seq db) (payment_seq db) (credit_note_seq db) k.

Inductive Exc :=
| ValueError          (* int() of a string that is no integer literal *)
| Product_DoesNotExist
| DoesNotExist        (* of any other model *)
| IntegrityError      (* unique or check constraint *)
| ProtectedError      (* delete of a row a PROTECT foreign key points to *)
| DatabaseError.      (* save(update_fields=...) that updates no row *)

Inductive result (A : Type) :=
| Ok (a : A)
| Raise (e : Exc).
Arguments Ok {A} a.
Arguments Raise {A} e.

Definition M (A : Type) : Type := DB -> DB * result A.

Definition ret {A} (a : A) : M A := fun db => (db, Ok a).

Definition bind {A B} (c : M A) (f : A -> M B) : M B :=
  fun db =>
    match c db with
    | (db', Ok a) => f a db'
    | (db', Raise e) => (db', Raise e)
    end.

Definition raise {A} (e : Exc) : M A := fun db => (db, Raise e).
Definition get : M DB := fun db => (db, Ok db).
Definition put (db : DB) : M unit := fun _ => (db, Ok tt).

(** [try: c except e: h e]; the handler runs in the state the exception
    left behind. *)
Definition try_except {A} (c : M A) (h : Exc -> M A) : M A :=
  fun db =>
    match c db with
    | (db', Ok a) => (db', Ok a)
    | (db', Raise e) => h e db'
    end.

Notation "x <- c ;; k" := (bind c (fun x => k))
  (at level 61, c at next level, right associativity).
Notation "c ;;; k" := (bind c (fun _ => k))
  (at level 61, right associativity).

(** ** Query helpers *)

(** [objects.order_by('-id').first()]: the row with the greatest key. *)
Fixpoint last_by_id {A} (id : A -> pk) (rows : list A) : option A :=
  match rows with
  | [] => None
  | r :: rest =>
      match last_by_id id rest with
      | Some m => if id m <? id r then Some r else Some m
      | None => Some r
      end
  end.

Definition find_by_id {A} (id : A -> pk) (k : pk) (rows : list A) : option A :=
  find (fun r => id r =? k) rows.

(** [UPDATE ... WHERE id = k] with the new row [r]. *)
Definition replace_by_id {A} (id : A -> pk) (r : A) (rows : list A) : list A :=
  map (fun x => if id x =? id r then r else x) rows.

Definition int_or_raise (s : string) : M Z :=
  match Py.int s with
  | Some n => ret n
  | None => raise ValueError
  end.

(** ** orders/models.py and billing/models.py: model methods and the ORM
    calls the code makes.  [today] is [timezone.now().date()]. *)

Inductive Error :=
| EmptyOrder
| ValidationError
| ProductIdRequired
| InsufficientStock (product : pk) (available requested : Z)
| ProductNotFound (product_id : pk)
| ItemError (e : Exc)
| AlreadyDelivered.

Inductive Response :=
| HTTP_201_CREATED (id : pk)
| HTTP_200_OK (id : pk) (invoice_number : option string)
| HTTP_400_BAD_REQUEST (e : Error)
| HTTP_404_NOT_FOUND
| HTTP_500_INTERNAL_SERVER_ERROR (e : Exc).

(** [Invoice.save], before [super().save]: amounts that are zero (or not
    given) are derived from the subtotal and the tax rate. *)
Definition Invoice_derive (self : Invoice.t) : Invoice.t :=
  let self :=
    if is_zero (Invoice.tax_amount self)
    then Invoice.with_tax_amount self
           (Invoice.subtotal self * (Invoice.tax_rate self / Q2Qc 100))%Qc
    else self in
  if is_zero (Invoice.total_amount self)
  then Invoice.with_total_amount self
         (Invoice.subtotal self + Invoice.tax_amount self)%Qc
  else self.

(** Insert of an invoice row: [invoice_number] is unique and [order] is a
    one-to-one field. *)
Definition Invoice_insert (self : Invoice.t) (k : pk) : M Invoice.t :=
  db <- get ;;
  if (existsb (fun i => Invoice.invoice_number i =? Invoice.invoice_number self)%string
              (invoices db)
      || existsb (fun i => Invoice.order i =? Invoice.order self) (invoices db))%bool
  then raise IntegrityError
  else
    let row := Invoice.with_id self k in
    put (set_invoices db (invoices db ++ [row]) (Z.max (invoice_seq db) k)) ;;;
    ret row.

(** [Invoice.objects.create(...)] *)
Definition Invoice_objects_create (fields : Invoice.t) : M Invoice.t :=
  db <- get ;;
  Invoice_insert (Invoice_derive fields) (invoice_seq db + 1).

(** [invoice.save()] of an instance that has a key. *)
Definition Invoice_save (self : Invoice.t) : M unit :=
  let self := Invoice_derive self in
  db <- get ;;
  match find_by_id Invoice.id (Invoice.id self) (invoices db) with
  | Some _ =>
      put (set_invoices db (replace_by_id Invoice.id self (invoices db))
                        (invoice_seq db))
  | None => Invoice_insert self (Invoice.id self) ;;; ret tt
  end.

Definition Invoice_get (k : pk) : M Invoice.t :=
  db <- get ;;
  match find_by_id Invoice.id k (invoices db) with
  | Some i => ret i
  | None => raise DoesNotExist
  end.

(** [sum(payment.amount for payment in invoice.payments.all())] *)
Definition total_paid (db : DB) (invoice : pk) : Decimal :=
  fold_left Qcplus
    (map Payment.amount
         (filter (fun p => Payment.invoice p =? invoice) (payments db)))
    0%Qc.

(** [Payment.save] of a new payment. *)
Definition Payment_save (self : Payment.t) : M Payment.t :=
  db <- get ;;
  let k := payment_seq db + 1 in
  let self := Payment.with_id self k in
  put (set_payments db (payments db ++ [self]) k) ;;;
  invoice <- Invoice_get (Payment.invoice self) ;;
  db <- get ;;
  let paid := total_paid db (Invoice.id invoice) in
  let invoice :=
    if Decimal_geb paid (Invoice.total_amount invoice)
    then Invoice.with_status invoice Invoice.PAID
    else if Decimal_gtb paid 0%Qc
         then Invoice.with_status invoice Invoice.PARTIALLY_PAID
         else invoice in
  Invoice_save invoice ;;;
  ret self.

(** [OrderItem.save]: the line total is recomputed, the row written.
    [quantity] is a [PositiveIntegerField]. *)
Definition OrderItem_save (adding : bool) (self : OrderItem.t) : M OrderItem.t :=
  let self :=
    OrderItem.with_total_price self
      (Decimal_of_int (OrderItem.quantity self) * OrderItem.unit_price self)%Qc in
  db <- get ;;
  if OrderItem.quantity self <? 0 then raise IntegrityError
  else if adding then
    let k := order_item_seq db + 1 in
    let row := OrderItem.with_id self k in
    put (set_order_items db (order_items db ++ [row]) k) ;;;
    ret row
  else
    match find_by_id OrderItem.id (OrderItem.id self) (order_items db) with
    | Some _ =>
        put (set_order_items db
               (replace_by_id OrderItem.id self (order_items db))
               (order_item_seq db)) ;;;
        ret self
    | None =>
        put (set_order_items db (order_items db ++ [self])
               (Z.max (order_item_seq db) (OrderItem.id self))) ;;;
        ret self
    end.

(** [OrderItem.objects.create(...)] *)
Definition OrderItem_objects_create (fields : OrderItem.t) : M OrderItem.t :=
  OrderItem_save true fields.

Definition Product_objects_get (k : pk) : M Product.t :=
  db <- get ;;
  match find_by_id Product.id k (products db) with
  | Some p => ret p
  | None => raise Product_DoesNotExist
  end.

(** [product.save()]; [stock_quantity] is a [PositiveIntegerField]. *)
Definition Product_save (self : Product.t) : M unit :=
  db <- get ;;
  if Product.stock_quantity self <? 0 then raise IntegrityError
  else put (set_products db (replace_by_id Product.id self (products db))).

(** ** orders/signals.py *)

(** The invoice number of [handle_order_status_change] and of
    [InvoiceSerializer.create]. *)
Definition next_invoice_number : M string :=
  db <- get ;;
  match last_by_id Invoice.id (invoices db) with
  | Some last_invoice =>
      last_number <-
        int_or_raise (Py.slice_from 3 (Invoice.invoice_number last_invoice)) ;;
      ret ("INV" ++ Py.zfill 6 (Py.str (last_number + 1)))
  | None => ret "INV000001"
  end.

Definition handle_order_status_change (today : date) (instance : Order.t)
    (created : bool) : M unit :=
  if created then ret tt
  else if Order.status_eqb (Order.status instance) Order.DELIVERED then
    db <- get ;;
    if negb (existsb (fun i => Invoice.order i =? Order.id instance)
                     (invoices db))
    then
      let issue_date := today in
      let due_date := issue_date + 30 in
      invoice_number <- next_invoice_number ;;
      let tax_rate := Q2Qc 20 in
      let subtotal := Order.total_amount instance in
      let tax_amount := (subtotal * (tax_rate / Q2Qc 100))%Qc in
      let total_amount := (subtotal + tax_amount)%Qc in
      Invoice_objects_create
        (Invoice.mk 0 invoice_number (Order.id instance)
           (Order.client instance) Invoice.PENDING issue_date due_date
           subtotal tax_rate tax_amount total_amount
           ("Automatically generated for delivered order "
              ++ Order.order_number instance)) ;;;
      ret tt
    else ret tt
  else ret tt.

(** [Order.objects.create(...)]: insert, then [post_save] with
    [created=True].  [order_number] is unique. *)
Definition Order_objects_create (today : date) (fields : Order.t) : M Order.t :=
  db <- get ;;
  if existsb (fun o => Order.order_number o =? Order.order_number fields)%string
             (orders db)
  then raise IntegrityError
  else
    let k := order_seq db + 1 in
    let row := Order.with_id fields k in
    put (set_orders db (orders db ++ [row]) k) ;;;
    handle_order_status_change today row true ;;;
    ret row.

(** [order.save()] of an instance that has a key: the row is updated
    (inserted if it is gone), then [post_save] runs. *)
Definition Order_save (today : date) (self : Order.t) : M unit :=
  db <- get ;;
  match find_by_id Order.id (Order.id self) (orders db) with
  | Some old =>
      if (negb (Order.order_number old =? Order.order_number self)%string
          && existsb (fun o => Order.order_number o =? Order.order_number self)%string
                     (orders db))%bool
      then raise IntegrityError
      else
        put (set_orders db (replace_by_id Order.id self (orders db))
                        (order_seq db)) ;;;
        handle_order_status_change today self false
  | None =>
      if existsb (fun o => Order.order_number o =? Order.order_number self)%string
                 (orders db)
      then raise IntegrityError
      else
        put (set_orders db (orders db ++ [self])
                        (Z.max (order_seq db) (Order.id self))) ;;;
        handle_order_status_change today self true
  end.

(** [order.save(update_fields=['status'])] *)
Definition Order_save_status (today : date) (self : Order.t) : M unit :=
  db <- get ;;
  match find_by_id Order.id (Order.id self) (orders db) with
  | Some old =>
      put (set_orders db
             (replace_by_id Order.id (Order.with_status old (Order.status self))
                            (orders db))
             (order_seq db)) ;;;
      handle_order_status_change today self false
  | None => raise DatabaseError
  end.

(** [order.delete()]: items and delivery updates cascade, an invoice
    protects the order. *)
Definition Order_delete (self : Order.t) : M unit :=
  db <- get ;;
  if existsb (fun i => Invoice.order i =? Order.id self) (invoices db)
  then raise ProtectedError
  else
    let keep_item := fun i => negb (OrderItem.order i =? Order.id self) in
    let keep_update := fun d => negb (DeliveryStatus.order d =? Order.id self) in
    let db := set_order_items db (filter keep_item (order_items db))
                              (order_item_seq db) in
    let db := set_delivery_updates db (filter keep_update (delivery_updates db))
                                   (delivery_status_seq db) in
    put (set_orders db
           (filter (fun o => negb (Order.id o =? Order.id self)) (orders db))
           (order_seq db)).

Definition Order_get (k : pk) : M Order.t :=
  db <- get ;;
  match find_by_id Order.id k (orders db) with
  | Some o => ret o
  | None => raise DoesNotExist
  end.

Definition handle_delivery_status_update (today : date)
    (instance : DeliveryStatus.t) (created : bool) : M unit :=
  if created then
    order <- Order_get (DeliveryStatus.order instance) ;;
    if negb (Order.status_eqb (Order.status order)
                              (DeliveryStatus.status instance))
    then Order_save_status today
           (Order.with_status order (DeliveryStatus.status instance))
    else ret tt
  else ret tt.

(** [DeliveryStatus.objects.create(...)]: insert, then [post_save]. *)
Definition DeliveryStatus_objects_create (today : date)
    (fields : DeliveryStatus.t) : M DeliveryStatus.t :=
  db <- get ;;
  let k := delivery_status_seq db + 1 in
  let row := DeliveryStatus.with_id fields k in
  put (set_delivery_updates db (delivery_updates db ++ [row]) k) ;;;
  handle_delivery_status_update today row true ;;;
  ret row.

(** ** orders/serializers.py and orders/views.py *)

Record ItemData := mkItemData {
  item_product_id : option pk;     (* item_data.get('product_id') *)
  item_quantity : option Z         (* item_data.get('quantity', 1) *)
}.

Record OrderData := mkOrderData {
  data_items : list ItemData;
  data_shipping_address : string;
  data_status : option Order.Status;
  data_delivery_notes : string;
  data_delivery_date : option date
}.

Definition from_option {A} (d : A) (o : option A) : A :=
  match o with Some a => a | None => d end.

(** [OrderSerializer.validate] *)
Definition OrderSerializer_is_valid (data : OrderData) : bool :=
  negb (Py.is_empty (data_shipping_address data)).

Definition next_order_number : M string :=
  db <- get ;;
  match last_by_id Order.id (orders db) with
  | Some last_order =>
      last_number <-
        int_or_raise (Py.slice_from 3 (Order.order_number last_order)) ;;
      ret ("ORD" ++ Py.zfill 6 (Py.str (last_number + 1)))
  | None => ret "ORD000001"
  end.

(** [OrderSerializer.create], called through [serializer.save(client=...)];
    [status] is a writable field whose model default is [PENDING]. *)
Definition OrderSerializer_create (today : date) (client : pk)
    (validated_data : OrderData) : M Order.t :=
  new_number <- next_order_number ;;
  Order_objects_create today
    (Order.mk 0 new_number client
       (from_option Order.PENDING (data_status validated_data))
       0%Qc
       (data_shipping_address validated_data)
       (data_delivery_notes validated_data)
       (data_delivery_date validated_data)).

(** [not product_id] *)
Definition falsy_id (o : option pk) : bool :=
  match o with Some k => k =? 0 | None => true end.

(** The loop over [items_data] of [OrderViewSet.create]; [inl] is a
    [return Response(...)] from inside the loop, [inr] the total when the
    loop ends. *)
Fixpoint process_items (order : Order.t) (total_amount : Decimal)
    (items_data : list ItemData) : M (Response + Decimal) :=
  match items_data with
  | [] => ret (inr total_amount)
  | item_data :: rest =>
      let product_id := item_product_id item_data in
      let quantity := from_option 1 (item_quantity item_data) in
      if falsy_id product_id then
        Order_delete order ;;;
        ret (inl (HTTP_400_BAD_REQUEST ProductIdRequired))
      else
        let product_id := from_option 0 product_id in
        r <- try_except
               (product <- Product_objects_get product_id ;;
                if Product.stock_quantity product <? quantity then
                  Order_delete order ;;;
                  ret (inl (HTTP_400_BAD_REQUEST
                              (InsufficientStock (Product.id product)
                                 (Product.stock_quantity product) quantity)))
                else
                  let product :=
                    Product.with_stock_quantity product
                      (Product.stock_quantity product - quantity) in
                  Product_save product ;;;
                  let unit_price := Product.price product in
                  let item_total :=
                    (unit_price * Decimal_of_int quantity)%Qc in
                  let total_amount := (total_amount + item_total)%Qc in
                  OrderItem_objects_create
                    (OrderItem.mk 0 (Order.id order) (Product.id product)
                       quantity unit_price item_total) ;;;
                  ret (inr total_amount))
               (fun e =>
                  match e with
                  | Product_DoesNotExist =>
                      Order_delete order ;;;
                      ret (inl (HTTP_400_BAD_REQUEST
                                  (ProductNotFound product_id)))
                  | _ =>
                      Order_delete order ;;;
                      ret (inl (HTTP_400_BAD_REQUEST (ItemError e)))
                  end) ;;
        match r with
        | inl response => ret (inl response)
        | inr total_amount => process_items order total_amount rest
        end
  end.

(** [OrderViewSet.create] *)
Definition OrderViewSet_create (today : date) (user : pk)
    (request : OrderData) : M Response :=
  let items_data := data_items request in
  match items_data with
  | [] => ret (HTTP_400_BAD_REQUEST EmptyOrder)
  | _ :: _ =>
      if negb (OrderSerializer_is_valid request)
      then ret (HTTP_400_BAD_REQUEST ValidationError)
      else
        try_except
          (order <- OrderSerializer_create today user request ;;
           r <- process_items order 0%Qc items_data ;;
           match r with
           | inl response => ret response
           | inr total_amount =>
               let order := Order.with_total_amount order total_amount in
               Order_save today order ;;;
               ret (HTTP_201_CREATED (Order.id order))
           end)
          (fun e => ret (HTTP_500_INTERNAL_SERVER_ERROR e))
  end.

(** [self.get_object()] for a user that sees every order. *)
Definition get_order (k : pk) : M (option Order.t) :=
  db <- get ;; ret (find_by_id Order.id k (orders db)).

(** [OrderViewSet.mark_delivered] *)
Definition OrderViewSet_mark_delivered (today : date) (k : pk) : M Response :=
  o <- get_order k ;;
  match o with
  | None => ret HTTP_404_NOT_FOUND
  | Some order =>
      if Order.status_eqb (Order.status order) Order.DELIVERED
      then ret (HTTP_400_BAD_REQUEST AlreadyDelivered)
      else
        let order := Order.with_status order Order.DELIVERED in
        Order_save today order ;;;
        db <- get ;;
        (* order.invoice *)
        ret (HTTP_200_OK (Order.id order)
               (option_map Invoice.invoice_number
                  (find (fun i => Invoice.order i =? Order.id order)
                        (invoices db))))
  end.

(** The direct transition: the framework's update of an order with a new
    [status] ([serializer.save()] assigns the field and calls
    [order.save()]). *)
Definition OrderViewSet_update_status (today : date) (k : pk)
    (new_status : Order.Status) : M Response :=
  o <- get_order k ;;
  match o with
  | None => ret HTTP_404_NOT_FOUND
  | Some order =>
      Order_save today (Order.with_status order new_status) ;;;
      ret (HTTP_200_OK (Order.id order) None)
  end.

Record DeliveryStatusData := mkDeliveryStatusData {
  data_ds_status : Order.Status;
  data_ds_location : string;
  data_ds_notes : string
}.

(** [OrderViewSet.add_delivery_status]; [is_valid] is the verdict of
    [serializer.is_valid()]. *)
Definition OrderViewSet_add_delivery_status (today : date) (user : pk)
    (k : pk) (data : DeliveryStatusData) (is_valid : bool) : M Response :=
  o <- get_order k ;;
  match o with
  | None => ret HTTP_404_NOT_FOUND
  | Some order =>
      if is_valid then
        d <- DeliveryStatus_objects_create today
               (DeliveryStatus.mk 0 (Order.id order) (data_ds_status data)
                  (data_ds_location data) (data_ds_notes data) user) ;;
        ret (HTTP_201_CREATED (DeliveryStatus.id d))
      else ret (HTTP_400_BAD_REQUEST ValidationError)
  end.

Record OrderItemData := mkOrderItemData {
  data_oi_order : pk;
  data_oi_product : pk;
  data_oi_quantity : Z;
  data_oi_unit_price : Decimal
}.

(** The framework's [create] of [OrderItemViewSet]: the serializer
    resolves the [order] key, then [OrderItem.save] runs;
    [total_price] is read-only. *)
Definition OrderItemViewSet_create (data : OrderItemData) (is_valid : bool)
    : M Response :=
  o <- get_order (data_oi_order data) ;;
  match o with
  | None => ret (HTTP_400_BAD_REQUEST ValidationError)
  | Some _ =>
      if is_valid then
        i <- OrderItem_save true
               (OrderItem.mk 0 (data_oi_order data) (data_oi_product data)
                  (data_oi_quantity data) (data_oi_unit_price data) 0%Qc) ;;
        ret (HTTP_201_CREATED (OrderItem.id i))
      else ret (HTTP_400_BAD_REQUEST ValidationError)
  end.

(** The framework's [update] of [OrderItemViewSet]. *)
Definition OrderItemViewSet_update (k : pk) (data : OrderItemData)
    (is_valid : bool) : M Response :=
  db <- get ;;
  match find_by_id OrderItem.id k (order_items db) with
  | None => ret HTTP_404_NOT_FOUND
  | Some item =>
      o <- get_order (data_oi_order data) ;;
      match o with
      | None => ret (HTTP_400_BAD_REQUEST ValidationError)
      | Some _ =>
          if is_valid then
            OrderItem_save false
              (OrderItem.mk (OrderItem.id item) (data_oi_order data)
                 (data_oi_product data) (data_oi_quantity data)
                 (data_oi_unit_price data) (OrderItem.total_price item)) ;;;
            ret (HTTP_200_OK (OrderItem.id item) None)
          else ret (HTTP_400_BAD_REQUEST ValidationError)
      end
  end.

(** ** billing/serializers.py and billing/views.py *)

Record InvoiceData := mkInvoiceData {
  data_inv_order : pk;
  data_inv_client : pk;
  data_inv_status : option Invoice.Status;
  data_inv_issue_date : date;
  data_inv_due_date : date;
  data_inv_subtotal : Decimal;
  data_inv_tax_rate : option Decimal;
  data_inv_notes : string
}.

(** [InvoiceSerializer.create]: [tax_amount] and [total_amount] are
    read-only, so the instance is built without them. *)
Definition InvoiceSerializer_create (validated_data : InvoiceData) : M Invoice.t :=
  new_number <- next_invoice_number ;;
  Invoice_objects_create
    (Invoice.mk 0 new_number
       (data_inv_order validated_data) (data_inv_client validated_data)
       (from_option Invoice.DRAFT (data_inv_status validated_data))
       (data_inv_issue_date validated_data)
       (data_inv_due_date validated_data)
       (data_inv_subtotal validated_data)
       (from_option (Q2Qc 20) (data_inv_tax_rate validated_data))
       0%Qc 0%Qc
       (data_inv_notes validated_data)).

(** The framework's [create] of [InvoiceViewSet]; the serializer resolves
    the [order] key, an unknown key is a validation error. *)
Definition InvoiceViewSet_create (data : InvoiceData) (is_valid : bool)
    : M Response :=
  o <- get_order (data_inv_order data) ;;
  match o with
  | None => ret (HTTP_400_BAD_REQUEST ValidationError)
  | Some _ =>
      if is_valid then
        i <- InvoiceSerializer_create data ;;
        ret (HTTP_201_CREATED (Invoice.id i))
      else ret (HTTP_400_BAD_REQUEST ValidationError)
  end.

Definition get_invoice (k : pk) : M (option Invoice.t) :=
  db <- get ;; ret (find_by_id Invoice.id k (invoices db)).

Record PaymentData := mkPaymentData {
  data_pay_amount : Decimal;
  data_pay_method : Payment.PaymentMethod;
  data_pay_date : date;
  data_pay_transaction_id : string;
  data_pay_notes : string
}.

(** [InvoiceViewSet.add_payment] *)
Definition InvoiceViewSet_add_payment (user : pk) (k : pk)
    (data : PaymentData) (is_valid : bool) : M Response :=
  i <- get_invoice k ;;
  match i with
  | None => ret HTTP_404_NOT_FOUND
  | Some invoice =>
      if is_valid then
        p <- Payment_save
               (Payment.mk 0 (Invoice.id invoice) (data_pay_amount data)
                  (data_pay_method data) (data_pay_date data)
                  (data_pay_transaction_id data) (data_pay_notes data) user) ;;
        ret (HTTP_201_CREATED (Payment.id p))
      else ret (HTTP_400_BAD_REQUEST ValidationError)
  end.

Record CreditNoteData := mkCreditNoteData {
  data_cn_amount : Decimal;
  data_cn_reason : string;
  data_cn_issue_date : date
}.

Definition next_credit_note_number : M string :=
  db <- get ;;
  match last_by_id CreditNote.id (credit_notes db) with
  | Some last_cn =>
      last_number <-
        int_or_raise (Py.slice_from 2 (CreditNote.credit_note_number last_cn)) ;;
      ret ("CN" ++ Py.zfill 6 (Py.str (last_number + 1)))
  | None => ret "CN000001"
  end.

(** [CreditNoteSerializer.create]; [credit_note_number] is unique. *)
Definition CreditNoteSerializer_create (invoice : pk) (created_by : pk)
    (validated_data : CreditNoteData) : M CreditNote.t :=
  new_number <- next_credit_note_number ;;
  db <- get ;;
  if existsb (fun c => CreditNote.credit_note_number c =? new_number)%string
             (credit_notes db)
  then raise IntegrityError
  else
    let k := credit_note_seq db + 1 in
    let row :=
      CreditNote.mk k new_number invoice (data_cn_amount validated_data)
        (data_cn_reason validated_data) (data_cn_issue_date validated_data)
        created_by in
    put (set_credit_notes db (credit_notes db ++ [row]) k) ;;;
    ret row.

(** [InvoiceViewSet.add_credit_note] *)
Definition InvoiceViewSet_add_credit_note (user : pk) (k : pk)
    (data : CreditNoteData) (is_valid : bool) : M Response :=
  i <- get_invoice k ;;
  match i with
  | None => ret HTTP_404_NOT_FOUND
  | Some invoice =>
      if is_valid then
        c <- CreditNoteSerializer_create (Invoice.id invoice) user data ;;
        ret (HTTP_201_CREATED (CreditNote.id c))
      else ret (HTTP_400_BAD_REQUEST ValidationError)
  end.

(** ** commercial/models.py *)

(** [f"{z:05d}"] *)
Definition format_05d (z : Z) : string := Py.zfill 5 (Py.str z).

(** [" ".join(parts)] *)
Fixpoint join_space (parts : list string) : string :=
  match parts with
  | [] => ""
  | [p] => p
  | p :: rest => p ++ " " ++ join_space rest
  end.

(** [Quote.save]; [adding] tells a first save from a later one. *)
Definition Quote_save (adding : bool) (self : Quote.t) : M Quote.t :=
  let self :=
    if is_zero (Quote.total self)
    then Quote.with_total self
           (Quote.subtotal self - Quote.discount self + Quote.tax self)%Qc
    else self in
  db <- get ;;
  let self :=
    if Py.is_empty (Quote.quote_number self) then
      let quote_id :=
        match last_by_id Quote.id (quotes db) with
        | Some last_quote => Quote.id last_quote + 1
        | None => 1
        end in
      Quote.with_quote_number self ("Q-" ++ format_05d quote_id)
    else self in
  self <-
    (if Py.is_empty (Quote.customer_name self) then
       match find_by_id User.id (Quote.customer self) (users db) with
       | Some customer =>
           let name_parts :=
             ((if Py.is_empty (User.first_name customer) then []
               else [User.first_name customer])
              ++ (if Py.is_empty (User.last_name customer) then []
                  else [User.last_name customer]))%list in
           match name_parts with
           | [] => ret (Quote.with_customer_name self (User.email customer))
           | _ => ret (Quote.with_customer_name self (join_space name_parts))
           end
       | None => raise DoesNotExist
       end
     else ret self) ;;
  if adding then
    if existsb (fun q => Quote.quote_number q =? Quote.quote_number self)%string
               (quotes db)
    then raise IntegrityError
    else
      let k := quote_seq db + 1 in
      let row := Quote.with_id self k in
      put (set_quotes db (quotes db ++ [row]) k) ;;;
      ret row
  else
    put (set_quotes db (replace_by_id Quote.id self (quotes db))
                    (quote_seq db)) ;;;
    ret self.

(** ** Vocabulary of the statements *)

Module PyFacts.

Fixpoint all_digits (s : string) : bool :=
  match s with
  | EmptyString => true
  | String c r => (Py.is_digit c && all_digits r)%bool
  end.

(** [k] leading zero digits in front of a decimal numeral. *)
Fixpoint pad_uint (k : nat) (d : Decimal.uint) : Decimal.uint :=
  match k with O => d | S k' => Decimal.D0 (pad_uint k' d) end.

End PyFacts.


(** The number [Quote.save] gives a quote that has none. *)
Definition quote_number_of_save (db : DB) : string :=
  "Q-" ++ format_05d
            (match last_by_id Quote.id (quotes db) with
             | Some last_quote => Quote.id last_quote + 1
             | None => 1
             end).


(** A small database used in the examples: two products, one delivered
    order of 25.00 and its invoice of 30.00. *)
Definition sample_order : Order.t :=
  Order.mk 1 "ORD000001" 7 Order.DELIVERED (Q2Qc 25) "12 rue des Lilas" "" None.

Definition sample_invoice : Invoice.t :=
  Invoice.mk 1 "INV000001" 1 7 Invoice.PENDING 100 130 (Q2Qc 25) (Q2Qc 20)
    (Q2Qc 5) (Q2Qc 30) "".

Definition sample_products : list Product.t :=
  [Product.mk 1 "panel A" (Q2Qc 10) 5; Product.mk 2 "panel B" (Q2Qc 5) 3].

Definition sample_db : DB :=
  mkDB [] sample_products [sample_order] [] [] [sample_invoice] [] [] []
       1 0 0 1 0 0 0.

(** ** Consistency of the database *)

(** [number] is [prefix] followed by [n >= 1] padded to six digits. *)
Definition numbered (prefix number : string) (n : Z) : Prop :=
  1 <= n /\ number = prefix ++ Py.zfill 6 (Py.str n).

(** The (key, number) pairs of a table are in sequence: keys were issued,
    every number is well formed, and numbers grow with keys. *)
Definition in_sequence (prefix : string) (rows : list (pk * string))
    (seq : pk) : Prop :=
  (forall k s, In (k, s) rows -> k <= seq /\ exists n, numbered prefix s n)
  /\ (forall k s n k' s' n',
        In (k, s) rows -> In (k', s') rows ->
        numbered prefix s n -> numbered prefix s' n' ->
        k <= k' -> n <= n').

Definition invoice_keys (db : DB) : list (pk * string) :=
  map (fun i => (Invoice.id i, Invoice.invoice_number i)) (invoices db).

Definition credit_note_keys (db : DB) : list (pk * string) :=
  map (fun c => (CreditNote.id c, CreditNote.credit_note_number c))
      (credit_notes db).

(** At most one invoice per order. *)
Definition one_invoice_per_order (db : DB) : Prop :=
  NoDup (map Invoice.order (invoices db)).

Record consistent (db : DB) : Prop := mk_consistent {
  invoices_in_sequence : in_sequence "INV" (invoice_keys db) (invoice_seq db);
  credit_notes_in_sequence :
    in_sequence "CN" (credit_note_keys db) (credit_note_seq db);
  invoice_unique : one_invoice_per_order db;
  invoice_ids_unique : NoDup (map Invoice.id (invoices db));
  order_keys_issued :
    forall o, In o (orders db) -> Order.id o <= order_seq db;
  invoice_orders_issued :
    forall i, In i (invoices db) -> Invoice.order i <= order_seq db;
  item_orders_issued :
    forall i, In i (order_items db) -> OrderItem.order i <= order_seq db
}.

(** One request served. *)
Inductive step : DB -> DB -> Prop :=
| step_create today user request db :
    step db (fst (OrderViewSet_create today user request db))
| step_update_status today k s db :
    step db (fst (OrderViewSet_update_status today k s db))
| step_mark_delivered today k db :
    step db (fst (OrderViewSet_mark_delivered today k db))
| step_add_delivery_status today user k data v db :
    step db (fst (OrderViewSet_add_delivery_status today user k data v db))
| step_item_create data v db :
    step db (fst (OrderItemViewSet_create data v db))
| step_item_update k data v db :
    step db (fst (OrderItemViewSet_update k data v db))
| step_invoice_create data v db :
    step db (fst (InvoiceViewSet_create data v db))
| step_add_payment user k data v db :
    step db (fst (InvoiceViewSet_add_payment user k data v db))
| step_add_credit_note user k data v db :
    step db (fst (InvoiceViewSet_add_credit_note user k data v db))
| step_quote_save adding q db :
    step db (fst (Quote_save adding q db)).

(** The states the service can be in, starting from a database that holds
    only users and products. *)
Inductive reachable : DB -> Prop :=
| reachable_empty us ps : reachable (empty_db us ps)
| reachable_step db db' : reachable db -> step db db' -> reachable db'.

(** Outcome of a computation: [Q] on a result, [E] on an exception. *)
Definition hoare {A} (P : DB -> Prop) (c : M A) (Q : A -> DB -> Prop)
    (E : DB -> Prop) : Prop :=
  forall db, P db ->
    match c db with
    | (db', Ok a) => Q a db'
    | (db', Raise _) => E db'
    end.

(** The invoice [handle_order_status_change] builds for a delivered order,
    with key [k] and sequence number [n]. *)
Definition delivered_invoice (today : date) (o : Order.t) (k : pk) (n : Z)
    : Invoice.t :=
  Invoice.mk k ("INV" ++ Py.zfill 6 (Py.str n)) (Order.id o) (Order.client o)
    Invoice.PENDING today (today + 30)
    (Order.total_amount o) (Q2Qc 20)
    (Order.total_amount o * (Q2Qc 20 / Q2Qc 100))%Qc
    (Order.total_amount o + Order.total_amount o * (Q2Qc 20 / Q2Qc 100))%Qc
    ("Automatically generated for delivered order " ++ Order.order_number o).

Definition has_invoice (db : DB) (order : pk) : bool :=
  existsb (fun i => Invoice.order i =? order) (invoices db).

(** Consistent, and the order key [k] has been issued. *)
Definition issued (k : pk) (db : DB) : Prop :=
  consistent db /\ k <= order_seq db.

(** A computation that keeps [P], whether it returns or raises. *)
Definition keeps {A} (P : DB -> Prop) (c : M A) : Prop :=
  hoare P c (fun _ => P) P.



(** [db'] differs from [db] in the invoice table at most. *)
Definition only_invoices_change (db db' : DB) : Prop :=
  db' = set_invoices db (invoices db') (invoice_seq db').

Definition sample_pending_order : Order.t :=
  Order.mk 1 "ORD000001" 7 Order.PENDING (Q2Qc 25) "12 rue des Lilas" "" None.

(** One pending order of 25.00 with its two lines, no invoice yet. *)
Definition sample_pending_db : DB :=
  mkDB [] sample_products [sample_pending_order]
       [OrderItem.mk 1 1 1 2 (Q2Qc 10) (Q2Qc 20);
        OrderItem.mk 2 1 2 1 (Q2Qc 5) (Q2Qc 5)]
       [] [] [] [] [] 1 2 0 0 0 0 0.


(** The (key, number) pairs of a table. *)
Definition key_pairs {A} (id : A -> pk) (number : A -> string)
    (rows : list A) : list (pk * string) :=
  map (fun r => (id r, number r)) rows.


(** Sum over the items of an order of quantity x unit price. *)
Definition items_total (db : DB) (order : pk) : Decimal :=
  fold_right
    (fun i acc =>
       (Decimal_of_int (OrderItem.quantity i) * OrderItem.unit_price i + acc)%Qc)
    0%Qc
    (filter (fun i => OrderItem.order i =? order) (order_items db)).

(** The stored order [k] has the total of its items. *)
Definition order_total_matches (db : DB) (k : pk) : Prop :=
  exists o,
    find_by_id Order.id k (orders db) = Some o
    /\ Order.total_amount o = items_total db k.

(** From [db] to [db'] no order item was written and every stored order
    kept its total. *)
Definition totals_kept (db db' : DB) : Prop :=
  order_items db' = order_items db
  /\ forall k o,
       find_by_id Order.id k (orders db) = Some o ->
       exists o', find_by_id Order.id k (orders db') = Some o'
                  /\ Order.total_amount o' = Order.total_amount o.

(** The requests that change a status or the billing records. *)
Inductive status_or_billing_step : DB -> DB -> Prop :=
| sb_update_status today k s db :
    status_or_billing_step db (fst (OrderViewSet_update_status today k s db))
| sb_mark_delivered today k db :
    status_or_billing_step db (fst (OrderViewSet_mark_delivered today k db))
| sb_add_delivery_status today user k data v db :
    status_or_billing_step db
      (fst (OrderViewSet_add_delivery_status today user k data v db))
| sb_add_payment user k data v db :
    status_or_billing_step db
      (fst (InvoiceViewSet_add_payment user k data v db))
| sb_add_credit_note user k data v db :
    status_or_billing_step db
      (fst (InvoiceViewSet_add_credit_note user k data v db)).

(** [db] has the orders and order items of [db0]. *)
Definition same_orders (db0 db : DB) : Prop :=
  orders db = orders db0 /\ order_items db = order_items db0.

(** ** Further vocabulary *)

(** No product has a negative stock. *)
Definition stock_nonnegative (db : DB) : Prop :=
  forall p, In p (products db) -> 0 <= Product.stock_quantity p.

(** Every stored order item has a quantity that is not negative and the
    line total quantity x unit price. *)
Definition items_priced (db : DB) : Prop :=
  forall i, In i (order_items db) ->
    0 <= OrderItem.quantity i
    /\ OrderItem.total_price i
       = (Decimal_of_int (OrderItem.quantity i) * OrderItem.unit_price i)%Qc.


(** The rows of other orders than [order]. *)
Definition other_items (order : Order.t) (its : list OrderItem.t)
    : list OrderItem.t :=
  filter (fun i => negb (OrderItem.order i =? Order.id order)) its.

Definition other_orders (order : Order.t) (os : list Order.t)
    : list Order.t :=
  filter (fun o => negb (Order.id o =? Order.id order)) os.

(** While the items of the new order [order] are processed from the
    state [db0]: orders, their key counter and invoices are those of
    [db0], and so are the items of the other orders. *)
Definition processing (order : Order.t) (db0 cur : DB) : Prop :=
  orders cur = orders db0
  /\ order_seq cur = order_seq db0
  /\ invoices cur = invoices db0
  /\ other_items order (order_items cur) = other_items order (order_items db0).

(** [order] and its items are gone, the rest is as in [db0]. *)
Definition order_removed (order : Order.t) (db0 d : DB) : Prop :=
  orders d = other_orders order (orders db0)
  /\ order_seq d = order_seq db0
  /\ order_items d = other_items order (order_items db0)
  /\ invoices d = invoices db0.

(** The quantity of product [p] that the items of a request ask for. *)
Definition ordered_quantity (items_data : list ItemData) (p : pk) : Z :=
  fold_right
    (fun item_data acc =>
       if from_option 0 (item_product_id item_data) =? p
       then from_option 1 (item_quantity item_data) + acc
       else acc)
    0 items_data.



(** ** commercial/views.py: the status actions of [QuoteViewSet] *)

Definition Quote_with_status (q : Quote.t) (s : Quote.Status) : Quote.t :=
  Quote.mk (Quote.id q) (Quote.quote_number q) (Quote.customer q)
    (Quote.customer_name q) (Quote.valid_until q) s (Quote.subtotal q)
    (Quote.discount q) (Quote.tax q) (Quote.total q) (Quote.notes q).

Definition Quote_status_eqb (a b : Quote.Status) : bool :=
  match a, b with
  | Quote.DRAFT, Quote.DRAFT | Quote.SENT, Quote.SENT
  | Quote.ACCEPTED, Quote.ACCEPTED | Quote.REJECTED, Quote.REJECTED
  | Quote.EXPIRED, Quote.EXPIRED | Quote.CONVERTED, Quote.CONVERTED => true
  | _, _ => false
  end.

(** [dict(Quote.Status.choices)] read at a status code. *)
Definition Quote_Status_of_code (code : string) : option Quote.Status :=
  if (code =? "DR")%string then Some Quote.DRAFT
  else if (code =? "SE")%string then Some Quote.SENT
  else if (code =? "AC")%string then Some Quote.ACCEPTED
  else if (code =? "RE")%string then Some Quote.REJECTED
  else if (code =? "EX")%string then Some Quote.EXPIRED
  else if (code =? "CO")%string then Some Quote.CONVERTED
  else None.

Inductive QuoteError :=
| OnlyAcceptedQuotes
| InvalidStatus.

Inductive QuoteResponse :=
| Quote_HTTP_200_OK (quote : Quote.t)
| Quote_HTTP_400_BAD_REQUEST (e : QuoteError)
| Quote_HTTP_404_NOT_FOUND.

(** [self.get_object()] for a user that sees every quote. *)
Definition get_quote (k : pk) : M (option Quote.t) :=
  db <- get ;; ret (find_by_id Quote.id k (quotes db)).

(** [QuoteViewSet.send] *)
Definition QuoteViewSet_send (k : pk) : M QuoteResponse :=
  q <- get_quote k ;;
  match q with
  | None => ret Quote_HTTP_404_NOT_FOUND
  | Some quote =>
      quote <- Quote_save false (Quote_with_status quote Quote.SENT) ;;
      ret (Quote_HTTP_200_OK quote)
  end.

(** [QuoteViewSet.create_order] *)
Definition QuoteViewSet_create_order (k : pk) : M QuoteResponse :=
  q <- get_quote k ;;
  match q with
  | None => ret Quote_HTTP_404_NOT_FOUND
  | Some quote =>
      if negb (Quote_status_eqb (Quote.status quote) Quote.ACCEPTED)
      then ret (Quote_HTTP_400_BAD_REQUEST OnlyAcceptedQuotes)
      else
        quote <- Quote_save false (Quote_with_status quote Quote.CONVERTED) ;;
        ret (Quote_HTTP_200_OK quote)
  end.

(** [QuoteViewSet.update_status]; [new_status] is
    [request.data.get('status')]. *)
Definition QuoteViewSet_update_status (k : pk) (new_status : option string)
    : M QuoteResponse :=
  q <- get_quote k ;;
  match q with
  | None => ret Quote_HTTP_404_NOT_FOUND
  | Some quote =>
      match new_status with
      | None => ret (Quote_HTTP_400_BAD_REQUEST InvalidStatus)
      | Some code =>
          if Py.is_empty code
          then ret (Quote_HTTP_400_BAD_REQUEST InvalidStatus)
          else
            match Quote_Status_of_code code with
            | None => ret (Quote_HTTP_400_BAD_REQUEST InvalidStatus)
            | Some s =>
                quote <- Quote_save false (Quote_with_status quote s) ;;
                ret (Quote_HTTP_200_OK quote)
            end
      end
  end.

(** A database with one quote that has been converted. *)
Definition sample_quote : Quote.t :=
  Quote.mk 1 "Q-00001" 7 "Atelier Durand" 200 Quote.CONVERTED (Q2Qc 100)
    (Q2Qc 10) (Q2Qc 18) (Q2Qc 108) "".

Definition sample_quote_db : DB :=
  mkDB [] sample_products [] [] [] [] [] [] [sample_quote] 0 0 0 0 0 0 1.

(** ** inventory/models.py *)

Module StockMovement.
Inductive MovementType := PURCHASE | SALE | RETURN | ADJUSTMENT | DAMAGED.

Record t := mk {
    id : pk;
    product : pk;
    movement_type : MovementType;
    quantity : Z;
    reference_number : string;
    notes : string;
    performed_by : pk
  }.
Definition with_id (m : t) (k : pk) : t :=
    mk k (product m) (movement_type m) (quantity m) (reference_number m)
       (notes m) (performed_by m).
End StockMovement.

(** The table of stock movements, with the last key issued; it is
    threaded beside the database. *)
Record Movements := mkMovements {
  stock_movements : list StockMovement.t;
  stock_movement_seq : pk
}.

(** [StockMovement.save]: the quantity is added to the stock of the
    product and the product saved, then the movement row is written.
    [adding] tells a first save from a later one. *)
Definition StockMovement_save (adding : bool) (self : StockMovement.t)
    (tbl : Movements) : M (StockMovement.t * Movements) :=
  product <- Product_objects_get (StockMovement.product self) ;;
  let product :=
    Product.with_stock_quantity product
      (Product.stock_quantity product + StockMovement.quantity self) in
  Product_save product ;;;
  if adding then
    let k := stock_movement_seq tbl + 1 in
    let row := StockMovement.with_id self k in
    ret (row, mkMovements (stock_movements tbl ++ [row]) k)
  else
    match find_by_id StockMovement.id (StockMovement.id self)
            (stock_movements tbl) with
    | Some _ =>
        ret (self,
             mkMovements
               (replace_by_id StockMovement.id self (stock_movements tbl))
               (stock_movement_seq tbl))
    | None =>
        ret (self,
             mkMovements (stock_movements tbl ++ [self])
               (Z.max (stock_movement_seq tbl) (StockMovement.id self)))
    end.

(** * Proofs *)

(** ** Integer literals and zero padding *)

Section PyLemmas.
Import PyFacts.

Lemma digit_not_space c : Py.is_digit c = true -> Py.is_space c = false.
Proof.
  unfold Py.is_digit, Py.is_space. cbv zeta.
  generalize (nat_of_ascii c). intros n H.
  apply andb_true_iff in H. destruct H as [H1 H2].
  apply Nat.leb_le in H1. apply Nat.leb_le in H2.
  apply orb_false_iff. split; apply andb_false_iff.
  - right. apply Nat.leb_gt. lia.
  - right. apply Nat.leb_gt. lia.
Qed.

Lemma digit_not_sign c :
  Py.is_digit c = true ->
  Ascii.eqb c "-"%char = false /\ Ascii.eqb c "+"%char = false.
Proof.
  intros H. split.
  - destruct (Ascii.eqb_spec c "-"%char) as [->|]; [discriminate H | reflexivity].
  - destruct (Ascii.eqb_spec c "+"%char) as [->|]; [discriminate H | reflexivity].
Qed.

Lemma all_digits_app a b :
  all_digits (a ++ b) = (all_digits a && all_digits b)%bool.
Proof.
  induction a as [|c a IH]; simpl; [reflexivity|].
  rewrite IH. now rewrite andb_assoc.
Qed.

Lemma all_digits_zeros k : all_digits (Py.zeros k) = true.
Proof. induction k; simpl; auto. Qed.

Lemma all_digits_uint d : all_digits (NilEmpty.string_of_uint d) = true.
Proof. induction d; simpl; auto. Qed.

Lemma lstrip_digits s : all_digits s = true -> Py.lstrip s = s.
Proof.
  destruct s as [|c r]; simpl; [reflexivity|].
  intros H. apply andb_true_iff in H. destruct H as [H _].
  now rewrite (digit_not_space _ H).
Qed.

Lemma rstrip_digits s : all_digits s = true -> Py.rstrip s = s.
Proof.
  induction s as [|c r IH]; simpl; [reflexivity|].
  intros H. apply andb_true_iff in H. destruct H as [H Hr].
  rewrite (IH Hr), (digit_not_space _ H). now rewrite andb_false_r.
Qed.

Lemma digit_part_digits s :
  all_digits s = true -> Py.digit_part true s = Some s.
Proof.
  induction s as [|c r IH]; simpl; [reflexivity|].
  intros H. apply andb_true_iff in H. destruct H as [H Hr].
  now rewrite H, (IH Hr).
Qed.

Lemma digits_value_digits c r :
  all_digits (String c r) = true ->
  Py.digits_value (String c r) =
  option_map (fun d => Z.of_N (N.of_uint d))
             (NilEmpty.uint_of_string (String c r)).
Proof.
  intros H. unfold Py.digits_value. simpl in H |- *.
  apply andb_true_iff in H. destruct H as [H Hr].
  now rewrite H, (digit_part_digits _ Hr).
Qed.

(** On a non-empty string of digits [int] is the decimal value. *)
Lemma int_digits c r :
  all_digits (String c r) = true ->
  Py.int (String c r) =
  option_map (fun d => Z.of_N (N.of_uint d))
             (NilEmpty.uint_of_string (String c r)).
Proof.
  intros H. unfold Py.int, Py.strip.
  rewrite (lstrip_digits _ H), (rstrip_digits _ H).
  pose proof H as H'. simpl in H'. apply andb_true_iff in H'.
  destruct H' as [Hc _]. destruct (digit_not_sign _ Hc) as [-> ->].
  now apply digits_value_digits.
Qed.

Lemma string_of_pad_uint k d :
  NilEmpty.string_of_uint (pad_uint k d) =
  Py.zeros k ++ NilEmpty.string_of_uint d.
Proof. induction k; simpl; [reflexivity | now rewrite IHk]. Qed.

Lemma of_uint_pad k d : N.of_uint (pad_uint k d) = N.of_uint d.
Proof. induction k; simpl; auto. Qed.

(** [str] of a natural number is a non-empty numeral without sign. *)
Lemma str_nonneg n :
  0 <= n ->
  exists d, d <> Decimal.Nil
            /\ Py.str n = NilEmpty.string_of_uint d
            /\ Z.of_N (N.of_uint d) = n.
Proof.
  intros Hn. destruct n as [|p|p]; [| |lia].
  - exists (Decimal.D0 Decimal.Nil). repeat split. discriminate.
  - exists (Pos.to_uint p). split; [apply DecimalPos.Unsigned.to_uint_nonnil|].
    split.
    + unfold Py.str. simpl.
      pose proof (DecimalPos.Unsigned.to_uint_nonnil p) as Hnz.
      destruct (Pos.to_uint p); [congruence | reflexivity ..].
    + unfold N.of_uint. now rewrite DecimalPos.Unsigned.of_to.
Qed.

Lemma uint_string_nonempty d :
  d <> Decimal.Nil -> exists c r, NilEmpty.string_of_uint d = String c r.
Proof. destruct d; [congruence | simpl; eauto ..]. Qed.

Lemma zfill_digits w c r :
  all_digits (String c r) = true ->
  Py.zfill w (String c r) =
  Py.zeros (w - String.length (String c r)) ++ String c r.
Proof.
  intros H. unfold Py.zfill.
  destruct (Nat.leb_spec w (String.length (String c r))) as [Hle|Hlt].
  - replace (w - String.length (String c r))%nat with O by lia. reflexivity.
  - simpl in H. apply andb_true_iff in H. destruct H as [Hc _].
    destruct (digit_not_sign _ Hc) as [-> ->]. reflexivity.
Qed.

(** Reading back a padded number: [int(str(n).zfill(w)) = n]. *)
Lemma int_zfill_str w n : 0 <= n -> Py.int (Py.zfill w (Py.str n)) = Some n.
Proof.
  intros Hn. destruct (str_nonneg n Hn) as (d & Hd & Hs & Hv).
  rewrite Hs. destruct (uint_string_nonempty d Hd) as (c & r & Hcr).
  assert (Hall : all_digits (String c r) = true)
    by (rewrite <- Hcr; apply all_digits_uint).
  rewrite Hcr, (zfill_digits w c r Hall), <- Hcr.
  set (k := (w - String.length (NilEmpty.string_of_uint d))%nat).
  rewrite <- string_of_pad_uint.
  assert (Hp : pad_uint k d <> Decimal.Nil) by (destruct k; simpl; congruence).
  destruct (uint_string_nonempty _ Hp) as (c' & r' & Hcr').
  assert (Hall' : all_digits (String c' r') = true)
    by (rewrite <- Hcr'; apply all_digits_uint).
  rewrite Hcr', (int_digits c' r' Hall'), <- Hcr', NilEmpty.usu. simpl.
  now rewrite of_uint_pad, Hv.
Qed.

Lemma zfill_str_inj w n m :
  0 <= n -> 0 <= m -> Py.zfill w (Py.str n) = Py.zfill w (Py.str m) -> n = m.
Proof.
  intros Hn Hm H. apply (f_equal Py.int) in H.
  rewrite !int_zfill_str in H by assumption. congruence.
Qed.

Lemma slice_from_app p s : Py.slice_from (String.length p) (p ++ s) = s.
Proof. induction p; simpl; auto. Qed.

Lemma append_inj_l p a b : (p ++ a = p ++ b -> a = b)%string.
Proof. induction p; simpl; intros H; [assumption|]. injection H. auto. Qed.

End PyLemmas.

(** ** Queries *)

Section Queries.
Context {A : Type} (id : A -> pk).

Lemma last_by_id_nil : last_by_id id [] = None.
Proof. reflexivity. Qed.

Lemma last_by_id_some (rows : list A) (m : A) :
  last_by_id id rows = Some m ->
  In m rows /\ forall r, In r rows -> id r <= id m.
Proof.
  revert m. induction rows as [|a rows IH]; simpl; [discriminate|].
  intros m. destruct (last_by_id id rows) as [m'|] eqn:E.
  - destruct (IH m' eq_refl) as [Hin Hmax].
    destruct (Z.ltb_spec (id m') (id a)); intros [= <-].
    + split; [now left|]. intros r [->|Hr]; [lia|]. specialize (Hmax r Hr). lia.
    + split; [now right|]. intros r [->|Hr]; [lia | now apply Hmax].
  - intros [= <-]. split; [now left|].
    destruct rows; [|simpl in E; destruct (last_by_id id rows);
                      [destruct (_ <? _)|]; discriminate].
    intros r [->|[]]. lia.
Qed.

Lemma last_by_id_nonempty (rows : list A) (a : A) :
  In a rows -> exists m, last_by_id id rows = Some m.
Proof.
  destruct rows as [|b rows]; [intros []|]. intros _. simpl.
  destruct (last_by_id id rows); [destruct (_ <? _)|]; eauto.
Qed.

Lemma same_id_same_row (rows : list A) (a b : A) :
  NoDup (map id rows) -> In a rows -> In b rows -> id a = id b -> a = b.
Proof.
  induction rows as [|x rows IH]; simpl; [intros _ []|].
  intros Hnd Ha Hb Hab. inversion Hnd as [|? ? Hx Hnd']; subst.
  destruct Ha as [->|Ha], Hb as [->|Hb]; auto.
  - exfalso. apply Hx. rewrite Hab. now apply in_map.
  - exfalso. apply Hx. rewrite <- Hab. now apply in_map.
Qed.


Lemma find_by_id_some (k : pk) (rows : list A) (a : A) :
  find_by_id id k rows = Some a -> In a rows /\ id a = k.
Proof.
  unfold find_by_id. intros H. apply find_some in H.
  destruct H as [H1 H2]. apply Z.eqb_eq in H2. auto.
Qed.

End Queries.

Arguments find_by_id : simpl never.
Arguments replace_by_id : simpl never.
Arguments last_by_id : simpl never.

(** ** Sequential identifiers *)

Ltac run := unfold bind, ret, get, put, raise, try_except; simpl.








Example int_suffix : Py.int (Py.slice_from 3 "ORD000041") = Some 41.
Proof. reflexivity. Qed.

Example int_spaces_sign : Py.int " -1_0 " = Some (-10).
Proof. reflexivity. Qed.

Example int_malformed : Py.int (Py.slice_from 3 "ORD-1001") = Some (-1001).
Proof. reflexivity. Qed.

Example int_not_a_number : Py.int "12a" = None.
Proof. reflexivity. Qed.

Example zfill_42 : Py.zfill 6 (Py.str 42) = "000042".
Proof. reflexivity. Qed.

Example zfill_wide : Py.zfill 6 (Py.str 1234567) = "1234567".
Proof. reflexivity. Qed.

Example zfill_neg : Py.zfill 6 (Py.str (-4)) = "-00004".
Proof. reflexivity. Qed.

Example first_order_number :
  next_order_number (empty_db [] []) = (empty_db [] [], Ok "ORD000001").
Proof. reflexivity. Qed.

Example quote_number_skips :
  quote_number_of_save
    (set_quotes (empty_db [] [])
       [Quote.mk 1 "Q-00001" 0 "c" 0 Quote.DRAFT 0%Qc 0%Qc 0%Qc 0%Qc "";
        Quote.mk 3 "Q-00002" 0 "c" 0 Quote.DRAFT 0%Qc 0%Qc 0%Qc 0%Qc ""] 3)
  = "Q-00004".
Proof. reflexivity. Qed.



(** ** Rows and updates *)

Lemma Invoice_derive_id i : Invoice.id (Invoice_derive i) = Invoice.id i.
Proof. unfold Invoice_derive. repeat (destruct (is_zero _)); reflexivity. Qed.


Lemma Invoice_derive_order i :
  Invoice.order (Invoice_derive i) = Invoice.order i.
Proof. unfold Invoice_derive. repeat (destruct (is_zero _)); reflexivity. Qed.

Lemma Invoice_derive_number i :
  Invoice.invoice_number (Invoice_derive i) = Invoice.invoice_number i.
Proof. unfold Invoice_derive. repeat (destruct (is_zero _)); reflexivity. Qed.

Lemma Invoice_derive_subtotal i :
  Invoice.subtotal (Invoice_derive i) = Invoice.subtotal i.
Proof. unfold Invoice_derive. repeat (destruct (is_zero _)); reflexivity. Qed.

Lemma find_replace_by_id {A} (id : A -> pk) (r old : A) rows :
  find_by_id id (id r) rows = Some old ->
  find_by_id id (id r) (replace_by_id id r rows) = Some r.
Proof.
  unfold find_by_id, replace_by_id.
  induction rows as [|a rows IH]; simpl; [discriminate|].
  destruct (id a =? id r) eqn:E.
  - intros _. simpl. now rewrite Z.eqb_refl.
  - intros H. simpl. rewrite E. auto.
Qed.

Lemma find_replace_other {A} (id : A -> pk) (r : A) (k : pk) rows :
  k <> id r ->
  find_by_id id k (replace_by_id id r rows) = find_by_id id k rows.
Proof.
  intros Hk. unfold find_by_id, replace_by_id.
  induction rows as [|a rows IH]; simpl; [reflexivity|].
  destruct (id a =? id r) eqn:E.
  - apply Z.eqb_eq in E. simpl.
    destruct (Z.eqb_spec (id r) k); [congruence|].
    destruct (Z.eqb_spec (id a) k); [congruence|]. exact IH.
  - simpl. destruct (id a =? k); [reflexivity | exact IH].
Qed.

Lemma map_id_replace_by_id {A} (id : A -> pk) (r : A) rows :
  map id (replace_by_id id r rows) = map id rows.
Proof.
  unfold replace_by_id. induction rows as [|a rows IH]; simpl; [reflexivity|].
  rewrite IH. destruct (Z.eqb_spec (id a) (id r)); congruence.
Qed.



Lemma Invoice_save_found self db old :
  find_by_id Invoice.id (Invoice.id self) (invoices db) = Some old ->
  Invoice_save self db =
  (set_invoices db (replace_by_id Invoice.id (Invoice_derive self) (invoices db))
                (invoice_seq db), Ok tt).
Proof.
  intros H. unfold Invoice_save. run.
  rewrite Invoice_derive_id, H. reflexivity.
Qed.




Example payment_in_full :
  option_map Invoice.status
    (find_by_id Invoice.id 1
       (invoices
          (fst (Payment_save (Payment.mk 0 1 (Q2Qc 30) Payment.CASH 101 "" "" 7)
                  sample_db))))
  = Some Invoice.PAID.
Proof. reflexivity. Qed.

(** ** Reasoning about computations *)

Section Hoare.
Context {A : Type}.

Lemma hoare_ret (P : DB -> Prop) (a : A) (Q : A -> DB -> Prop) E :
  (forall db, P db -> Q a db) -> hoare P (ret a) Q E.
Proof. intros H db HP. simpl. auto. Qed.

Lemma hoare_raise (P : DB -> Prop) (e : Exc) (Q : A -> DB -> Prop)
    (E : DB -> Prop) :
  (forall db, P db -> E db) -> hoare P (raise e) Q E.
Proof. intros H db HP. simpl. auto. Qed.

Lemma hoare_conseq (P P' : DB -> Prop) (c : M A) (Q Q' : A -> DB -> Prop)
    (E E' : DB -> Prop) :
  hoare P' c Q' E' ->
  (forall db, P db -> P' db) ->
  (forall a db, Q' a db -> Q a db) ->
  (forall db, E' db -> E db) ->
  hoare P c Q E.
Proof.
  intros H HP HQ HE db Hdb. specialize (H db (HP db Hdb)).
  destruct (c db) as [db' [a|e]]; auto.
Qed.

Lemma hoare_bind {B} (P : DB -> Prop) (c : M A) (f : A -> M B)
    (Q : A -> DB -> Prop) (R : B -> DB -> Prop) (E : DB -> Prop) :
  hoare P c Q E ->
  (forall a, hoare (Q a) (f a) R E) ->
  hoare P (bind c f) R E.
Proof.
  intros Hc Hf db HP. unfold bind. specialize (Hc db HP).
  destruct (c db) as [db' [a|e]]; [|exact Hc]. exact (Hf a db' Hc).
Qed.

Lemma hoare_try (P : DB -> Prop) (c : M A) (h : Exc -> M A)
    (Q : A -> DB -> Prop) (E' E : DB -> Prop) :
  hoare P c Q E' ->
  (forall e, hoare E' (h e) Q E) ->
  hoare P (try_except c h) Q E.
Proof.
  intros Hc Hh db HP. unfold try_except. specialize (Hc db HP).
  destruct (c db) as [db' [a|e]]; [exact Hc|]. exact (Hh e db' Hc).
Qed.

(** A precondition that does not depend on the state can be assumed. *)
Lemma hoare_assume (F : Prop) (P : DB -> Prop) (c : M A)
    (Q : A -> DB -> Prop) E :
  (F -> hoare P c Q E) -> hoare (fun db => F /\ P db) c Q E.
Proof. intros H db [HF HP]. exact (H HF db HP). Qed.

End Hoare.

Lemma hoare_get (P : DB -> Prop) E :
  hoare P get (fun a db => a = db /\ P db) E.
Proof. intros db HP. simpl. auto. Qed.

Lemma hoare_put (P : DB -> Prop) (db' : DB) (Q : unit -> DB -> Prop) E :
  (forall db, P db -> Q tt db') -> hoare P (put db') Q E.
Proof. intros H db HP. simpl. eauto. Qed.

(** ** Numbers in sequence *)

Lemma numbered_inj prefix s n m :
  numbered prefix s n -> numbered prefix s m -> n = m.
Proof.
  intros [Hn ->] [Hm H]. apply append_inj_l in H.
  apply (zfill_str_inj 6); [lia | lia | exact H].
Qed.

Lemma numbered_int prefix s n :
  numbered prefix s n ->
  Py.int (Py.slice_from (String.length prefix) s) = Some n.
Proof.
  intros [Hn ->]. rewrite slice_from_app. apply int_zfill_str. lia.
Qed.

Lemma in_sequence_nil prefix seq : in_sequence prefix [] seq.
Proof. split; intros *; intros []. Qed.

Section Sequence.
Context {A : Type} (id : A -> pk) (number : A -> string) (prefix : string).
Local Abbreviation keys := (key_pairs id number).

Lemma in_keys rows r : In r rows -> In (id r, number r) (keys rows).
Proof. intros H. unfold key_pairs. apply in_map_iff. eauto. Qed.

Lemma keys_in rows k s :
  In (k, s) (keys rows) -> exists r, In r rows /\ id r = k /\ number r = s.
Proof.
  unfold key_pairs. intros H. apply in_map_iff in H.
  destruct H as (r & [= <- <-] & Hr). eauto.
Qed.

(** The row with the greatest key carries the greatest number. *)
Lemma sequence_last rows seq last :
  in_sequence prefix (keys rows) seq ->
  last_by_id id rows = Some last ->
  exists n, numbered prefix (number last) n
            /\ forall r m, In r rows -> numbered prefix (number r) m -> m <= n.
Proof.
  intros [Hwf Hmono] Hlast.
  destruct (last_by_id_some id rows last Hlast) as [Hin Hmax].
  destruct (Hwf _ _ (in_keys rows last Hin)) as [_ [n Hn]].
  exists n. split; [exact Hn|]. intros r m Hr Hm.
  apply (Hmono (id r) (number r) m (id last) (number last) n);
    auto using in_keys.
Qed.

(** Appending a row with the next key and a greater number. *)
Lemma sequence_append rows seq k n r :
  in_sequence prefix (keys rows) seq ->
  seq < k -> id r = k -> numbered prefix (number r) n ->
  (forall r' m, In r' rows -> numbered prefix (number r') m -> m < n) ->
  in_sequence prefix (keys (rows ++ [r])) k.
Proof.
  intros [Hwf Hmono] Hk Hid Hn Hnew. unfold key_pairs. rewrite map_app. simpl.
  split.
  - intros k0 s H. apply in_app_or in H. destruct H as [H|[[= <- <-]|[]]].
    + destruct (Hwf _ _ H) as [Hle Hex]. split; [lia | exact Hex].
    + split; [lia | eauto].
  - intros k1 s1 n1 k2 s2 n2 H1 H2 N1 N2 Hle.
    apply in_app_or in H1. apply in_app_or in H2.
    destruct H1 as [H1|[[= <- <-]|[]]], H2 as [H2|[[= <- <-]|[]]].
    + apply (Hmono k1 s1 n1 k2 s2 n2); assumption.
    + destruct (keys_in _ _ _ H1) as (r1 & Hr1 & _ & <-).
      pose proof (numbered_inj _ _ _ _ N2 Hn). subst n2.
      specialize (Hnew r1 n1 Hr1 N1). lia.
    + destruct (Hwf _ _ H2) as [Hle2 _]. lia.
    + pose proof (numbered_inj _ _ _ _ N1 N2). lia.
Qed.

(** A number greater than all the others is not in the table. *)
Lemma sequence_fresh rows seq n s :
  in_sequence prefix (keys rows) seq ->
  numbered prefix s n ->
  (forall r' m, In r' rows -> numbered prefix (number r') m -> m < n) ->
  existsb (fun r => (number r =? s)%string) rows = false.
Proof.
  intros [Hwf _] Hn Hnew.
  destruct (existsb _ rows) eqn:E; [|reflexivity].
  apply existsb_exists in E. destruct E as (r & Hr & He).
  apply String.eqb_eq in He.
  destruct (Hwf _ _ (in_keys rows r Hr)) as [_ [m Hm]].
  pose proof (Hnew r m Hr Hm).
  rewrite He in Hm. pose proof (numbered_inj _ _ _ _ Hm Hn). lia.
Qed.

Lemma sequence_replace rows seq r :
  in_sequence prefix (keys rows) seq ->
  (forall x, In x rows -> id x = id r -> number x = number r) ->
  in_sequence prefix (keys (replace_by_id id r rows)) seq.
Proof.
  intros H Hsame.
  assert (E : keys (replace_by_id id r rows) = keys rows); [|now rewrite E].
  unfold key_pairs, replace_by_id. rewrite map_map. apply map_ext_in.
  intros x Hx. destruct (Z.eqb_spec (id x) (id r)) as [e|]; [|reflexivity].
  now rewrite (Hsame x Hx e), e.
Qed.


End Sequence.

(** ** Writes that keep the database consistent *)

Lemma consistent_empty us ps : consistent (empty_db us ps).
Proof.
  constructor; simpl; try (intros ? []);
    try apply in_sequence_nil; constructor.
Qed.

Lemma consistent_set_products db ps :
  consistent db -> consistent (set_products db ps).
Proof. intros []. constructor; assumption. Qed.

Lemma consistent_set_payments db ps k :
  consistent db -> consistent (set_payments db ps k).
Proof. intros []. constructor; assumption. Qed.

Lemma consistent_set_delivery_updates db ds k :
  consistent db -> consistent (set_delivery_updates db ds k).
Proof. intros []. constructor; assumption. Qed.

Lemma consistent_set_quotes db qs k :
  consistent db -> consistent (set_quotes db qs k).
Proof. intros []. constructor; assumption. Qed.

Lemma consistent_set_order_items db its k :
  consistent db ->
  (forall i, In i its -> OrderItem.order i <= order_seq db) ->
  consistent (set_order_items db its k).
Proof. intros [] H. constructor; assumption. Qed.

Lemma consistent_set_orders db os k :
  consistent db ->
  order_seq db <= k ->
  (forall o, In o os -> Order.id o <= k) ->
  consistent (set_orders db os k).
Proof.
  intros [] Hk Hos. constructor; simpl; try assumption.
  - intros i Hi. specialize (invoice_orders_issued0 i Hi). lia.
  - intros i Hi. specialize (item_orders_issued0 i Hi). lia.
Qed.

Lemma consistent_set_credit_notes db cs k :
  consistent db ->
  in_sequence "CN"
    (map (fun c => (CreditNote.id c, CreditNote.credit_note_number c)) cs) k ->
  consistent (set_credit_notes db cs k).
Proof. intros [] H. constructor; assumption. Qed.

Lemma consistent_set_invoices db ivs k :
  consistent db ->
  in_sequence "INV"
    (map (fun i => (Invoice.id i, Invoice.invoice_number i)) ivs) k ->
  NoDup (map Invoice.order ivs) ->
  NoDup (map Invoice.id ivs) ->
  (forall i, In i ivs -> Invoice.order i <= order_seq db) ->
  consistent (set_invoices db ivs k).
Proof. intros [] H1 H2 H3 H4. constructor; assumption. Qed.

Lemma existsb_false_not_in {A B} (f : A -> B) (eqb : B -> B -> bool)
    (rows : list A) (b : B) :
  (forall x y, eqb x y = true <-> x = y) ->
  existsb (fun r => eqb (f r) b) rows = false ->
  ~ In b (map f rows).
Proof.
  intros Heq H Hin. apply in_map_iff in Hin. destruct Hin as (r & <- & Hr).
  assert (existsb (fun r0 => eqb (f r0) (f r)) rows = true).
  { apply existsb_exists. exists r. split; [exact Hr | now apply Heq]. }
  congruence.
Qed.

Lemma NoDup_snoc {A} (l : list A) (a : A) :
  NoDup l -> ~ In a l -> NoDup (l ++ [a]).
Proof.
  intros Hl Ha. apply NoDup_app; [exact Hl | repeat constructor; intros [] |].
  intros x Hx [<-|[]]. contradiction.
Qed.

Lemma map_replace_same {A B} (id : A -> pk) (f : A -> B) (r : A) rows :
  (forall x, In x rows -> id x = id r -> f x = f r) ->
  map f (replace_by_id id r rows) = map f rows.
Proof.
  intros H. unfold replace_by_id. rewrite map_map. apply map_ext_in.
  intros x Hx. destruct (Z.eqb_spec (id x) (id r)) as [e|]; [|reflexivity].
  symmetry. auto.
Qed.

Lemma in_replace_by_id {A} (id : A -> pk) (r x : A) rows :
  In x (replace_by_id id r rows) -> x = r \/ In x rows.
Proof.
  unfold replace_by_id. intros H. apply in_map_iff in H.
  destruct H as (y & Hy & Hin). destruct (id y =? id r); subst; auto.
Qed.

(** ** Invoice creation *)

Lemma next_invoice_number_ok db :
  consistent db ->
  exists n,
    next_invoice_number db = (db, Ok ("INV" ++ Py.zfill 6 (Py.str n)))
    /\ 1 <= n
    /\ forall i m, In i (invoices db) ->
                   numbered "INV" (Invoice.invoice_number i) m -> m < n.
Proof.
  intros Hc. pose proof (invoices_in_sequence db Hc) as Hseq.
  unfold next_invoice_number. run.
  destruct (last_by_id Invoice.id (invoices db)) as [l|] eqn:E.
  - destruct (sequence_last Invoice.id Invoice.invoice_number "INV"
                (invoices db) _ l Hseq E) as (n & Hn & Hmax).
    exists (n + 1). unfold int_or_raise.
    pose proof (numbered_int _ _ _ Hn) as Hint. simpl in Hint.
    rewrite Hint. split; [reflexivity|]. destruct Hn as [Hn _].
    split; [lia|]. intros i m Hi Hm. specialize (Hmax i m Hi Hm). lia.
  - exists 1. split; [reflexivity|]. split; [lia|].
    intros i m Hi _.
    destruct (last_by_id_nonempty Invoice.id _ i Hi). congruence.
Qed.

Lemma next_credit_note_number_ok db :
  consistent db ->
  exists n,
    next_credit_note_number db = (db, Ok ("CN" ++ Py.zfill 6 (Py.str n)))
    /\ 1 <= n
    /\ forall c m, In c (credit_notes db) ->
                   numbered "CN" (CreditNote.credit_note_number c) m -> m < n.
Proof.
  intros Hc. pose proof (credit_notes_in_sequence db Hc) as Hseq.
  unfold next_credit_note_number. run.
  destruct (last_by_id CreditNote.id (credit_notes db)) as [l|] eqn:E.
  - destruct (sequence_last CreditNote.id CreditNote.credit_note_number "CN"
                (credit_notes db) _ l Hseq E) as (n & Hn & Hmax).
    exists (n + 1). unfold int_or_raise.
    pose proof (numbered_int _ _ _ Hn) as Hint. simpl in Hint.
    rewrite Hint. split; [reflexivity|]. destruct Hn as [Hn _].
    split; [lia|]. intros i m Hi Hm. specialize (Hmax i m Hi Hm). lia.
  - exists 1. split; [reflexivity|]. split; [lia|].
    intros i m Hi _.
    destruct (last_by_id_nonempty CreditNote.id _ i Hi). congruence.
Qed.

Lemma Invoice_insert_fresh self k db :
  existsb (fun i => (Invoice.invoice_number i =? Invoice.invoice_number self)%string)
          (invoices db) = false ->
  has_invoice db (Invoice.order self) = false ->
  Invoice_insert self k db =
  (set_invoices db (invoices db ++ [Invoice.with_id self k])
                (Z.max (invoice_seq db) k),
   Ok (Invoice.with_id self k)).
Proof.
  intros H1 H2. unfold Invoice_insert, has_invoice in *. run.
  now rewrite H1, H2.
Qed.

Lemma Invoice_derive_delivered today o k n :
  Invoice_derive (delivered_invoice today o k n) = delivered_invoice today o k n.
Proof.
  unfold Invoice_derive, delivered_invoice. simpl.
  match goal with |- context [is_zero ?x] => destruct (is_zero x) end; simpl;
  match goal with |- context [is_zero ?x] => destruct (is_zero x) end;
  reflexivity.
Qed.

(** What the signal handler does for a delivered order without invoice. *)
Lemma handler_creates_invoice today o db :
  consistent db ->
  Order.status o = Order.DELIVERED ->
  has_invoice db (Order.id o) = false ->
  exists n,
    1 <= n
    /\ (forall i m, In i (invoices db) ->
                    numbered "INV" (Invoice.invoice_number i) m -> m < n)
    /\ handle_order_status_change today o false db =
       (set_invoices db
          (invoices db ++ [delivered_invoice today o (invoice_seq db + 1) n])
          (invoice_seq db + 1),
        Ok tt).
Proof.
  intros Hc Hs Hno.
  destruct (next_invoice_number_ok db Hc) as (n & Hnext & Hn & Hnew).
  exists n. split; [exact Hn|]. split; [exact Hnew|].
  unfold handle_order_status_change. rewrite Hs. simpl.
  unfold bind at 1. unfold get at 1.
  unfold has_invoice in Hno. rewrite Hno. simpl.
  unfold bind at 1. rewrite Hnext.
  unfold Invoice_objects_create.
  match goal with
  | |- context [Invoice_derive ?x] =>
      change x with (delivered_invoice today o 0 n)
  end.
  unfold bind, get. rewrite Invoice_derive_delivered.
  rewrite Invoice_insert_fresh.
  - simpl. rewrite Z.max_r by lia. reflexivity.
  - apply (sequence_fresh Invoice.id Invoice.invoice_number "INV"
             (invoices db) (invoice_seq db) n).
    + exact (invoices_in_sequence db Hc).
    + split; [exact Hn | reflexivity].
    + exact Hnew.
  - exact Hno.
Qed.

Lemma handler_no_change today o created db :
  created = true \/ Order.status o <> Order.DELIVERED
  \/ has_invoice db (Order.id o) = true ->
  handle_order_status_change today o created db = (db, Ok tt).
Proof.
  unfold handle_order_status_change, has_invoice.
  intros [->|[H|H]]; [reflexivity | |].
  - destruct created; [reflexivity|].
    destruct (Order.status o); try reflexivity. congruence.
  - destruct created; [reflexivity|].
    destruct (Order.status_eqb _ _); [|reflexivity].
    run. now rewrite H.
Qed.

(** ** Every write keeps the database consistent *)

Lemma keeps_ret {A} P (a : A) : keeps P (ret a).
Proof. apply hoare_ret. auto. Qed.

Lemma keeps_raise {A} P e : keeps P (@raise A e).
Proof. apply hoare_raise. auto. Qed.

Lemma keeps_bind {A B} P (c : M A) (f : A -> M B) :
  keeps P c -> (forall a, keeps P (f a)) -> keeps P (bind c f).
Proof. intros Hc Hf. eapply hoare_bind; [exact Hc | exact Hf]. Qed.

Lemma keeps_try {A} P (c : M A) h :
  keeps P c -> (forall e, keeps P (h e)) -> keeps P (try_except c h).
Proof. intros Hc Hh. eapply hoare_try; [exact Hc | exact Hh]. Qed.

(** Reading the state first. *)
Lemma keeps_get {A} P (f : DB -> M A) :
  (forall db0, P db0 -> hoare (fun db => db = db0) (f db0) (fun _ => P) P) ->
  keeps P (bind get f).
Proof.
  intros H db HP. unfold bind, get. exact (H db HP db eq_refl).
Qed.

Lemma keeps_put P db0 db' :
  P db' -> hoare (fun db => db = db0) (put db') (fun _ : unit => P) P.
Proof. intros H db _. exact H. Qed.

Lemma keeps_from {A} (P : DB -> Prop) db0 (c : M A) :
  P db0 -> keeps P c -> hoare (fun db => db = db0) c (fun _ => P) P.
Proof. intros H0 Hc db ->. exact (Hc db0 H0). Qed.

Lemma issued_consistent k db : issued k db -> consistent db.
Proof. now intros []. Qed.

Lemma keeps_Order_delete k o : keeps (issued k) (Order_delete o).
Proof.
  intros db [Hc Hk]. unfold Order_delete. run.
  destruct (existsb _ (invoices db)); simpl; [now split|].
  split; [|exact Hk].
  apply consistent_set_orders; simpl; [| lia |].
  - apply consistent_set_delivery_updates, consistent_set_order_items; auto.
    intros i Hi. apply filter_In in Hi. destruct Hi as [Hi _].
    now apply (item_orders_issued db Hc).
  - intros x Hx. apply filter_In in Hx. destruct Hx as [Hx _].
    now apply (order_keys_issued db Hc).
Qed.

Lemma keeps_Product_objects_get k p : keeps (issued k) (Product_objects_get p).
Proof.
  intros db H. unfold Product_objects_get. run.
  destruct (find_by_id _ _ _); exact H.
Qed.

Lemma keeps_Product_save k p : keeps (issued k) (Product_save p).
Proof.
  intros db [Hc Hk]. unfold Product_save. run.
  destruct (_ <? 0); simpl; split; auto using consistent_set_products.
Qed.

Lemma keeps_OrderItem_save k adding it :
  OrderItem.order it = k -> keeps (issued k) (OrderItem_save adding it).
Proof.
  intros Hit db [Hc Hk]. unfold OrderItem_save. run.
  destruct (_ <? 0); simpl; [now split|].
  assert (Hin : forall x y,
             In x (order_items db ++ [y])%list -> OrderItem.order y = k ->
             OrderItem.order x <= order_seq db).
  { intros x y Hx Hy. apply in_app_or in Hx. destruct Hx as [Hx|[<-|[]]].
    - now apply (item_orders_issued db Hc).
    - lia. }
  destruct adding; simpl.
  - split; [|exact Hk]. apply consistent_set_order_items; [exact Hc|].
    intros x Hx. eapply Hin; [exact Hx | exact Hit].
  - destruct (find_by_id _ _ _); simpl; (split; [|exact Hk]);
      apply consistent_set_order_items; try exact Hc.
    + intros x Hx. apply in_replace_by_id in Hx. destruct Hx as [->|Hx].
      * simpl. lia.
      * now apply (item_orders_issued db Hc).
    + intros x Hx. eapply Hin; [exact Hx | exact Hit].
Qed.

(** ** Saving orders *)

Lemma set_invoices_same db : set_invoices db (invoices db) (invoice_seq db) = db.
Proof. now destruct db. Qed.

Lemma invoice_key_issued db i :
  consistent db -> In i (invoices db) -> Invoice.id i <= invoice_seq db.
Proof.
  intros Hc Hi. destruct (invoices_in_sequence db Hc) as [Hwf _].
  apply (Hwf (Invoice.id i) (Invoice.invoice_number i)).
  unfold invoice_keys. apply in_map_iff. eauto.
Qed.

Lemma has_invoice_false_not_in db k :
  has_invoice db k = false -> ~ In k (map Invoice.order (invoices db)).
Proof.
  unfold has_invoice. apply existsb_false_not_in. intros; apply Z.eqb_eq.
Qed.


(** Appending the invoice of a delivered order keeps consistency. *)
Lemma consistent_add_invoice today o n db :
  consistent db ->
  Order.id o <= order_seq db ->
  has_invoice db (Order.id o) = false ->
  1 <= n ->
  (forall i m, In i (invoices db) ->
               numbered "INV" (Invoice.invoice_number i) m -> m < n) ->
  consistent
    (set_invoices db
       (invoices db ++ [delivered_invoice today o (invoice_seq db + 1) n])
       (invoice_seq db + 1)).
Proof.
  intros Hc Hk Hno Hn Hnew. apply consistent_set_invoices; [exact Hc | | | |].
  - apply (sequence_append Invoice.id Invoice.invoice_number "INV"
             (invoices db) (invoice_seq db) (invoice_seq db + 1) n);
      [exact (invoices_in_sequence db Hc) | lia | reflexivity | | exact Hnew].
    split; [exact Hn | reflexivity].
  - rewrite map_app. simpl. apply NoDup_snoc; [exact (invoice_unique db Hc)|].
    now apply has_invoice_false_not_in.
  - rewrite map_app. simpl. apply NoDup_snoc; [exact (invoice_ids_unique db Hc)|].
    intros Hin. apply in_map_iff in Hin. destruct Hin as (i & He & Hi).
    pose proof (invoice_key_issued db i Hc Hi). lia.
  - intros i Hi. apply in_app_or in Hi. destruct Hi as [Hi|[<-|[]]].
    + now apply (invoice_orders_issued db Hc).
    + exact Hk.
Qed.

(** The signal handler never raises on a consistent database, and writes
    nothing but invoices. *)
Lemma handler_outcome today o created db :
  consistent db -> Order.id o <= order_seq db ->
  exists ivs k,
    handle_order_status_change today o created db
    = (set_invoices db ivs k, Ok tt)
    /\ consistent (set_invoices db ivs k).
Proof.
  intros Hc Hk.
  destruct created.
  { exists (invoices db), (invoice_seq db). rewrite set_invoices_same.
    split; [apply handler_no_change; auto | exact Hc]. }
  destruct (Order.status_eqb (Order.status o) Order.DELIVERED) eqn:Es.
  - assert (Hs : Order.status o = Order.DELIVERED)
      by (destruct (Order.status o); try discriminate; reflexivity).
    destruct (has_invoice db (Order.id o)) eqn:Ei.
    + exists (invoices db), (invoice_seq db). rewrite set_invoices_same.
      split; [apply handler_no_change; auto | exact Hc].
    + destruct (handler_creates_invoice today o db Hc Hs Ei)
        as (n & Hn & Hnew & Heq).
      eexists _, _. split; [exact Heq|].
      now apply consistent_add_invoice.
  - exists (invoices db), (invoice_seq db). rewrite set_invoices_same.
    split; [|exact Hc]. apply handler_no_change. right. left.
    intros Hs. rewrite Hs in Es. discriminate.
Qed.

Lemma handler_issued k today o created db :
  issued k db -> Order.id o <= order_seq db ->
  issued k (fst (handle_order_status_change today o created db))
  /\ snd (handle_order_status_change today o created db) = Ok tt.
Proof.
  intros [Hc Hk] Ho.
  destruct (handler_outcome today o created db Hc Ho) as (ivs & s & -> & Hc').
  simpl. split; [split; [exact Hc' | exact Hk] | reflexivity].
Qed.

Lemma keeps_handler_at k today o created db :
  issued k db -> Order.id o <= order_seq db ->
  match handle_order_status_change today o created db with
  | (db', Ok _) => issued k db'
  | (db', Raise _) => issued k db'
  end.
Proof.
  intros H Ho. destruct (handler_issued k today o created db H Ho) as [H1 _].
  destruct (handle_order_status_change _ _ _ _) as [db' [a|e]]; exact H1.
Qed.

Lemma consistent_replace_order db o :
  consistent db ->
  consistent (set_orders db (replace_by_id Order.id o (orders db)) (order_seq db)).
Proof.
  intros Hc. apply consistent_set_orders; [exact Hc | lia |].
  intros x Hx. apply in_map_iff in Hx. destruct Hx as (y & Hy & Hin).
  unfold replace_by_id in *.
  pose proof (order_keys_issued db Hc y Hin).
  destruct (Z.eqb_spec (Order.id y) (Order.id o)); subst; lia.
Qed.

Lemma replace_order_issued db o old :
  consistent db ->
  find_by_id Order.id (Order.id o) (orders db) = Some old ->
  Order.id o <= order_seq db.
Proof.
  intros Hc H. destruct (find_by_id_some _ _ _ _ H) as [Hin <-].
  now apply (order_keys_issued db Hc).
Qed.

(** [order.save()] of a stored order: the row is replaced, then the signal
    handler runs. *)
Lemma Order_save_stored today o db old :
  find_by_id Order.id (Order.id o) (orders db) = Some old ->
  Order.order_number o = Order.order_number old ->
  Order_save today o db =
  handle_order_status_change today o false
    (set_orders db (replace_by_id Order.id o (orders db)) (order_seq db)).
Proof.
  intros H Hnum. unfold Order_save. run. rewrite H, Hnum.
  rewrite String.eqb_refl. reflexivity.
Qed.

Lemma Order_save_status_stored today o db old :
  find_by_id Order.id (Order.id o) (orders db) = Some old ->
  Order_save_status today o db =
  handle_order_status_change today o false
    (set_orders db
       (replace_by_id Order.id (Order.with_status old (Order.status o))
          (orders db))
       (order_seq db)).
Proof. intros H. unfold Order_save_status. run. now rewrite H. Qed.

Lemma keeps_Order_save k today o : keeps (issued k) (Order_save today o).
Proof.
  intros db [Hc Hk]. unfold Order_save. unfold bind at 1, get at 1.
  destruct (find_by_id Order.id (Order.id o) (orders db)) as [old|] eqn:E.
  - destruct (_ && _)%bool; [now split|].
    unfold bind, put. apply keeps_handler_at.
    + split; [now apply consistent_replace_order | exact Hk].
    + exact (replace_order_issued db o old Hc E).
  - destruct (existsb _ _); [now split|].
    unfold bind, put. apply keeps_handler_at; [|simpl; lia].
    split; [|simpl; lia]. apply consistent_set_orders; [exact Hc | lia |].
    intros x Hx. apply in_app_or in Hx. destruct Hx as [Hx|[<-|[]]]; [|lia].
    pose proof (order_keys_issued db Hc x Hx). lia.
Qed.

Lemma keeps_Order_save_status k today o :
  keeps (issued k) (Order_save_status today o).
Proof.
  intros db [Hc Hk]. unfold Order_save_status. unfold bind at 1, get at 1.
  destruct (find_by_id Order.id (Order.id o) (orders db)) as [old|] eqn:E;
    [|now split].
  unfold bind, put. apply keeps_handler_at.
  - split; [now apply consistent_replace_order | exact Hk].
  - exact (replace_order_issued db o old Hc E).
Qed.

(** ** Every request keeps the database consistent *)

Lemma keeps_issued_consistent {A} (c : M A) :
  (forall k, keeps (issued k) c) -> keeps consistent c.
Proof.
  intros H db Hc.
  assert (Hi : issued (order_seq db) db) by (split; [exact Hc | lia]).
  specialize (H (order_seq db) db Hi).
  destruct (c db) as [db' [a|e]]; now destruct H.
Qed.

Lemma keeps_fst {A} P (c : M A) db : keeps P c -> P db -> P (fst (c db)).
Proof.
  intros H HP. specialize (H db HP). destruct (c db) as [db' [a|e]]; exact H.
Qed.

Lemma keeps_get_order k j : keeps (issued k) (get_order j).
Proof. intros db H. exact H. Qed.

Lemma keeps_int_or_raise P s : keeps P (int_or_raise s).
Proof.
  unfold int_or_raise. destruct (Py.int s); [apply keeps_ret | apply keeps_raise].
Qed.

Lemma keeps_next_order_number P : keeps P next_order_number.
Proof.
  intros db HP. unfold next_order_number, bind, get.
  destruct (last_by_id Order.id (orders db)); [|exact HP].
  pose proof (keeps_int_or_raise P (Py.slice_from 3 (Order.order_number t)) db HP).
  destruct (int_or_raise _ db) as [db' [a|e]]; exact H.
Qed.

(** A created order has an issued key. *)
Lemma OrderSerializer_create_issued today client data :
  hoare consistent (OrderSerializer_create today client data)
        (fun order db => issued (Order.id order) db) consistent.
Proof.
  unfold OrderSerializer_create.
  eapply hoare_bind; [apply (keeps_next_order_number consistent)|].
  intros number db Hc. unfold Order_objects_create. run.
  destruct (existsb _ (orders db)); [exact Hc|]. simpl.
  split; [|simpl; lia].
  apply consistent_set_orders; [exact Hc | lia |].
  intros x Hx. apply in_app_or in Hx. destruct Hx as [Hx|[<-|[]]].
  - pose proof (order_keys_issued db Hc x Hx). lia.
  - simpl. lia.
Qed.

Lemma keeps_process_items order total items :
  keeps (issued (Order.id order)) (process_items order total items).
Proof.
  revert total. induction items as [|item rest IH]; intros total; simpl.
  - apply keeps_ret.
  - destruct (falsy_id (item_product_id item)).
    + apply keeps_bind; [apply keeps_Order_delete | intros; apply keeps_ret].
    + apply keeps_bind.
      * apply keeps_try.
        -- apply keeps_bind; [apply keeps_Product_objects_get|]. intros p.
           destruct (_ <? _).
           ++ apply keeps_bind; [apply keeps_Order_delete | intros; apply keeps_ret].
           ++ apply keeps_bind; [apply keeps_Product_save|]. intros _.
              apply keeps_bind; [|intros; apply keeps_ret].
              unfold OrderItem_objects_create. now apply keeps_OrderItem_save.
        -- intros e. destruct e;
             (apply keeps_bind; [apply keeps_Order_delete | intros; apply keeps_ret]).
      * intros [r|t]; [apply keeps_ret | apply IH].
Qed.

Lemma OrderViewSet_create_consistent today user request :
  keeps consistent (OrderViewSet_create today user request).
Proof.
  unfold OrderViewSet_create. destruct (data_items request) as [|i items] eqn:E;
    [apply keeps_ret|].
  destruct (negb _); [apply keeps_ret|].
  eapply hoare_try with (E' := consistent); [|intros e; apply keeps_ret].
  eapply hoare_bind; [apply OrderSerializer_create_issued|].
  intros order.
  apply hoare_conseq with (P' := issued (Order.id order))
                          (Q' := fun _ => issued (Order.id order))
                          (E' := issued (Order.id order));
    [| auto | intros ? ?; apply issued_consistent | apply issued_consistent].
  apply keeps_bind; [apply keeps_process_items|].
  intros [r|t]; [apply keeps_ret|].
  apply keeps_bind; [apply keeps_Order_save | intros; apply keeps_ret].
Qed.

Lemma OrderViewSet_mark_delivered_keeps k today j :
  keeps (issued k) (OrderViewSet_mark_delivered today j).
Proof.
  unfold OrderViewSet_mark_delivered.
  apply keeps_bind; [apply keeps_get_order|]. intros [o|]; [|apply keeps_ret].
  destruct (Order.status_eqb _ _); [apply keeps_ret|].
  apply keeps_bind; [apply keeps_Order_save|]. intros _.
  intros db H. exact H.
Qed.

Lemma OrderViewSet_update_status_keeps k today j s :
  keeps (issued k) (OrderViewSet_update_status today j s).
Proof.
  unfold OrderViewSet_update_status.
  apply keeps_bind; [apply keeps_get_order|]. intros [o|]; [|apply keeps_ret].
  apply keeps_bind; [apply keeps_Order_save | intros; apply keeps_ret].
Qed.

Lemma keeps_Order_get k j : keeps (issued k) (Order_get j).
Proof.
  intros db H. unfold Order_get. run. destruct (find_by_id _ _ _); exact H.
Qed.

Lemma keeps_handle_delivery_status_update k today d created :
  keeps (issued k) (handle_delivery_status_update today d created).
Proof.
  unfold handle_delivery_status_update. destruct created; [|apply keeps_ret].
  apply keeps_bind; [apply keeps_Order_get|]. intros o.
  destruct (negb _); [apply keeps_Order_save_status | apply keeps_ret].
Qed.

Lemma keeps_DeliveryStatus_objects_create k today d :
  keeps (issued k) (DeliveryStatus_objects_create today d).
Proof.
  unfold DeliveryStatus_objects_create.
  intros db [Hc Hk]. unfold bind at 1, get at 1. unfold bind at 1, put at 1.
  assert (Hi : issued k
                 (set_delivery_updates db
                    (delivery_updates db
                       ++ [DeliveryStatus.with_id d (delivery_status_seq db + 1)])
                    (delivery_status_seq db + 1)))
    by (split; [now apply consistent_set_delivery_updates | exact Hk]).
  revert Hi. generalize (set_delivery_updates db
                    (delivery_updates db
                       ++ [DeliveryStatus.with_id d (delivery_status_seq db + 1)])
                    (delivery_status_seq db + 1)).
  intros db1 Hi.
  apply (keeps_bind (issued k)
           (handle_delivery_status_update today
              (DeliveryStatus.with_id d (delivery_status_seq db + 1)) true)
           (fun _ => ret (DeliveryStatus.with_id d (delivery_status_seq db + 1))));
    [apply keeps_handle_delivery_status_update | intros; apply keeps_ret
     | exact Hi].
Qed.

Lemma OrderViewSet_add_delivery_status_keeps k today user j data v :
  keeps (issued k) (OrderViewSet_add_delivery_status today user j data v).
Proof.
  unfold OrderViewSet_add_delivery_status.
  apply keeps_bind; [apply keeps_get_order|]. intros [o|]; [|apply keeps_ret].
  destruct v; [|apply keeps_ret].
  apply keeps_bind; [apply keeps_DeliveryStatus_objects_create
                    | intros; apply keeps_ret].
Qed.

Lemma get_order_issued db j o :
  consistent db -> find_by_id Order.id j (orders db) = Some o ->
  issued j db.
Proof.
  intros Hc H. split; [exact Hc|].
  destruct (find_by_id_some _ _ _ _ H) as [Hin <-].
  now apply (order_keys_issued db Hc).
Qed.

Lemma OrderItemViewSet_create_consistent data v :
  keeps consistent (OrderItemViewSet_create data v).
Proof.
  intros db Hc. unfold OrderItemViewSet_create, get_order.
  unfold bind at 1, get at 1, bind at 1, ret at 1.
  destruct (find_by_id Order.id (data_oi_order data) (orders db)) as [o|] eqn:E;
    [|exact Hc].
  destruct v; [|exact Hc].
  pose proof (get_order_issued db _ o Hc E) as Hi.
  assert (K : keeps (issued (data_oi_order data))
                (i <- OrderItem_save true
                        (OrderItem.mk 0 (data_oi_order data)
                           (data_oi_product data) (data_oi_quantity data)
                           (data_oi_unit_price data) 0%Qc) ;;
                 ret (HTTP_201_CREATED (OrderItem.id i)))).
  { apply keeps_bind; [now apply keeps_OrderItem_save | intros; apply keeps_ret]. }
  specialize (K db Hi).
  match goal with |- match ?c with _ => _ end =>
    destruct c as [db' [a|e]] end; now destruct K.
Qed.

Lemma OrderItemViewSet_update_consistent k data v :
  keeps consistent (OrderItemViewSet_update k data v).
Proof.
  intros db Hc. unfold OrderItemViewSet_update, get_order.
  unfold bind at 1, get at 1.
  destruct (find_by_id OrderItem.id k (order_items db)) as [item|]; [|exact Hc].
  unfold bind at 1, bind at 1, get at 1, ret at 1.
  destruct (find_by_id Order.id (data_oi_order data) (orders db)) as [o|] eqn:E;
    [|exact Hc].
  destruct v; [|exact Hc].
  pose proof (get_order_issued db _ o Hc E) as Hi.
  assert (K : keeps (issued (data_oi_order data))
                (OrderItem_save false
                   (OrderItem.mk (OrderItem.id item) (data_oi_order data)
                      (data_oi_product data) (data_oi_quantity data)
                      (data_oi_unit_price data) (OrderItem.total_price item)) ;;;
                 ret (HTTP_200_OK (OrderItem.id item) None))).
  { apply keeps_bind; [now apply keeps_OrderItem_save | intros; apply keeps_ret]. }
  specialize (K db Hi).
  match goal with |- match ?c with _ => _ end =>
    destruct c as [db' [a|e]] end; now destruct K.
Qed.

(** An invoice inserted with the next number for an order that has none. *)
Lemma consistent_insert_invoice db self n :
  consistent db ->
  Invoice.order self <= order_seq db ->
  has_invoice db (Invoice.order self) = false ->
  numbered "INV" (Invoice.invoice_number self) n ->
  (forall i m, In i (invoices db) ->
               numbered "INV" (Invoice.invoice_number i) m -> m < n) ->
  consistent
    (set_invoices db
       (invoices db ++ [Invoice.with_id self (invoice_seq db + 1)])
       (invoice_seq db + 1)).
Proof.
  intros Hc Hk Hno Hn Hnew. apply consistent_set_invoices; [exact Hc | | | |].
  - apply (sequence_append Invoice.id Invoice.invoice_number "INV"
             (invoices db) (invoice_seq db) (invoice_seq db + 1) n);
      [exact (invoices_in_sequence db Hc) | lia | reflexivity | exact Hn
       | exact Hnew].
  - rewrite map_app. simpl. apply NoDup_snoc; [exact (invoice_unique db Hc)|].
    now apply has_invoice_false_not_in.
  - rewrite map_app. simpl. apply NoDup_snoc; [exact (invoice_ids_unique db Hc)|].
    intros Hin. apply in_map_iff in Hin. destruct Hin as (i & He & Hi).
    pose proof (invoice_key_issued db i Hc Hi). lia.
  - intros i Hi. apply in_app_or in Hi. destruct Hi as [Hi|[<-|[]]].
    + now apply (invoice_orders_issued db Hc).
    + exact Hk.
Qed.

Lemma InvoiceViewSet_create_consistent data v :
  keeps consistent (InvoiceViewSet_create data v).
Proof.
  intros db Hc. unfold InvoiceViewSet_create, get_order.
  unfold bind at 1, get at 1, bind at 1, ret at 1.
  destruct (find_by_id Order.id (data_inv_order data) (orders db)) as [o|] eqn:E;
    [|exact Hc].
  destruct v; [|exact Hc].
  destruct (get_order_issued db _ o Hc E) as [_ Hk].
  destruct (next_invoice_number_ok db Hc) as (n & Hnext & Hn & Hnew).
  unfold InvoiceSerializer_create.
  unfold bind at 1, bind at 1. rewrite Hnext.
  unfold Invoice_objects_create, bind at 1, get at 1.
  unfold Invoice_insert, bind at 1, get at 1.
  rewrite Invoice_derive_number, Invoice_derive_order. simpl.
  destruct (existsb _ (invoices db) || existsb _ (invoices db))%bool eqn:Ex;
    [exact Hc|].
  apply orb_false_iff in Ex. destruct Ex as [_ Ex]. simpl.
  rewrite Z.max_r by lia.
  apply (consistent_insert_invoice db _ n Hc); simpl;
    rewrite ?Invoice_derive_order, ?Invoice_derive_number; simpl; auto.
  split; [exact Hn | reflexivity].
Qed.

Lemma consistent_replace_invoice db self old :
  consistent db ->
  In old (invoices db) ->
  Invoice.id self = Invoice.id old ->
  Invoice.invoice_number self = Invoice.invoice_number old ->
  Invoice.order self = Invoice.order old ->
  consistent
    (set_invoices db (replace_by_id Invoice.id self (invoices db))
                  (invoice_seq db)).
Proof.
  intros Hc Hin Hid Hnum Hord.
  assert (Hsame : forall x, In x (invoices db) ->
                            Invoice.id x = Invoice.id self -> x = old).
  { intros x Hx He. apply (same_id_same_row Invoice.id (invoices db));
      [exact (invoice_ids_unique db Hc) | exact Hx | exact Hin | congruence]. }
  apply consistent_set_invoices; [exact Hc | | | |].
  - apply (sequence_replace Invoice.id Invoice.invoice_number "INV").
    + exact (invoices_in_sequence db Hc).
    + intros x Hx He. rewrite (Hsame x Hx He). congruence.
  - rewrite (map_replace_same Invoice.id Invoice.order);
      [exact (invoice_unique db Hc)|].
    intros x Hx He. rewrite (Hsame x Hx He). congruence.
  - rewrite map_id_replace_by_id. exact (invoice_ids_unique db Hc).
  - intros i Hi. apply in_replace_by_id in Hi. destruct Hi as [->|Hi].
    + rewrite Hord. now apply (invoice_orders_issued db Hc).
    + now apply (invoice_orders_issued db Hc).
Qed.

Lemma Payment_save_consistent p : keeps consistent (Payment_save p).
Proof.
  intros db Hc. unfold Payment_save. run.
  set (p1 := Payment.with_id p (payment_seq db + 1)).
  set (db1 := set_payments db (payments db ++ [p1])%list (payment_seq db + 1)).
  assert (Hc1 : consistent db1) by now apply consistent_set_payments.
  unfold Invoice_get. run.
  destruct (find_by_id Invoice.id (Payment.invoice p) (invoices db))
    as [inv|] eqn:E; [|exact Hc1].
  destruct (find_by_id_some _ _ _ _ E) as [Hin Hid].
  match goal with |- context [Invoice_save ?i db1] => set (inv1 := i) end.
  assert (H1 : Invoice.id inv1 = Invoice.id inv
               /\ Invoice.invoice_number inv1 = Invoice.invoice_number inv
               /\ Invoice.order inv1 = Invoice.order inv).
  { unfold inv1. destruct (Decimal_geb _ _); [auto|].
    destruct (Decimal_gtb _ _); auto. }
  destruct H1 as (Hi1 & Hn1 & Ho1).
  rewrite (Invoice_save_found inv1 db1 inv) by (rewrite Hi1, Hid; exact E).
  simpl. apply (consistent_replace_invoice db1 _ inv Hc1 Hin).
  - now rewrite Invoice_derive_id.
  - now rewrite Invoice_derive_number.
  - now rewrite Invoice_derive_order.
Qed.

Lemma InvoiceViewSet_add_payment_consistent user k data v :
  keeps consistent (InvoiceViewSet_add_payment user k data v).
Proof.
  unfold InvoiceViewSet_add_payment.
  apply keeps_bind; [intros db H; exact H|]. intros [i|]; [|apply keeps_ret].
  destruct v; [|apply keeps_ret].
  apply keeps_bind; [apply Payment_save_consistent | intros; apply keeps_ret].
Qed.

Lemma CreditNoteSerializer_create_consistent invoice user data :
  keeps consistent (CreditNoteSerializer_create invoice user data).
Proof.
  intros db Hc. unfold CreditNoteSerializer_create.
  destruct (next_credit_note_number_ok db Hc) as (n & Hnext & Hn & Hnew).
  unfold bind at 1. rewrite Hnext. run.
  destruct (existsb _ (credit_notes db)); [exact Hc|]. simpl.
  apply consistent_set_credit_notes; [exact Hc|].
  apply (sequence_append CreditNote.id CreditNote.credit_note_number "CN"
           (credit_notes db) (credit_note_seq db) (credit_note_seq db + 1) n);
    [exact (credit_notes_in_sequence db Hc) | lia | reflexivity | | exact Hnew].
  split; [exact Hn | reflexivity].
Qed.

Lemma InvoiceViewSet_add_credit_note_consistent user k data v :
  keeps consistent (InvoiceViewSet_add_credit_note user k data v).
Proof.
  unfold InvoiceViewSet_add_credit_note.
  apply keeps_bind; [intros db H; exact H|]. intros [i|]; [|apply keeps_ret].
  destruct v; [|apply keeps_ret].
  apply keeps_bind; [apply CreditNoteSerializer_create_consistent
                    | intros; apply keeps_ret].
Qed.

Lemma Quote_save_consistent adding q : keeps consistent (Quote_save adding q).
Proof.
  intros db Hc. unfold Quote_save. cbv zeta. unfold bind at 1, get at 1.
  match goal with
  | |- match bind ?c ?f db with _ => _ end =>
      assert (Hk : forall a, keeps consistent (f a))
  end.
  { intros a. destruct adding.
    - destruct (existsb _ _); [apply keeps_raise|].
      intros d Hd. simpl. now apply consistent_set_quotes.
    - intros d Hd. simpl. now apply consistent_set_quotes. }
  match goal with
  | |- match bind ?c ?f db with _ => _ end =>
      apply (keeps_bind consistent c f); [|exact Hk|exact Hc]
  end.
  destruct (Py.is_empty _); [|apply keeps_ret].
  destruct (find_by_id _ _ _); [|apply keeps_raise].
  destruct (_ ++ _)%list; apply keeps_ret.
Qed.

Lemma step_consistent db db' : step db db' -> consistent db -> consistent db'.
Proof.
  intros Hs Hc. destruct Hs; apply keeps_fst; try exact Hc.
  - apply OrderViewSet_create_consistent.
  - apply keeps_issued_consistent. intros; apply OrderViewSet_update_status_keeps.
  - apply keeps_issued_consistent. intros; apply OrderViewSet_mark_delivered_keeps.
  - apply keeps_issued_consistent.
    intros; apply OrderViewSet_add_delivery_status_keeps.
  - apply OrderItemViewSet_create_consistent.
  - apply OrderItemViewSet_update_consistent.
  - apply InvoiceViewSet_create_consistent.
  - apply InvoiceViewSet_add_payment_consistent.
  - apply InvoiceViewSet_add_credit_note_consistent.
  - apply Quote_save_consistent.
Qed.

(** The service only ever reaches consistent databases. *)
Lemma reachable_consistent db : reachable db -> consistent db.
Proof.
  induction 1 as [us ps | db db' _ IH Hs].
  - apply consistent_empty.
  - exact (step_consistent db db' Hs IH).
Qed.

(** ** Invoice on delivery *)

Lemma only_invoices_change_refl db : only_invoices_change db db.
Proof. unfold only_invoices_change. now destruct db. Qed.

Lemma only_invoices_change_set db ivs k :
  only_invoices_change db (set_invoices db ivs k).
Proof. reflexivity. Qed.

(** Whatever the state, the signal handler writes invoices only. *)
Lemma handler_frame today o created db :
  only_invoices_change db
    (fst (handle_order_status_change today o created db)).
Proof.
  unfold handle_order_status_change.
  destruct created; [apply only_invoices_change_refl|].
  destruct (Order.status_eqb _ _); [|apply only_invoices_change_refl].
  unfold bind at 1, get at 1.
  destruct (negb _); [|apply only_invoices_change_refl].
  unfold bind at 1.
  destruct (next_invoice_number db) as [db1 [num|e]] eqn:En.
  - assert (db1 = db).
    { revert En. unfold next_invoice_number, bind, get, int_or_raise.
      destruct (last_by_id _ _); [destruct (Py.int _)|]; simpl;
        intros H; inversion H; reflexivity. }
    subst db1. unfold bind, Invoice_objects_create, Invoice_insert, bind, get.
    destruct (_ || _)%bool; simpl;
      [apply only_invoices_change_refl | apply only_invoices_change_set].
  - assert (db1 = db).
    { revert En. unfold next_invoice_number, bind, get, int_or_raise.
      destruct (last_by_id _ _); [destruct (Py.int _)|]; simpl;
        intros H; inversion H; reflexivity. }
    subst db1. apply only_invoices_change_refl.
Qed.





Lemma consistent_sample_pending : consistent sample_pending_db.
Proof.
  constructor; simpl; try apply in_sequence_nil; try constructor.
  - intros o [<-|[]]. simpl. lia.
  - intros i [].
  - intros i [<-|[<-|[]]]; simpl; lia.
Qed.



(** ** Creating saves *)

Lemma Order_objects_create_outcome today fields db db' row :
  consistent db ->
  Order_objects_create today fields db = (db', Ok row) ->
  row = Order.with_id fields (order_seq db + 1)
  /\ db' = set_orders db (orders db ++ [row]) (order_seq db + 1)
  /\ has_invoice db' (Order.id row) = false.
Proof.
  intros Hc. unfold Order_objects_create. run.
  destruct (existsb _ (orders db)); [discriminate|]. simpl.
  intros [= <- <-]. repeat split.
  unfold has_invoice. simpl.
  destruct (existsb _ (invoices db)) eqn:E; [|reflexivity].
  apply existsb_exists in E. destruct E as (i & Hi & He).
  apply Z.eqb_eq in He. pose proof (invoice_orders_issued db Hc i Hi). lia.
Qed.



(** ** Marking an order delivered *)

Lemma has_invoice_find db k :
  has_invoice db k = true ->
  exists i, find (fun i => Invoice.order i =? k) (invoices db) = Some i.
Proof.
  unfold has_invoice. intros H.
  destruct (find _ (invoices db)) as [i|] eqn:E; [eauto|].
  apply existsb_exists in H. destruct H as (i & Hi & He).
  rewrite (find_none _ _ E i Hi) in He. discriminate.
Qed.




Example mark_delivered_twice :
  snd (OrderViewSet_mark_delivered 101 1
         (fst (OrderViewSet_mark_delivered 100 1 sample_pending_db)))
  = Ok (HTTP_400_BAD_REQUEST AlreadyDelivered).
Proof. reflexivity. Qed.

(** ** Delivery status events *)


Lemma frame_orders db db' :
  only_invoices_change db db' -> orders db' = orders db.
Proof. intros ->. reflexivity. Qed.

Lemma frame_order_items db db' :
  only_invoices_change db db' -> order_items db' = order_items db.
Proof. intros ->. reflexivity. Qed.


Lemma with_status_same o : Order.with_status o (Order.status o) = o.
Proof. now destruct o. Qed.

Lemma status_eqb_eq a b : Order.status_eqb a b = true <-> a = b.
Proof. destruct a, b; simpl; split; congruence. Qed.

Lemma replace_same_row {A} (id : A -> pk) (r : A) rows :
  NoDup (map id rows) -> In r rows -> replace_by_id id r rows = rows.
Proof.
  intros Hnd Hin. unfold replace_by_id.
  rewrite <- (map_id rows) at 2. apply map_ext_in. intros x Hx.
  destruct (Z.eqb_spec (id x) (id r)) as [e|]; [|reflexivity].
  symmetry. now apply (same_id_same_row id rows).
Qed.



(** ** Credit notes *)



(** ** Failed order creation *)

(** C5, at the failing input: the second item names an unknown product;
    the order and its items are deleted, but the stock taken for the first
    item stays taken. *)
Lemma failed_creation_keeps_stock_decrement :
  let request :=
    mkOrderData [mkItemData (Some 1) (Some 2); mkItemData (Some 99) None]
                "12 rue des Lilas" None "" None in
  let db := empty_db [] sample_products in
  let r := OrderViewSet_create 100 7 request db in
  snd r = Ok (HTTP_400_BAD_REQUEST (ProductNotFound 99))
  /\ orders (fst r) = []
  /\ order_items (fst r) = []
  /\ map Product.stock_quantity (products db) = [5; 3]
  /\ map Product.stock_quantity (products (fst r)) = [3; 3].
Proof. vm_compute. repeat split; reflexivity. Qed.

(** ** Order status *)





(** ** Order totals *)

Lemma items_total_append db its k x n :
  order_items db = its ->
  items_total (set_order_items db (its ++ [x]) n) k =
  if OrderItem.order x =? k
  then (items_total db k
        + Decimal_of_int (OrderItem.quantity x) * OrderItem.unit_price x)%Qc
  else items_total db k.
Proof.
  intros <-. unfold items_total. simpl. rewrite filter_app. simpl.
  destruct (OrderItem.order x =? k); [|now rewrite app_nil_r].
  unfold Decimal in *.
  induction (filter _ (order_items db)) as [|a l IH]; simpl.
  - ring.
  - rewrite IH. ring.
Qed.

Lemma Order_delete_not_inr {A} (order : Order.t) (resp : Response) db db'
    (t : A) :
  (Order_delete order ;;; ret (inl resp)) db <> (db', Ok (inr t)).
Proof.
  unfold bind, ret.
  destruct (Order_delete order db) as [d [[]|e]]; intros H; inversion H.
Qed.

(** A loop over the items that reaches its end has written one item per
    entry and summed their totals; it has not touched orders or invoices. *)
Lemma process_items_total order items :
  forall total db db' t,
    process_items order total items db = (db', Ok (inr t)) ->
    orders db' = orders db /\ order_seq db' = order_seq db
    /\ invoices db' = invoices db
    /\ (t + items_total db (Order.id order)
        = total + items_total db' (Order.id order))%Qc.
Proof.
  induction items as [|item rest IH]; intros total db db' t.
  - cbn [process_items]. intros [= <- <-]. repeat split.
  - cbn [process_items]. cbv zeta.
    destruct (falsy_id (item_product_id item)).
    { intros H. exfalso. exact (Order_delete_not_inr _ _ _ _ _ H). }
    unfold bind at 1.
    match goal with |- (let (_, _) := try_except ?b ?h db in _) = _ -> _ =>
      destruct (try_except b h db) as [d [[r|t1]|e]] eqn:E end;
      [discriminate | | discriminate].
    intros Hrest. destruct (IH _ _ _ _ Hrest) as (H1 & H2 & H3 & H4).
    clear Hrest IH.
    assert (Hstep : orders d = orders db /\ order_seq d = order_seq db
                    /\ invoices d = invoices db
                    /\ (t1 + items_total db (Order.id order)
                        = total + items_total d (Order.id order))%Qc).
    { clear H1 H2 H3 H4. revert E. unfold try_except.
      match goal with |- (let (_, _) := ?c db in _) = _ -> _ =>
        destruct (c db) as [d0 [[r|t0]|e]] eqn:E end.
      - discriminate.
      - intros [= <- <-]. revert E.
        unfold bind at 1. unfold Product_objects_get at 1.
        unfold bind at 1, get at 1.
        destruct (find_by_id Product.id _ (products db)) as [p|];
          [|discriminate].
        unfold ret at 1.
        destruct (_ <? _) eqn:Estock.
        { intros H. exfalso. exact (Order_delete_not_inr _ _ _ _ _ H). }
        unfold Product_save, OrderItem_objects_create, OrderItem_save.
        unfold bind, get, put, raise, ret. cbn.
        destruct (_ - _ <? 0); [discriminate|].
        destruct (from_option 1 (item_quantity item) <? 0); [discriminate|].
        intros [= <- <-].
        split; [reflexivity|]. split; [reflexivity|]. split; [reflexivity|].
        rewrite (items_total_append (set_products db _) (order_items db))
          by reflexivity.
        cbn. rewrite Z.eqb_refl.
        unfold items_total, Decimal in *. cbn. ring.
      - destruct e; intros H; exfalso;
          exact (Order_delete_not_inr _ _ _ _ _ H). }
    destruct Hstep as (S1 & S2 & S3 & S4).
    split; [congruence|]. split; [congruence|]. split; [congruence|].
    unfold Decimal in *.
    assert (Hx : (t + items_total db (Order.id order)
                  + (t1 + items_total d (Order.id order))
                  = total + items_total db' (Order.id order)
                    + (t1 + items_total d (Order.id order)))%Qc).
    { transitivity ((t + items_total d (Order.id order))
                    + (t1 + items_total db (Order.id order)))%Qc; [ring|].
      rewrite H4, S4. ring. }
    transitivity (t + items_total db (Order.id order)
                  + (t1 + items_total d (Order.id order))
                  - (t1 + items_total d (Order.id order)))%Qc; [ring|].
    rewrite Hx. ring.
Qed.

Lemma Order_delete_response (order : Order.t) (e : Error) db db' r :
  (Order_delete order ;;; ret (inl (B := Decimal) (HTTP_400_BAD_REQUEST e))) db
  = (db', Ok (inl r)) ->
  r = HTTP_400_BAD_REQUEST e.
Proof.
  unfold bind, ret.
  destruct (Order_delete order db) as [d [[]|x]]; intros H; inversion H.
  reflexivity.
Qed.

(** The loop only ever returns early with a 400 response. *)
Lemma process_items_early order items :
  forall total db db' r,
    process_items order total items db = (db', Ok (inl r)) ->
    exists e, r = HTTP_400_BAD_REQUEST e.
Proof.
  induction items as [|item rest IH]; intros total db db' r.
  - cbn [process_items]. discriminate.
  - cbn [process_items]. cbv zeta.
    destruct (falsy_id (item_product_id item)).
    { intros H. apply Order_delete_response in H. eauto. }
    unfold bind at 1.
    match goal with |- (let (_, _) := try_except ?b ?h db in _) = _ -> _ =>
      destruct (try_except b h db) as [d [[r1|t1]|e]] eqn:E end;
      [| apply IH | discriminate].
    intros [= <- <-]. revert E. unfold try_except.
    match goal with |- (let (_, _) := ?c db in _) = _ -> _ =>
      destruct (c db) as [d0 [[r0|t0]|e]] eqn:E end.
    + intros [= <- <-]. revert E.
      unfold bind at 1. unfold Product_objects_get at 1.
      unfold bind at 1, get at 1.
      destruct (find_by_id Product.id _ (products db)) as [p|];
        [|discriminate].
      unfold ret at 1.
      destruct (_ <? _).
      { intros H. apply Order_delete_response in H. eauto. }
      unfold Product_save, OrderItem_objects_create, OrderItem_save.
      unfold bind, get, put, raise, ret. cbn.
      destruct (_ - _ <? 0); [discriminate|].
      destruct (from_option 1 (item_quantity item) <? 0); discriminate.
    + discriminate.
    + destruct e; intros H; apply Order_delete_response in H; eauto.
Qed.

Lemma next_order_number_state db d r :
  next_order_number db = (d, r) -> d = db.
Proof.
  unfold next_order_number, bind, get, int_or_raise, ret, raise.
  destruct (last_by_id _ _); [destruct (Py.int _)|]; intros H; inversion H;
    reflexivity.
Qed.

Lemma items_total_fresh db k :
  consistent db -> order_seq db < k -> items_total db k = 0%Qc.
Proof.
  intros Hc Hk. unfold items_total.
  assert (E : filter (fun i => OrderItem.order i =? k) (order_items db) = []).
  { pose proof (item_orders_issued db Hc) as H.
    induction (order_items db) as [|a l IH]; simpl; [reflexivity|].
    destruct (Z.eqb_spec (OrderItem.order a) k) as [e|].
    - specialize (H a (or_introl eq_refl)). lia.
    - apply IH. intros i Hi. apply H. now right. }
  now rewrite E.
Qed.

Lemma find_appended_order db row :
  consistent db -> order_seq db < Order.id row ->
  find_by_id Order.id (Order.id row) (orders db ++ [row]) = Some row.
Proof.
  intros Hc Hk. unfold find_by_id.
  pose proof (order_keys_issued db Hc) as H.
  induction (orders db) as [|a l IH]; simpl.
  - now rewrite Z.eqb_refl.
  - destruct (Z.eqb_spec (Order.id a) (Order.id row)) as [e|].
    + specialize (H a (or_introl eq_refl)). lia.
    + apply IH. intros o Ho. apply H. now right.
Qed.

(** Totals after a successful creation. *)
Lemma created_order_total today user request db db' k :
  consistent db ->
  OrderViewSet_create today user request db = (db', Ok (HTTP_201_CREATED k)) ->
  order_total_matches db' k.
Proof.
  intros Hc. unfold OrderViewSet_create.
  destruct (data_items request) as [|i items]; [discriminate|].
  destruct (negb _); [discriminate|].
  unfold try_except.
  match goal with |- (let (_, _) := ?c db in _) = _ -> _ =>
    destruct (c db) as [d [resp|e]] eqn:E end; [|discriminate].
  intros [= -> ->]. revert E.
  unfold bind at 1.
  destruct (OrderSerializer_create today user request db)
    as [db1 [order|e]] eqn:E1; [|discriminate].
  unfold bind at 1.
  destruct (process_items order 0%Qc (i :: items) db1)
    as [db2 [[r|t]|e]] eqn:E2; [| |discriminate].
  { intros [= _ ->].
    destruct (process_items_early _ _ _ _ _ _ E2) as [e He]. discriminate. }
  unfold bind, ret.
  destruct (Order_save today (Order.with_total_amount order t) db2)
    as [db3 [[]|e]] eqn:E3; [|discriminate].
  intros [= -> <-].
  (* the created row *)
  revert E1. unfold OrderSerializer_create. unfold bind at 1.
  destruct (next_order_number db) as [d0 [num|e]] eqn:En; [|discriminate].
  apply next_order_number_state in En. subst d0.
  intros E1.
  destruct (Order_objects_create_outcome today _ db db1 order Hc E1)
    as (Hrow & Hdb1 & _).
  assert (Hk : order_seq db < Order.id order).
  { rewrite Hrow. cbn. lia. }
  assert (Hc1 : consistent db1).
  { subst db1. apply consistent_set_orders; [exact Hc | lia |].
    intros x Hx. apply in_app_or in Hx. destruct Hx as [Hx|[<-|[]]].
    - pose proof (order_keys_issued db Hc x Hx). lia.
    - rewrite Hrow. cbn. lia. }
  assert (Hzero : items_total db1 (Order.id order) = 0%Qc).
  { subst db1. unfold items_total. simpl.
    exact (items_total_fresh db _ Hc Hk). }
  destruct (process_items_total _ _ _ _ _ _ E2) as (P1 & P2 & P3 & P4).
  rewrite Hzero in P4.
  set (o2 := Order.with_total_amount order t) in *.
  assert (Hf2 : find_by_id Order.id (Order.id o2) (orders db2) = Some order).
  { rewrite P1. subst db1. simpl. now apply find_appended_order. }
  rewrite (Order_save_stored today o2 db2 order Hf2 eq_refl) in E3.
  pose proof (handler_frame today o2 false
                (set_orders db2 (replace_by_id Order.id o2 (orders db2))
                            (order_seq db2))) as F.
  rewrite E3 in F. cbn [fst] in F.
  exists o2. split.
  - rewrite (frame_orders _ _ F). cbn [orders set_orders].
    change (Order.id order) with (Order.id o2).
    apply find_replace_by_id with (old := order). exact Hf2.
  - unfold items_total. rewrite (frame_order_items _ _ F).
    cbn [order_items set_orders].
    fold (items_total db2 (Order.id order)).
    unfold Decimal in *. cbn [Order.total_amount o2 Order.with_total_amount].
    transitivity (t + 0)%Qc; [ring|]. rewrite P4. ring.
Qed.

Lemma totals_kept_refl db : totals_kept db db.
Proof. split; [reflexivity|]. intros k o H. eauto. Qed.

Lemma totals_kept_same db db' :
  order_items db' = order_items db -> orders db' = orders db ->
  totals_kept db db'.
Proof.
  intros Hi Ho. split; [exact Hi|]. intros k o H. exists o.
  rewrite Ho. auto.
Qed.

Lemma totals_kept_matches db db' k :
  totals_kept db db' -> order_total_matches db k -> order_total_matches db' k.
Proof.
  intros [Hi Ho] (o & Hf & Ht). destruct (Ho k o Hf) as (o' & Hf' & Ht').
  exists o'. split; [exact Hf'|]. unfold items_total. rewrite Hi.
  rewrite Ht'. exact Ht.
Qed.

Lemma totals_kept_frame db db1 db' :
  order_items db1 = order_items db -> orders db1 = orders db ->
  totals_kept db1 db' -> totals_kept db db'.
Proof.
  intros Hi Ho [H1 H2]. split; [congruence|].
  intros k o Hf. apply H2. now rewrite Ho.
Qed.

(** Rewriting a stored order with its own total keeps all totals. *)
Lemma totals_kept_replace db o old :
  find_by_id Order.id (Order.id o) (orders db) = Some old ->
  Order.total_amount o = Order.total_amount old ->
  totals_kept db
    (set_orders db (replace_by_id Order.id o (orders db)) (order_seq db)).
Proof.
  intros Hf Ht. split; [reflexivity|]. intros k x Hx. simpl.
  destruct (Z.eq_dec k (Order.id o)) as [->|Hne].
  - exists o. split; [now apply find_replace_by_id with (old := old)|].
    congruence.
  - exists x. split; [|reflexivity]. now rewrite find_replace_other.
Qed.

Lemma totals_kept_handler today o created db0 db :
  totals_kept db0 db ->
  totals_kept db0 (fst (handle_order_status_change today o created db)).
Proof.
  intros [Hi Ho]. pose proof (handler_frame today o created db) as F.
  split.
  - now rewrite (frame_order_items _ _ F).
  - intros k x Hx. rewrite (frame_orders _ _ F). now apply Ho.
Qed.

Lemma Order_save_totals_kept today o db old :
  find_by_id Order.id (Order.id o) (orders db) = Some old ->
  Order.order_number o = Order.order_number old ->
  Order.total_amount o = Order.total_amount old ->
  totals_kept db (fst (Order_save today o db)).
Proof.
  intros Hf Hn Ht. rewrite (Order_save_stored today o db old Hf Hn).
  apply totals_kept_handler. now apply totals_kept_replace with (old := old).
Qed.

Lemma Order_save_status_totals_kept today o db old :
  find_by_id Order.id (Order.id o) (orders db) = Some old ->
  totals_kept db (fst (Order_save_status today o db)).
Proof.
  intros Hf. rewrite (Order_save_status_stored today o db old Hf).
  apply totals_kept_handler.
  destruct (find_by_id_some _ _ _ _ Hf) as [_ Hid].
  apply totals_kept_replace with (old := old); [|reflexivity].
  simpl. rewrite Hid. exact Hf.
Qed.

Lemma fst_bind_ret {A B} (c : M A) (f : A -> B) db :
  fst ((x <- c ;; ret (f x)) db) = fst (c db).
Proof. unfold bind, ret. destruct (c db) as [d [a|e]]; reflexivity. Qed.

Lemma update_status_totals_kept today k s db :
  totals_kept db (fst (OrderViewSet_update_status today k s db)).
Proof.
  unfold OrderViewSet_update_status, get_order.
  unfold bind at 1, bind at 1, get at 1, ret at 1.
  destruct (find_by_id Order.id k (orders db)) as [o|] eqn:E;
    [|apply totals_kept_refl].
  rewrite (fst_bind_ret (Order_save today (Order.with_status o s))
             (fun _ => HTTP_200_OK (Order.id o) None)).
  destruct (find_by_id_some _ _ _ _ E) as [_ Hid].
  apply Order_save_totals_kept with (old := o); try reflexivity.
  simpl. now rewrite Hid.
Qed.

Lemma mark_delivered_totals_kept today k db :
  totals_kept db (fst (OrderViewSet_mark_delivered today k db)).
Proof.
  unfold OrderViewSet_mark_delivered, get_order.
  unfold bind at 1, bind at 1, get at 1, ret at 1.
  destruct (find_by_id Order.id k (orders db)) as [o|] eqn:E;
    [|apply totals_kept_refl].
  destruct (Order.status_eqb _ _); [apply totals_kept_refl|].
  destruct (find_by_id_some _ _ _ _ E) as [_ Hid].
  pose proof (Order_save_totals_kept today
                (Order.with_status o Order.DELIVERED) db o) as H.
  unfold bind, get, ret.
  destruct (Order_save today (Order.with_status o Order.DELIVERED) db)
    as [d [[]|e]]; apply H; try reflexivity; simpl; now rewrite Hid.
Qed.

Lemma add_delivery_status_totals_kept today user k data v db :
  totals_kept db
    (fst (OrderViewSet_add_delivery_status today user k data v db)).
Proof.
  unfold OrderViewSet_add_delivery_status, get_order.
  unfold bind at 1, bind at 1, get at 1, ret at 1.
  destruct (find_by_id Order.id k (orders db)) as [o|] eqn:E;
    [|apply totals_kept_refl].
  destruct v; [|apply totals_kept_refl].
  rewrite (fst_bind_ret _ (fun d => HTTP_201_CREATED (DeliveryStatus.id d))).
  unfold DeliveryStatus_objects_create.
  unfold bind at 1, get at 1, bind at 1, put at 1.
  match goal with
  | |- totals_kept db (fst ((?h ;;; ret ?r) ?d)) =>
      rewrite (fst_bind_ret h (fun _ => r) d);
      apply (totals_kept_frame db d); [reflexivity | reflexivity |]
  end.
  unfold handle_delivery_status_update, Order_get.
  unfold bind at 1, bind at 1, get at 1. cbn [orders set_delivery_updates
    DeliveryStatus.order DeliveryStatus.with_id DeliveryStatus.status].
  destruct (find_by_id_some _ _ _ _ E) as [_ Hid].
  rewrite Hid, E. unfold ret at 1.
  destruct (negb _); [|apply totals_kept_refl].
  apply Order_save_status_totals_kept with (old := o).
  cbn. rewrite Hid. exact E.
Qed.

Lemma keeps_get_any P : keeps P get.
Proof. intros db H. exact H. Qed.

Lemma keeps_Invoice_insert_orders db0 self k :
  keeps (same_orders db0) (Invoice_insert self k).
Proof.
  intros db H. unfold Invoice_insert. run.
  destruct (_ || _)%bool; exact H.
Qed.

Lemma keeps_Invoice_save_orders db0 self :
  keeps (same_orders db0) (Invoice_save self).
Proof.
  intros db H. unfold Invoice_save. cbv zeta. unfold bind at 1, get at 1.
  destruct (find_by_id _ _ _).
  - exact H.
  - exact (keeps_bind _ _ _ (keeps_Invoice_insert_orders db0 _ _)
             (fun _ => keeps_ret _ tt) db H).
Qed.

Lemma keeps_Invoice_get P k : keeps P (Invoice_get k).
Proof.
  intros db H. unfold Invoice_get. run. destruct (find_by_id _ _ _); exact H.
Qed.

Lemma keeps_Payment_save_orders db0 p :
  keeps (same_orders db0) (Payment_save p).
Proof.
  intros db H. unfold Payment_save. unfold bind at 1, get at 1. cbv zeta.
  unfold bind at 1, put at 1.
  set (p1 := Payment.with_id p (payment_seq db + 1)).
  set (db1 := set_payments db (payments db ++ [p1]) (payment_seq db + 1)).
  assert (H1 : same_orders db0 db1) by exact H.
  apply (keeps_bind (same_orders db0) (Invoice_get (Payment.invoice p1)));
    [apply keeps_Invoice_get | | exact H1].
  intros inv d Hd. unfold bind at 1, get at 1.
  match goal with
  | |- match bind (Invoice_save ?i) ?f d with _ => _ end =>
      exact (keeps_bind _ _ _ (keeps_Invoice_save_orders db0 i)
               (fun _ => keeps_ret _ p1) d Hd)
  end.
Qed.

Lemma keeps_next_credit_note_number P : keeps P next_credit_note_number.
Proof.
  unfold next_credit_note_number.
  apply keeps_bind; [apply keeps_get_any|]. intros d.
  destruct (last_by_id _ _); [|apply keeps_ret].
  apply keeps_bind; [apply keeps_int_or_raise | intros; apply keeps_ret].
Qed.

Lemma keeps_CreditNoteSerializer_create_orders db0 invoice user data :
  keeps (same_orders db0) (CreditNoteSerializer_create invoice user data).
Proof.
  unfold CreditNoteSerializer_create.
  apply keeps_bind; [apply keeps_next_credit_note_number|]. intros num.
  intros db H. unfold bind at 1, get at 1.
  destruct (existsb _ _); exact H.
Qed.

Lemma same_orders_totals_kept {A} (c : M A) db :
  keeps (same_orders db) c -> totals_kept db (fst (c db)).
Proof.
  intros K.
  assert (H : same_orders db (fst (c db))).
  { apply keeps_fst; [exact K | split; reflexivity]. }
  destruct H. now apply totals_kept_same.
Qed.

Lemma add_payment_totals_kept user k data v db :
  totals_kept db (fst (InvoiceViewSet_add_payment user k data v db)).
Proof.
  apply same_orders_totals_kept. unfold InvoiceViewSet_add_payment.
  apply keeps_bind; [intros d H; exact H|]. intros [i|]; [|apply keeps_ret].
  destruct v; [|apply keeps_ret].
  apply keeps_bind; [apply keeps_Payment_save_orders | intros; apply keeps_ret].
Qed.

Lemma add_credit_note_totals_kept user k data v db :
  totals_kept db (fst (InvoiceViewSet_add_credit_note user k data v db)).
Proof.
  apply same_orders_totals_kept. unfold InvoiceViewSet_add_credit_note.
  apply keeps_bind; [intros d H; exact H|]. intros [i|]; [|apply keeps_ret].
  destruct v; [|apply keeps_ret].
  apply keeps_bind; [apply keeps_CreditNoteSerializer_create_orders
                    | intros; apply keeps_ret].
Qed.

(** C4, counterexample: saving an order item with another quantity changes
    the sum of the items and leaves the order's total as it was. *)
Lemma item_save_breaks_order_total :
  order_total_matches sample_pending_db 1
  /\ ~ order_total_matches
         (fst (OrderItemViewSet_update 1 (mkOrderItemData 1 1 3 (Q2Qc 10)) true
                 sample_pending_db)) 1.
Proof.
  split.
  - exists sample_pending_order. split; [reflexivity|].
    apply Qc_is_canon. reflexivity.
  - intros (o & Hf & Ht). vm_compute in Hf. injection Hf as <-.
    apply (f_equal this) in Ht. vm_compute in Ht. discriminate Ht.
Qed.

(** C4 (as amended): an order that was created successfully has, when the
    request ends, a total equal to the sum over its items of quantity x
    unit price; status transitions, mark_delivered, delivery status events,
    payments and credit notes keep that equality.  A later save of an order
    item does not update the order's total. *)
Theorem order_total_is_sum_of_items :
  (forall today user request db db' k,
      consistent db ->
      OrderViewSet_create today user request db
      = (db', Ok (HTTP_201_CREATED k)) ->
      order_total_matches db' k)
  /\ (forall db db' k,
        status_or_billing_step db db' ->
        order_total_matches db k -> order_total_matches db' k).
Proof.
  split.
  - exact created_order_total.
  - intros db db' k Hs. apply totals_kept_matches.
    destruct Hs.
    + apply update_status_totals_kept.
    + apply mark_delivered_totals_kept.
    + apply add_delivery_status_totals_kept.
    + apply add_payment_totals_kept.
    + apply add_credit_note_totals_kept.
Qed.

Lemma order_total_is_sum_of_items_witness :
  let request :=
    mkOrderData [mkItemData (Some 1) (Some 2); mkItemData (Some 2) None]
                "12 rue des Lilas" None "" None in
  order_total_matches
    (fst (OrderViewSet_create 100 7 request (empty_db [] sample_products))) 1.
Proof.
  intros request. destruct order_total_is_sum_of_items as [H _].
  apply (H 100 7 request (empty_db [] sample_products)).
  - apply consistent_empty.
  - reflexivity.
Defined.

(** * Further properties of the code *)

(** ** Identifiers *)

(** X1: A generated identifier reads back as its number, whatever the number
    of digits, and two numbers never share an identifier. *)
Theorem identifier_round_trip (prefix : string) (n m : Z) :
  0 <= n -> 0 <= m ->
  Py.int (Py.slice_from (String.length prefix)
            (prefix ++ Py.zfill 6 (Py.str n))) = Some n
  /\ (prefix ++ Py.zfill 6 (Py.str n) = prefix ++ Py.zfill 6 (Py.str m) ->
      n = m).
Proof.
  intros Hn Hm. split.
  - rewrite slice_from_app. now apply int_zfill_str.
  - intros H. apply append_inj_l in H. now apply (zfill_str_inj 6).
Qed.

Lemma identifier_round_trip_witness :
  Py.int (Py.slice_from 3 ("INV" ++ Py.zfill 6 (Py.str 1234567)))
  = Some 1234567.
Proof.
  apply (identifier_round_trip "INV" 1234567 0); lia.
Defined.

(** X2: In every state the service reaches, the next invoice number and the
    next credit note number are computed without error, and each is
    greater than every number already in its table. *)
Theorem numbering_never_fails (db : DB) :
  reachable db ->
  (exists n,
      next_invoice_number db = (db, Ok ("INV" ++ Py.zfill 6 (Py.str n)))
      /\ forall i, In i (invoices db) ->
           exists m, numbered "INV" (Invoice.invoice_number i) m /\ m < n)
  /\ (exists n,
        next_credit_note_number db
        = (db, Ok ("CN" ++ Py.zfill 6 (Py.str n)))
        /\ forall c, In c (credit_notes db) ->
             exists m, numbered "CN" (CreditNote.credit_note_number c) m
                       /\ m < n).
Proof.
  intros Hr. pose proof (reachable_consistent db Hr) as Hc. split.
  - destruct (next_invoice_number_ok db Hc) as (n & H1 & _ & H3).
    exists n. split; [exact H1|]. intros i Hi.
    destruct (invoices_in_sequence db Hc) as [Hwf _].
    destruct (Hwf (Invoice.id i) (Invoice.invoice_number i)) as [_ [m Hm]].
    { unfold invoice_keys. apply in_map_iff. eauto. }
    exists m. split; [exact Hm | exact (H3 i m Hi Hm)].
  - destruct (next_credit_note_number_ok db Hc) as (n & H1 & _ & H3).
    exists n. split; [exact H1|]. intros c Hi.
    destruct (credit_notes_in_sequence db Hc) as [Hwf _].
    destruct (Hwf (CreditNote.id c) (CreditNote.credit_note_number c))
      as [_ [m Hm]].
    { unfold credit_note_keys. apply in_map_iff. eauto. }
    exists m. split; [exact Hm | exact (H3 c m Hi Hm)].
Qed.

Lemma numbering_never_fails_witness :
  exists n,
    next_invoice_number
      (fst (OrderViewSet_mark_delivered 100 1
              (fst (OrderViewSet_create 99 7
                      (mkOrderData [mkItemData (Some 1) (Some 2)]
                                   "12 rue des Lilas" None "" None)
                      (empty_db [] sample_products)))))
    = (fst (OrderViewSet_mark_delivered 100 1
              (fst (OrderViewSet_create 99 7
                      (mkOrderData [mkItemData (Some 1) (Some 2)]
                                   "12 rue des Lilas" None "" None)
                      (empty_db [] sample_products)))),
       Ok ("INV" ++ Py.zfill 6 (Py.str n))).
Proof.
  destruct (numbering_never_fails
              (fst (OrderViewSet_mark_delivered 100 1
                      (fst (OrderViewSet_create 99 7
                              (mkOrderData [mkItemData (Some 1) (Some 2)]
                                           "12 rue des Lilas" None "" None)
                              (empty_db [] sample_products))))))
    as [(n & H & _) _].
  - eapply reachable_step; [eapply reachable_step; [apply reachable_empty|]|].
    + apply step_create.
    + apply step_mark_delivered.
  - exists n. exact H.
Defined.



(** ** Invariants of the requests

    A property of the database that the writes of the code keep is kept
    by every request.  The writes are: the insert, update and delete of
    an order, [Product.save], [OrderItem.save], the insert of a delivery
    update, [Invoice.objects.create], [Invoice.save], the insert of a
    payment, of a credit note, and [Quote.save]. *)

Section Invariant.

Variable P : DB -> Prop.

Hypothesis P_set_orders : forall db os k, P db -> P (set_orders db os k).
Hypothesis P_set_delivery_updates :
  forall db ds k, P db -> P (set_delivery_updates db ds k).
Hypothesis P_set_payments : forall db ps k, P db -> P (set_payments db ps k).
Hypothesis P_set_credit_notes :
  forall db cs k, P db -> P (set_credit_notes db cs k).
Hypothesis P_set_quotes : forall db qs k, P db -> P (set_quotes db qs k).
Hypothesis P_Product_save : forall p, keeps P (Product_save p).
Hypothesis P_OrderItem_save :
  forall adding i, keeps P (OrderItem_save adding i).
Hypothesis P_Order_delete : forall o, keeps P (Order_delete o).
Hypothesis P_Invoice_objects_create :
  forall i, keeps P (Invoice_objects_create i).
Hypothesis P_Invoice_save : forall i, keeps P (Invoice_save i).

Lemma inv_next_invoice_number : keeps P next_invoice_number.
Proof.
  intros db HP. unfold next_invoice_number, bind, get.
  destruct (last_by_id Invoice.id (invoices db)) as [i|]; [|exact HP].
  pose proof (keeps_int_or_raise P
                (Py.slice_from 3 (Invoice.invoice_number i)) db HP) as H.
  destruct (int_or_raise _ db) as [db' [a|e]]; exact H.
Qed.

Lemma inv_handle_order_status_change today o created :
  keeps P (handle_order_status_change today o created).
Proof.
  unfold handle_order_status_change. destruct created; [apply keeps_ret|].
  destruct (Order.status_eqb _ _); [|apply keeps_ret].
  apply keeps_get. intros db0 H0. apply keeps_from; [exact H0|].
  destruct (negb _); [|apply keeps_ret].
  apply keeps_bind; [apply inv_next_invoice_number|]. intros number.
  apply keeps_bind; [apply P_Invoice_objects_create | intros; apply keeps_ret].
Qed.

Lemma inv_Order_objects_create today fields :
  keeps P (Order_objects_create today fields).
Proof.
  unfold Order_objects_create. apply keeps_get. intros db0 H0.
  destruct (existsb _ (orders db0)); [now apply keeps_from, keeps_raise|].
  intros db ->. unfold bind at 1, put at 1.
  apply (keeps_bind P (handle_order_status_change today _ true)
           (fun _ => ret _));
    [apply inv_handle_order_status_change | intros; apply keeps_ret|].
  now apply P_set_orders.
Qed.

Lemma inv_Order_save today o : keeps P (Order_save today o).
Proof.
  unfold Order_save. apply keeps_get. intros db0 H0.
  destruct (find_by_id _ _ _).
  - destruct (_ && _)%bool; [now apply keeps_from, keeps_raise|].
    intros db ->. unfold bind at 1, put at 1.
    apply inv_handle_order_status_change. now apply P_set_orders.
  - destruct (existsb _ _); [now apply keeps_from, keeps_raise|].
    intros db ->. unfold bind at 1, put at 1.
    apply inv_handle_order_status_change. now apply P_set_orders.
Qed.

Lemma inv_Order_save_status today o : keeps P (Order_save_status today o).
Proof.
  unfold Order_save_status. apply keeps_get. intros db0 H0.
  destruct (find_by_id _ _ _); [|now apply keeps_from, keeps_raise].
  intros db ->. unfold bind at 1, put at 1.
  apply inv_handle_order_status_change. now apply P_set_orders.
Qed.

Lemma inv_Product_objects_get k : keeps P (Product_objects_get k).
Proof.
  intros db H. unfold Product_objects_get. run.
  destruct (find_by_id _ _ _); exact H.
Qed.

Lemma inv_delete_and_answer {A} o (r : A) :
  keeps P (Order_delete o ;;; ret r).
Proof. apply keeps_bind; [apply P_Order_delete | intros; apply keeps_ret]. Qed.

Lemma inv_process_items order total items :
  keeps P (process_items order total items).
Proof.
  revert total. induction items as [|item rest IH]; intros total; simpl.
  - apply keeps_ret.
  - destruct (falsy_id (item_product_id item)).
    + apply inv_delete_and_answer.
    + apply keeps_bind.
      * apply keeps_try.
        -- apply keeps_bind; [apply inv_Product_objects_get|]. intros p.
           destruct (_ <? _); [apply inv_delete_and_answer|].
           apply keeps_bind; [apply P_Product_save|]. intros _.
           apply keeps_bind; [|intros; apply keeps_ret].
           unfold OrderItem_objects_create. apply P_OrderItem_save.
        -- intros e. destruct e; apply inv_delete_and_answer.
      * intros [r|t]; [apply keeps_ret | apply IH].
Qed.

Lemma inv_OrderSerializer_create today client data :
  keeps P (OrderSerializer_create today client data).
Proof.
  unfold OrderSerializer_create.
  apply keeps_bind; [apply keeps_next_order_number|]. intros number.
  apply inv_Order_objects_create.
Qed.

Lemma inv_OrderViewSet_create today user request :
  keeps P (OrderViewSet_create today user request).
Proof.
  unfold OrderViewSet_create.
  destruct (data_items request) as [|i items]; [apply keeps_ret|].
  destruct (negb _); [apply keeps_ret|].
  apply keeps_try; [|intros e; apply keeps_ret].
  apply keeps_bind; [apply inv_OrderSerializer_create|]. intros order.
  apply keeps_bind; [apply inv_process_items|].
  intros [r|t]; [apply keeps_ret|].
  apply keeps_bind; [apply inv_Order_save | intros; apply keeps_ret].
Qed.

Lemma inv_get_order k : keeps P (get_order k).
Proof. intros db H. exact H. Qed.

Lemma inv_OrderViewSet_mark_delivered today k :
  keeps P (OrderViewSet_mark_delivered today k).
Proof.
  unfold OrderViewSet_mark_delivered.
  apply keeps_bind; [apply inv_get_order|]. intros [o|]; [|apply keeps_ret].
  destruct (Order.status_eqb _ _); [apply keeps_ret|].
  apply keeps_bind; [apply inv_Order_save|]. intros _.
  intros db H. exact H.
Qed.

Lemma inv_OrderViewSet_update_status today k s :
  keeps P (OrderViewSet_update_status today k s).
Proof.
  unfold OrderViewSet_update_status.
  apply keeps_bind; [apply inv_get_order|]. intros [o|]; [|apply keeps_ret].
  apply keeps_bind; [apply inv_Order_save | intros; apply keeps_ret].
Qed.

Lemma inv_handle_delivery_status_update today d created :
  keeps P (handle_delivery_status_update today d created).
Proof.
  unfold handle_delivery_status_update. destruct created; [|apply keeps_ret].
  apply keeps_bind.
  - intros db H. unfold Order_get. run. destruct (find_by_id _ _ _); exact H.
  - intros o. destruct (negb _);
      [apply inv_Order_save_status | apply keeps_ret].
Qed.

Lemma inv_DeliveryStatus_objects_create today d :
  keeps P (DeliveryStatus_objects_create today d).
Proof.
  unfold DeliveryStatus_objects_create. apply keeps_get. intros db0 H0.
  intros db ->. unfold bind at 1, put at 1.
  apply (keeps_bind P (handle_delivery_status_update today _ true)
           (fun _ => ret _));
    [apply inv_handle_delivery_status_update | intros; apply keeps_ret|].
  now apply P_set_delivery_updates.
Qed.

Lemma inv_OrderViewSet_add_delivery_status today user k data v :
  keeps P (OrderViewSet_add_delivery_status today user k data v).
Proof.
  unfold OrderViewSet_add_delivery_status.
  apply keeps_bind; [apply inv_get_order|]. intros [o|]; [|apply keeps_ret].
  destruct v; [|apply keeps_ret].
  apply keeps_bind; [apply inv_DeliveryStatus_objects_create
                    | intros; apply keeps_ret].
Qed.

Lemma inv_OrderItemViewSet_create data v :
  keeps P (OrderItemViewSet_create data v).
Proof.
  unfold OrderItemViewSet_create.
  apply keeps_bind; [apply inv_get_order|]. intros [o|]; [|apply keeps_ret].
  destruct v; [|apply keeps_ret].
  apply keeps_bind; [apply P_OrderItem_save | intros; apply keeps_ret].
Qed.

Lemma inv_OrderItemViewSet_update k data v :
  keeps P (OrderItemViewSet_update k data v).
Proof.
  unfold OrderItemViewSet_update. apply keeps_get. intros db0 H0.
  apply keeps_from; [exact H0|].
  destruct (find_by_id _ _ _); [|apply keeps_ret].
  apply keeps_bind; [apply inv_get_order|]. intros [o|]; [|apply keeps_ret].
  destruct v; [|apply keeps_ret].
  apply keeps_bind; [apply P_OrderItem_save | intros; apply keeps_ret].
Qed.

Lemma inv_InvoiceViewSet_create data v :
  keeps P (InvoiceViewSet_create data v).
Proof.
  unfold InvoiceViewSet_create.
  apply keeps_bind; [apply inv_get_order|]. intros [o|]; [|apply keeps_ret].
  destruct v; [|apply keeps_ret].
  apply keeps_bind; [|intros; apply keeps_ret].
  unfold InvoiceSerializer_create.
  apply keeps_bind; [apply inv_next_invoice_number|]. intros number.
  apply P_Invoice_objects_create.
Qed.

Lemma inv_Payment_save p : keeps P (Payment_save p).
Proof.
  unfold Payment_save. apply keeps_get. intros db0 H0.
  intros db ->. unfold bind at 1, put at 1.
  apply (keeps_bind P (Invoice_get _)); [apply keeps_Invoice_get | |].
  - intros inv. apply keeps_get. intros db1 H1. apply keeps_from; [exact H1|].
    apply keeps_bind; [apply P_Invoice_save | intros; apply keeps_ret].
  - now apply P_set_payments.
Qed.

Lemma inv_get_invoice k : keeps P (get_invoice k).
Proof. intros db H. exact H. Qed.

Lemma inv_InvoiceViewSet_add_payment user k data v :
  keeps P (InvoiceViewSet_add_payment user k data v).
Proof.
  unfold InvoiceViewSet_add_payment.
  apply keeps_bind; [apply inv_get_invoice|]. intros [i|]; [|apply keeps_ret].
  destruct v; [|apply keeps_ret].
  apply keeps_bind; [apply inv_Payment_save | intros; apply keeps_ret].
Qed.

Lemma inv_CreditNoteSerializer_create invoice user data :
  keeps P (CreditNoteSerializer_create invoice user data).
Proof.
  unfold CreditNoteSerializer_create.
  apply keeps_bind; [apply keeps_next_credit_note_number|]. intros number.
  apply keeps_get. intros db0 H0.
  destruct (existsb _ _); [now apply keeps_from, keeps_raise|].
  intros db ->. unfold bind, put, ret. now apply P_set_credit_notes.
Qed.

Lemma inv_InvoiceViewSet_add_credit_note user k data v :
  keeps P (InvoiceViewSet_add_credit_note user k data v).
Proof.
  unfold InvoiceViewSet_add_credit_note.
  apply keeps_bind; [apply inv_get_invoice|]. intros [i|]; [|apply keeps_ret].
  destruct v; [|apply keeps_ret].
  apply keeps_bind; [apply inv_CreditNoteSerializer_create
                    | intros; apply keeps_ret].
Qed.

Lemma inv_Quote_save adding q : keeps P (Quote_save adding q).
Proof.
  unfold Quote_save. apply keeps_get. intros db0 H0.
  apply keeps_from; [exact H0|].
  apply keeps_bind.
  - destruct (Py.is_empty (Quote.customer_name _)); [|apply keeps_ret].
    destruct (find_by_id _ _ _) as [u|]; [|apply keeps_raise].
    destruct (_ ++ _)%list; apply keeps_ret.
  - intros self. destruct adding.
    + destruct (existsb _ _); [apply keeps_raise|].
      intros db HP. unfold bind, put, ret. now apply P_set_quotes.
    + intros db HP. unfold bind, put, ret. now apply P_set_quotes.
Qed.

(** Every request keeps the property. *)
Lemma step_keeps db db' : step db db' -> P db -> P db'.
Proof.
  intros Hs HP. destruct Hs; apply keeps_fst; try exact HP.
  - apply inv_OrderViewSet_create.
  - apply inv_OrderViewSet_update_status.
  - apply inv_OrderViewSet_mark_delivered.
  - apply inv_OrderViewSet_add_delivery_status.
  - apply inv_OrderItemViewSet_create.
  - apply inv_OrderItemViewSet_update.
  - apply inv_InvoiceViewSet_create.
  - apply inv_InvoiceViewSet_add_payment.
  - apply inv_InvoiceViewSet_add_credit_note.
  - apply inv_Quote_save.
Qed.

End Invariant.

(** ** Stock, line totals and invoice amounts *)




Lemma Invoice_with_own_id i : Invoice.with_id i (Invoice.id i) = i.
Proof. now destruct i. Qed.

(** What each write leaves alone. *)
Lemma OrderItem_save_frame adding i db :
  products (fst (OrderItem_save adding i db)) = products db
  /\ invoices (fst (OrderItem_save adding i db)) = invoices db.
Proof.
  unfold OrderItem_save. run. destruct (_ <? 0); [now split|].
  destruct adding; [now split|]. destruct (find_by_id _ _ _); now split.
Qed.

Lemma Order_delete_frame o db :
  products (fst (Order_delete o db)) = products db
  /\ invoices (fst (Order_delete o db)) = invoices db.
Proof. unfold Order_delete. run. destruct (existsb _ _); now split. Qed.

Lemma Product_save_frame p db :
  order_items (fst (Product_save p db)) = order_items db
  /\ invoices (fst (Product_save p db)) = invoices db.
Proof. unfold Product_save. run. destruct (_ <? 0); now split. Qed.

Lemma Invoice_insert_frame i k db :
  products (fst (Invoice_insert i k db)) = products db
  /\ order_items (fst (Invoice_insert i k db)) = order_items db.
Proof. unfold Invoice_insert. run. destruct (_ || _)%bool; now split. Qed.

Lemma Invoice_objects_create_frame i db :
  products (fst (Invoice_objects_create i db)) = products db
  /\ order_items (fst (Invoice_objects_create i db)) = order_items db.
Proof. apply Invoice_insert_frame. Qed.

Lemma Invoice_save_frame i db :
  products (fst (Invoice_save i db)) = products db
  /\ order_items (fst (Invoice_save i db)) = order_items db.
Proof.
  unfold Invoice_save, Invoice_insert. run.
  destruct (find_by_id _ _ _); [now split|].
  destruct (_ || _)%bool; now split.
Qed.

(** A computation that leaves a table alone keeps what holds of it. *)
Lemma keeps_table {A B} (tbl : DB -> B) (Q : B -> Prop) (c : M A) :
  (forall db, tbl (fst (c db)) = tbl db) -> keeps (fun db => Q (tbl db)) c.
Proof.
  intros H db HQ. specialize (H db).
  destruct (c db) as [db' [a|e]]; simpl in H; now rewrite H.
Qed.

Lemma keeps_stock {A} (c : M A) :
  (forall db, products (fst (c db)) = products db) ->
  keeps stock_nonnegative c.
Proof.
  intros H.
  exact (keeps_table products
           (fun ps => forall p, In p ps -> 0 <= Product.stock_quantity p) c H).
Qed.

Lemma stock_Product_save p : keeps stock_nonnegative (Product_save p).
Proof.
  intros db H. unfold Product_save. run.
  destruct (Z.ltb_spec (Product.stock_quantity p) 0); simpl; [exact H|].
  intros x Hx. simpl in Hx. apply in_replace_by_id in Hx.
  destruct Hx as [->|Hx]; [lia | now apply H].
Qed.

(** X4: No request makes a stock negative: when no product has a negative
    stock before a request, none has after it, whether the request
    succeeds, answers an error or raises. *)
Theorem stock_never_negative db db' :
  step db db' -> stock_nonnegative db -> stock_nonnegative db'.
Proof.
  apply step_keeps; try (intros; assumption).
  - apply stock_Product_save.
  - intros. apply keeps_stock. intros. apply OrderItem_save_frame.
  - intros. apply keeps_stock. intros. apply Order_delete_frame.
  - intros. apply keeps_stock. intros. apply Invoice_objects_create_frame.
  - intros. apply keeps_stock. intros. apply Invoice_save_frame.
Qed.

Lemma stock_never_negative_witness :
  stock_nonnegative
    (fst (OrderViewSet_create 99 7
            (mkOrderData [mkItemData (Some 1) (Some 5); mkItemData (Some 2) (Some 4)]
               "12 rue des Lilas" None "" None)
            (empty_db [] sample_products))).
Proof.
  apply (stock_never_negative (empty_db [] sample_products)).
  - apply step_create.
  - intros p [<-|[<-|[]]]; simpl; lia.
Defined.

Lemma keeps_items {A} (c : M A) :
  (forall db, order_items (fst (c db)) = order_items db) ->
  keeps items_priced c.
Proof.
  intros H.
  exact (keeps_table order_items
           (fun its => forall i, In i its ->
              0 <= OrderItem.quantity i
              /\ OrderItem.total_price i
                 = (Decimal_of_int (OrderItem.quantity i)
                    * OrderItem.unit_price i)%Qc) c H).
Qed.

Lemma items_OrderItem_save adding i : keeps items_priced (OrderItem_save adding i).
Proof.
  intros db H. unfold OrderItem_save. run.
  destruct (Z.ltb_spec (OrderItem.quantity i) 0); simpl; [exact H|].
  assert (Hnew : forall k x,
             x = OrderItem.with_id
                   (OrderItem.with_total_price i
                      (Decimal_of_int (OrderItem.quantity i)
                       * OrderItem.unit_price i)%Qc) k ->
             0 <= OrderItem.quantity x
             /\ OrderItem.total_price x
                = (Decimal_of_int (OrderItem.quantity x)
                   * OrderItem.unit_price x)%Qc).
  { intros k x ->. simpl. split; [lia | reflexivity]. }
  assert (Happ : forall k n,
             items_priced
               (set_order_items db
                  (order_items db
                     ++ [OrderItem.with_id
                           (OrderItem.with_total_price i
                              (Decimal_of_int (OrderItem.quantity i)
                               * OrderItem.unit_price i)%Qc) k]) n)).
  { intros k n x Hx. simpl in Hx. apply in_app_or in Hx.
    destruct Hx as [Hx|[<-|[]]]; [now apply H | now apply (Hnew k)]. }
  destruct adding; simpl; [apply Happ|].
  destruct (find_by_id _ _ _); simpl.
  - intros x Hx. simpl in Hx. apply in_replace_by_id in Hx.
    destruct Hx as [->|Hx]; [|now apply H].
    simpl. split; [lia | reflexivity].
  - destruct i. apply (Happ id).
Qed.

Lemma items_Order_delete o : keeps items_priced (Order_delete o).
Proof.
  intros db H. unfold Order_delete. run.
  destruct (existsb _ _); simpl; [exact H|].
  intros x Hx. simpl in Hx. apply filter_In in Hx. now apply H.
Qed.

Lemma step_items db db' : step db db' -> items_priced db -> items_priced db'.
Proof.
  apply step_keeps; try (intros; assumption).
  - intros. apply keeps_items. intros. apply Product_save_frame.
  - apply items_OrderItem_save.
  - apply items_Order_delete.
  - intros. apply keeps_items. intros. apply Invoice_objects_create_frame.
  - intros. apply keeps_items. intros. apply Invoice_save_frame.
Qed.

(** X5: In every state the service reaches, each stored order item has a
    quantity that is not negative and a line total equal to its quantity
    times its unit price. *)
Theorem stored_items_are_priced db : reachable db -> items_priced db.
Proof.
  induction 1 as [us ps | db db' _ IH Hs]; [intros i []|].
  exact (step_items db db' Hs IH).
Qed.

Lemma stored_items_are_priced_witness :
  items_priced
    (fst (OrderItemViewSet_update 1 (mkOrderItemData 1 1 3 (Q2Qc 10)) true
            (fst (OrderViewSet_create 99 7
                    (mkOrderData [mkItemData (Some 1) (Some 2)]
                       "12 rue des Lilas" None "" None)
                    (empty_db [] sample_products))))).
Proof.
  apply stored_items_are_priced.
  eapply reachable_step; [eapply reachable_step; [apply reachable_empty|]|].
  - apply step_create.
  - apply step_item_update.
Defined.






(** ** Invoices and payments *)







(** X8: An order never gets a second invoice through the API: whatever the
    request and the verdict of the serializer, the request writes nothing
    and does not answer 201. *)
Theorem second_invoice_is_refused data v db o :
  consistent db ->
  find_by_id Order.id (data_inv_order data) (orders db) = Some o ->
  has_invoice db (data_inv_order data) = true ->
  fst (InvoiceViewSet_create data v db) = db
  /\ forall k,
       snd (InvoiceViewSet_create data v db) <> Ok (HTTP_201_CREATED k).
Proof.
  intros Hc Ho Hhas.
  destruct (next_invoice_number_ok db Hc) as (n & Hnext & _).
  assert (E : InvoiceViewSet_create data v db
              = if v then (db, Raise IntegrityError)
                else (db, Ok (HTTP_400_BAD_REQUEST ValidationError))).
  { unfold InvoiceViewSet_create, get_order.
    unfold bind at 1, bind at 1, get at 1, ret at 1. rewrite Ho.
    destruct v; [|reflexivity].
    unfold bind at 1. unfold InvoiceSerializer_create.
    unfold bind at 1. rewrite Hnext.
    unfold Invoice_objects_create. unfold bind at 1, get at 1.
    unfold Invoice_insert. unfold bind at 1, get at 1.
    rewrite Invoice_derive_order. cbn [Invoice.order].
    unfold has_invoice in Hhas. rewrite Hhas, orb_true_r. reflexivity. }
  rewrite E. destruct v; cbn [fst snd]; split; try reflexivity;
    intros k; discriminate.
Qed.

Lemma second_invoice_is_refused_witness :
  let db := fst (OrderViewSet_mark_delivered 100 1 sample_pending_db) in
  fst (InvoiceViewSet_create
         (mkInvoiceData 1 7 None 100 130 (Q2Qc 50) (Some (Q2Qc 20)) "")
         true db)
  = db.
Proof.
  intros db.
  apply (second_invoice_is_refused _ true db
           (Order.with_status sample_pending_order Order.DELIVERED));
    [|reflexivity | reflexivity].
  apply (step_consistent sample_pending_db);
    [apply step_mark_delivered | apply consistent_sample_pending].
Defined.



(** ** The loop over the items of a new order *)

Lemma Order_delete_raise o db d e :
  Order_delete o db = (d, Raise e) -> d = db /\ e = ProtectedError.
Proof.
  unfold Order_delete. run. destruct (existsb _ _); [|discriminate].
  now intros [= <- <-].
Qed.

(** One turn of the loop of [OrderViewSet.create]: the four ways it
    deletes the order and answers 400, and the turn that goes on. *)
Lemma process_items_cons order total item rest cur :
  process_items order total (item :: rest) cur
  = let quantity := from_option 1 (item_quantity item) in
    let product_id := from_option 0 (item_product_id item) in
    if falsy_id (item_product_id item) then
      (Order_delete order ;;;
       ret (inl (HTTP_400_BAD_REQUEST ProductIdRequired))) cur
    else
      match find_by_id Product.id product_id (products cur) with
      | None =>
          (Order_delete order ;;;
           ret (inl (HTTP_400_BAD_REQUEST (ProductNotFound product_id)))) cur
      | Some p =>
          if Product.stock_quantity p <? quantity then
            (Order_delete order ;;;
             ret (inl (HTTP_400_BAD_REQUEST
                         (InsufficientStock (Product.id p)
                            (Product.stock_quantity p) quantity)))) cur
          else
            let cur1 :=
              set_products cur
                (replace_by_id Product.id
                   (Product.with_stock_quantity p
                      (Product.stock_quantity p - quantity))
                   (products cur)) in
            if quantity <? 0 then
              (Order_delete order ;;;
               ret (inl (HTTP_400_BAD_REQUEST (ItemError IntegrityError))))
                cur1
            else
              process_items order
                (total + Product.price p * Decimal_of_int quantity)%Qc rest
                (set_order_items cur1
                   (order_items cur
                      ++ [OrderItem.mk (order_item_seq cur + 1)
                            (Order.id order) (Product.id p) quantity
                            (Product.price p)
                            (Decimal_of_int quantity * Product.price p)%Qc])
                   (order_item_seq cur + 1))
      end.
Proof.
  cbn [process_items]. cbv zeta.
  destruct (falsy_id (item_product_id item)); [reflexivity|].
  unfold bind at 1, try_except at 1, bind at 1, Product_objects_get at 1.
  unfold bind at 1, get at 1.
  destruct (find_by_id Product.id _ (products cur)) as [p|];
    [|unfold raise at 1; cbn beta iota;
      destruct (Order_delete order cur) as [d [[]|e]] eqn:E;
      unfold bind, ret; rewrite E; reflexivity].
  unfold ret at 1. cbn beta iota.
  destruct (Z.ltb_spec (Product.stock_quantity p)
              (from_option 1 (item_quantity item))) as [Hlt|Hge].
  { unfold bind, ret.
    destruct (Order_delete order cur) as [d [[]|e]] eqn:E; [reflexivity|].
    destruct (Order_delete_raise _ _ _ _ E) as [-> ->].
    rewrite E. reflexivity. }
  unfold bind at 1. unfold Product_save at 1. unfold bind at 1, get at 1.
  cbn [Product.stock_quantity Product.with_stock_quantity].
  destruct (Z.ltb_spec (Product.stock_quantity p
                        - from_option 1 (item_quantity item)) 0);
    [lia|].
  unfold put at 1. cbn beta iota.
  unfold bind at 1, bind at 1.
  unfold OrderItem_objects_create, OrderItem_save.
  unfold bind at 1, get at 1.
  cbn [OrderItem.quantity OrderItem.with_total_price OrderItem.unit_price
       Product.price Product.with_stock_quantity Product.id].
  destruct (from_option 1 (item_quantity item) <? 0).
  { unfold raise at 1. cbn beta iota.
    unfold bind, ret.
    destruct (Order_delete order _) as [d [[]|e]]; reflexivity. }
  unfold bind at 1, put at 1, ret at 1, ret at 1. cbn beta iota.
  reflexivity.
Qed.

Lemma Order_delete_removes order db0 cur {A} (x : A) :
  has_invoice db0 (Order.id order) = false ->
  processing order db0 cur ->
  exists d, (Order_delete order ;;; ret x) cur = (d, Ok x)
            /\ order_removed order db0 d.
Proof.
  intros Hno (Ho & Hs & Hi & Hf). unfold Order_delete. run.
  unfold has_invoice in Hno. rewrite Hi, Hno. simpl.
  eexists. split; [reflexivity|].
  split; [|split; [|split]]; simpl;
    [now rewrite Ho | exact Hs | exact Hf | exact Hi].
Qed.

Lemma processing_set_products order db0 cur ps :
  processing order db0 cur -> processing order db0 (set_products cur ps).
Proof. intros H. exact H. Qed.

Lemma processing_add_item order db0 cur it n :
  OrderItem.order it = Order.id order ->
  processing order db0 cur ->
  processing order db0 (set_order_items cur (order_items cur ++ [it]) n).
Proof.
  intros Hit (Ho & Hs & Hi & Hf).
  split; [exact Ho|]. split; [exact Hs|]. split; [exact Hi|].
  simpl. unfold other_items in *. rewrite filter_app, Hf. simpl.
  rewrite Hit, Z.eqb_refl. simpl. apply app_nil_r.
Qed.

(** A loop that answers early has removed the order and its items and
    left the other orders, their items and the invoices alone. *)
Lemma process_items_removed order db0 items :
  has_invoice db0 (Order.id order) = false ->
  forall total cur d r,
    processing order db0 cur ->
    process_items order total items cur = (d, Ok (inl r)) ->
    order_removed order db0 d.
Proof.
  intros Hno. induction items as [|item rest IH]; intros total cur d r Hp.
  - cbn [process_items]. discriminate.
  - rewrite process_items_cons. cbv zeta.
    assert (Hdel : forall cur' (x : Response + Decimal),
               processing order db0 cur' ->
               (Order_delete order ;;; ret x) cur' = (d, Ok (inl r)) ->
               order_removed order db0 d).
    { intros cur' x Hp' H.
      destruct (Order_delete_removes order db0 cur' x Hno Hp')
        as (d' & Hd & Hrem).
      rewrite Hd in H. now inversion H; subst. }
    destruct (falsy_id _); [intros H; exact (Hdel _ _ Hp H)|].
    destruct (find_by_id Product.id _ _) as [p|];
      [|intros H; exact (Hdel _ _ Hp H)].
    destruct (Product.stock_quantity p <? _);
      [intros H; exact (Hdel _ _ Hp H)|].
    destruct (_ <? 0).
    + intros H. refine (Hdel _ _ _ H). now apply processing_set_products.
    + apply IH.
      apply (processing_add_item order db0 (set_products cur _));
        [reflexivity|].
      now apply processing_set_products.
Qed.

(** ** Order creation *)

(** How a creation request runs: it answers before writing, or the
    serializer creates the order and the loop either answers early or
    ends and the total is saved, or an exception is answered with 500. *)
Lemma OrderViewSet_create_cases today user request db db' resp :
  consistent db ->
  OrderViewSet_create today user request db = (db', Ok resp) ->
  (db' = db
   /\ (resp = HTTP_400_BAD_REQUEST EmptyOrder
       \/ resp = HTTP_400_BAD_REQUEST ValidationError))
  \/ (exists e, resp = HTTP_500_INTERNAL_SERVER_ERROR e)
  \/ (exists order db1,
        OrderSerializer_create today user request db = (db1, Ok order)
        /\ Order.id order = order_seq db + 1
        /\ db1 = set_orders db (orders db ++ [order]) (order_seq db + 1)
        /\ has_invoice db1 (Order.id order) = false
        /\ (process_items order 0%Qc (data_items request) db1
            = (db', Ok (inl resp))
            \/ exists t db2,
                 process_items order 0%Qc (data_items request) db1
                 = (db2, Ok (inr t))
                 /\ Order_save today (Order.with_total_amount order t) db2
                    = (db', Ok tt)
                 /\ resp = HTTP_201_CREATED (Order.id order))).
Proof.
  intros Hc. unfold OrderViewSet_create.
  destruct (data_items request) as [|i items] eqn:Ei;
    [intros [= <- <-]; left; auto|].
  destruct (negb _); [intros [= <- <-]; left; auto|].
  unfold try_except.
  match goal with |- (let (_, _) := ?c db in _) = _ -> _ =>
    destruct (c db) as [d [r|e]] eqn:E end;
    [|intros [= <- <-]; right; left; eauto].
  intros [= -> ->]. right; right. revert E.
  unfold bind at 1.
  destruct (OrderSerializer_create today user request db)
    as [db1 [order|e]] eqn:E1; [|discriminate].
  exists order, db1. split; [reflexivity|].
  assert (Hcr : Order.id order = order_seq db + 1
                /\ db1 = set_orders db (orders db ++ [order]) (order_seq db + 1)
                /\ has_invoice db1 (Order.id order) = false).
  { revert E1. unfold OrderSerializer_create. unfold bind at 1.
    destruct (next_order_number db) as [d0 [num|e]] eqn:En; [|discriminate].
    apply next_order_number_state in En. subst d0. intros E1.
    destruct (Order_objects_create_outcome today _ db db1 order Hc E1)
      as (Hrow & Hdb1 & Hno).
    split; [now rewrite Hrow | split; assumption]. }
  destruct Hcr as (Hid & Hdb1 & Hno).
  split; [exact Hid|]. split; [exact Hdb1|]. split; [exact Hno|].
  revert E. unfold bind at 1.
  destruct (process_items order 0%Qc (i :: items) db1)
    as [db2 [[r|t]|e]] eqn:E2; [| |discriminate].
  - intros [= <- <-]. now left.
  - unfold bind, ret.
    destruct (Order_save today (Order.with_total_amount order t) db2)
      as [db3 [[]|e]] eqn:E3; [|discriminate].
    intros [= <- <-]. right. exists t, db2. auto.
Qed.

Lemma filter_all {A} (f : A -> bool) (l : list A) :
  (forall x, In x l -> f x = true) -> filter f l = l.
Proof.
  induction l as [|a l IH]; simpl; [reflexivity|]. intros H.
  rewrite (H a (or_introl eq_refl)). f_equal. apply IH. auto.
Qed.

Lemma next_order_number_orders db db' :
  orders db' = orders db ->
  snd (next_order_number db') = snd (next_order_number db).
Proof.
  intros H. unfold next_order_number, bind, get. rewrite H.
  destruct (last_by_id Order.id (orders db)) as [o|]; [|reflexivity].
  unfold int_or_raise. destruct (Py.int _); reflexivity.
Qed.

(** X10: A creation request that answers 400 leaves no trace in the order
    tables: the orders, the order items and the invoices are those it
    found, and the order number it had taken is given to the next order. *)
Theorem failed_creation_removes_the_order today user request db db' e :
  consistent db ->
  OrderViewSet_create today user request db
  = (db', Ok (HTTP_400_BAD_REQUEST e)) ->
  orders db' = orders db
  /\ order_items db' = order_items db
  /\ invoices db' = invoices db
  /\ snd (next_order_number db') = snd (next_order_number db).
Proof.
  intros Hc H.
  assert (Hmain : orders db' = orders db /\ order_items db' = order_items db
                  /\ invoices db' = invoices db).
  { destruct (OrderViewSet_create_cases _ _ _ _ _ _ Hc H)
      as [[-> _] | [[x Hx] | (order & db1 & _ & Hid & Hdb1 & Hno & Hrun)]];
      [auto | discriminate |].
    destruct Hrun as [Hrun | (t & db2 & _ & _ & Hx)]; [|discriminate].
    assert (Hp : processing order db1 db1) by (repeat split).
    destruct (process_items_removed order db1 _ Hno _ _ _ _ Hp Hrun)
      as (Ho & _ & Hi & Hv).
    rewrite Ho, Hi, Hv. subst db1. cbn [orders order_items invoices set_orders].
    split; [|split; [|reflexivity]].
    - unfold other_orders. rewrite filter_app. cbn [filter].
      rewrite Z.eqb_refl. cbn [negb]. rewrite app_nil_r.
      apply filter_all. intros x Hx.
      pose proof (order_keys_issued db Hc x Hx).
      destruct (Z.eqb_spec (Order.id x) (Order.id order)); [lia | reflexivity].
    - unfold other_items. apply filter_all. intros x Hx.
      pose proof (item_orders_issued db Hc x Hx).
      destruct (Z.eqb_spec (OrderItem.order x) (Order.id order));
        [lia | reflexivity]. }
  destruct Hmain as (Ho & Hi & Hv). repeat split; try assumption.
  now apply next_order_number_orders.
Qed.

Lemma failed_creation_removes_the_order_witness :
  let r :=
    OrderViewSet_create 100 7
      (mkOrderData [mkItemData (Some 1) (Some 1); mkItemData (Some 2) (Some 9)]
         "quai 3" None "" None)
      sample_pending_db in
  orders (fst r) = orders sample_pending_db
  /\ order_items (fst r) = order_items sample_pending_db.
Proof.
  intros r.
  destruct (failed_creation_removes_the_order 100 7
              (mkOrderData
                 [mkItemData (Some 1) (Some 1); mkItemData (Some 2) (Some 9)]
                 "quai 3" None "" None)
              sample_pending_db (fst r) (InsufficientStock 2 3 9)
              consistent_sample_pending eq_refl)
    as (H1 & H2 & _).
  split; assumption.
Defined.

Lemma process_items_stock order items :
  forall total cur d t,
    process_items order total items cur = (d, Ok (inr t)) ->
    forall p prod,
      find_by_id Product.id p (products cur) = Some prod ->
      exists prod',
        find_by_id Product.id p (products d) = Some prod'
        /\ Product.stock_quantity prod'
           = Product.stock_quantity prod - ordered_quantity items p
        /\ Product.price prod' = Product.price prod
        /\ Product.name prod' = Product.name prod
        /\ 0 <= ordered_quantity items p
        /\ (ordered_quantity items p = 0
            \/ 0 <= Product.stock_quantity prod').
Proof.
  induction items as [|item rest IH]; intros total cur d t.
  - cbn [process_items]. intros [= <- <-] p prod Hf. exists prod.
    cbn [ordered_quantity fold_right]. repeat split; auto; lia.
  - rewrite process_items_cons. cbv zeta.
    destruct (falsy_id _);
      [intros H; exfalso; exact (Order_delete_not_inr _ _ _ _ _ H)|].
    destruct (find_by_id Product.id _ (products cur)) as [p0|] eqn:E0;
      [|intros H; exfalso; exact (Order_delete_not_inr _ _ _ _ _ H)].
    destruct (Z.ltb_spec (Product.stock_quantity p0)
                (from_option 1 (item_quantity item))) as [Hlt|Hge];
      [intros H; exfalso; exact (Order_delete_not_inr _ _ _ _ _ H)|].
    destruct (Z.ltb_spec (from_option 1 (item_quantity item)) 0) as [Hq|Hq];
      [intros H; exfalso; exact (Order_delete_not_inr _ _ _ _ _ H)|].
    intros Hrest p prod Hf.
    destruct (find_by_id_some _ _ _ _ E0) as [_ Hid0].
    set (q := from_option 1 (item_quantity item)) in *.
    set (p1 := Product.with_stock_quantity p0 (Product.stock_quantity p0 - q))
      in *.
    cbn [ordered_quantity fold_right]. fold (ordered_quantity rest p).
    destruct (Z.eqb_spec (from_option 0 (item_product_id item)) p) as [Hp|Hp].
    + assert (Hprod : prod = p0) by congruence. subst prod.
      assert (Hf1 : find_by_id Product.id p
                      (replace_by_id Product.id p1 (products cur)) = Some p1).
      { rewrite <- Hp, <- Hid0.
        change (Product.id p0) with (Product.id p1).
        apply find_replace_by_id with (old := p0).
        cbn [p1 Product.id Product.with_stock_quantity]. now rewrite Hid0. }
      destruct (IH _ _ _ _ Hrest p p1 Hf1)
        as (prod' & H1 & H2 & H3 & H4 & H5 & H6).
      exists prod'. split; [exact H1|].
      cbn [p1 Product.stock_quantity Product.with_stock_quantity
           Product.price Product.name] in H2, H3, H4.
      fold q. repeat split; try assumption; lia.
    + assert (Hf1 : find_by_id Product.id p
                      (replace_by_id Product.id p1 (products cur))
                    = Some prod).
      { rewrite find_replace_other; [exact Hf|].
        cbn [p1 Product.id Product.with_stock_quantity]. congruence. }
      exact (IH _ _ _ _ Hrest p prod Hf1).
Qed.

Lemma Order_save_products today o db :
  products (fst (Order_save today o db)) = products db.
Proof.
  apply (keeps_fst (fun d => products d = products db) (Order_save today o));
    [|reflexivity].
  apply inv_Order_save; try (intros; assumption).
  intros i. apply (keeps_table products (fun ps => ps = products db)).
  intros. apply Invoice_objects_create_frame.
Qed.

(** X11: A creation request that answers 201 has taken from each product the
    quantity its items ask for, repeated products added up: the stock is
    the one before minus that quantity, which is not negative; price and
    name are untouched. *)
Theorem created_order_takes_stock today user request db db' k :
  consistent db ->
  OrderViewSet_create today user request db = (db', Ok (HTTP_201_CREATED k)) ->
  forall p prod,
    find_by_id Product.id p (products db) = Some prod ->
    exists prod',
      find_by_id Product.id p (products db') = Some prod'
      /\ Product.stock_quantity prod'
         = Product.stock_quantity prod
           - ordered_quantity (data_items request) p
      /\ Product.price prod' = Product.price prod
      /\ Product.name prod' = Product.name prod
      /\ 0 <= ordered_quantity (data_items request) p
      /\ (ordered_quantity (data_items request) p = 0
          \/ 0 <= Product.stock_quantity prod').
Proof.
  intros Hc H p prod Hf.
  destruct (OrderViewSet_create_cases _ _ _ _ _ _ Hc H)
    as [[_ [Hx|Hx]] | [[x Hx] | (order & db1 & _ & Hid & Hdb1 & Hno & Hrun)]];
    try discriminate.
  destruct Hrun as [Hrun | (t & db2 & Hrun & Hsave & _)].
  { destruct (process_items_early _ _ _ _ _ _ Hrun) as [e He]. discriminate. }
  assert (Hf1 : find_by_id Product.id p (products db1) = Some prod)
    by (subst db1; exact Hf).
  destruct (process_items_stock _ _ _ _ _ _ Hrun p prod Hf1)
    as (prod' & H1 & H2).
  exists prod'. split; [|exact H2].
  pose proof (Order_save_products today (Order.with_total_amount order t) db2)
    as Hp.
  rewrite Hsave in Hp. cbn [fst] in Hp. now rewrite Hp.
Qed.

Lemma created_order_takes_stock_witness :
  exists prod',
    find_by_id Product.id 1
      (products
         (fst (OrderViewSet_create 100 7
                 (mkOrderData
                    [mkItemData (Some 1) (Some 2); mkItemData (Some 1) (Some 3)]
                    "quai 3" None "" None)
                 sample_pending_db))) = Some prod'
    /\ Product.stock_quantity prod' = 0.
Proof.
  assert (Hrun : OrderViewSet_create 100 7
                   (mkOrderData
                      [mkItemData (Some 1) (Some 2);
                       mkItemData (Some 1) (Some 3)]
                      "quai 3" None "" None)
                   sample_pending_db
                 = (fst (OrderViewSet_create 100 7
                           (mkOrderData
                              [mkItemData (Some 1) (Some 2);
                               mkItemData (Some 1) (Some 3)]
                              "quai 3" None "" None)
                           sample_pending_db),
                    Ok (HTTP_201_CREATED 2)))
    by (vm_compute; reflexivity).
  destruct (created_order_takes_stock 100 7 _ sample_pending_db _ 2
              consistent_sample_pending Hrun 1
              (Product.mk 1 "panel A" (Q2Qc 10) 5) eq_refl)
    as (prod' & H1 & H2 & _).
  exists prod'. split; [exact H1 | exact H2].
Defined.

(** ** Delivery events and repeated deliveries *)




Lemma update_status_not_delivered today k s db o :
  find_by_id Order.id k (orders db) = Some o ->
  s <> Order.DELIVERED ->
  OrderViewSet_update_status today k s db
  = (set_orders db
       (replace_by_id Order.id (Order.with_status o s) (orders db))
       (order_seq db),
     Ok (HTTP_200_OK k None)).
Proof.
  intros Hfind Hs. destruct (find_by_id_some _ _ _ _ Hfind) as [_ Hid].
  subst k. unfold OrderViewSet_update_status, get_order.
  unfold bind at 1, bind at 1, get at 1, ret at 1. rewrite Hfind.
  unfold bind at 1.
  rewrite (Order_save_stored today (Order.with_status o s) db o Hfind eq_refl).
  rewrite handler_no_change by (right; left; exact Hs). reflexivity.
Qed.

(** X15: An order that has an invoice keeps it through a new delivery: after
    its status is set back to one that is not Delivered and the order is
    marked delivered again, the invoice table is the one before, the
    answer names the existing invoice, and the order is Delivered. *)
Theorem redelivery_keeps_the_invoice today1 today2 k s db o :
  consistent db ->
  find_by_id Order.id k (orders db) = Some o ->
  has_invoice db k = true ->
  s <> Order.DELIVERED ->
  let db1 := fst (OrderViewSet_update_status today1 k s db) in
  let r := OrderViewSet_mark_delivered today2 k db1 in
  invoices (fst r) = invoices db
  /\ find_by_id Order.id k (orders (fst r))
     = Some (Order.with_status o Order.DELIVERED)
  /\ exists inv,
       In inv (invoices db) /\ Invoice.order inv = k
       /\ snd r = Ok (HTTP_200_OK k (Some (Invoice.invoice_number inv))).
Proof.
  intros Hc Hfind Hhas Hs db1 r.
  destruct (find_by_id_some _ _ _ _ Hfind) as [_ Hid].
  assert (E1 : db1 = set_orders db
                       (replace_by_id Order.id (Order.with_status o s)
                          (orders db)) (order_seq db)).
  { unfold db1. now rewrite (update_status_not_delivered today1 k s db o). }
  set (o1 := Order.with_status o s) in *.
  assert (Hf1 : find_by_id Order.id k (orders db1) = Some o1).
  { rewrite E1. cbn [orders set_orders]. rewrite <- Hid.
    change (Order.id o) with (Order.id o1).
    apply find_replace_by_id with (old := o).
    change (Order.id o1) with (Order.id o). now rewrite Hid. }
  assert (Hs1 : Order.status_eqb (Order.status o1) Order.DELIVERED = false).
  { destruct (Order.status_eqb _ _) eqn:E; [|reflexivity].
    apply status_eqb_eq in E. contradiction. }
  destruct (has_invoice_find db k Hhas) as [inv Hinv].
  assert (Er : r = (set_orders db1
                      (replace_by_id Order.id
                         (Order.with_status o Order.DELIVERED) (orders db1))
                      (order_seq db1),
                    Ok (HTTP_200_OK k (Some (Invoice.invoice_number inv))))).
  { unfold r, OrderViewSet_mark_delivered, get_order.
    unfold bind at 1, bind at 1, get at 1, ret at 1. rewrite Hf1, Hs1.
    unfold bind at 1.
    assert (Hf1' : find_by_id Order.id
                     (Order.id (Order.with_status o1 Order.DELIVERED))
                     (orders db1) = Some o1).
    { change (Order.id (Order.with_status o1 Order.DELIVERED))
        with (Order.id o). now rewrite Hid. }
    rewrite (Order_save_stored today2 (Order.with_status o1 Order.DELIVERED)
               db1 o1 Hf1' eq_refl).
    rewrite handler_no_change.
    - unfold bind, get, ret.
      change (Order.id (Order.with_status o1 Order.DELIVERED))
        with (Order.id o).
      rewrite Hid. cbn [invoices set_orders]. rewrite E1.
      cbn [invoices set_orders]. rewrite Hinv. reflexivity.
    - right; right.
      change (Order.id (Order.with_status o1 Order.DELIVERED))
        with (Order.id o).
      rewrite Hid, E1. exact Hhas. }
  rewrite Er. cbn [fst snd]. split; [|split].
  - rewrite E1. reflexivity.
  - cbn [orders set_orders]. rewrite <- Hid.
    change (Order.id o) with (Order.id (Order.with_status o Order.DELIVERED)).
    apply find_replace_by_id with (old := o1).
    change (Order.id (Order.with_status o Order.DELIVERED)) with (Order.id o).
    now rewrite Hid.
  - exists inv. apply find_some in Hinv. destruct Hinv as [Hin He].
    apply Z.eqb_eq in He. auto.
Qed.

Lemma redelivery_keeps_the_invoice_witness :
  invoices
    (fst (OrderViewSet_mark_delivered 140 1
            (fst (OrderViewSet_update_status 120 1 Order.IN_TRANSIT
                    (fst (OrderViewSet_mark_delivered 100 1
                            sample_pending_db))))))
  = invoices (fst (OrderViewSet_mark_delivered 100 1 sample_pending_db)).
Proof.
  apply (redelivery_keeps_the_invoice 120 140 1 Order.IN_TRANSIT
           (fst (OrderViewSet_mark_delivered 100 1 sample_pending_db))
           (Order.with_status sample_pending_order Order.DELIVERED)).
  - apply (step_consistent sample_pending_db);
      [apply step_mark_delivered | apply consistent_sample_pending].
  - reflexivity.
  - reflexivity.
  - discriminate.
Defined.

(** ** Order numbers *)

Section MoreSequence.
Context {A : Type} (id : A -> pk) (number : A -> string) (prefix : string).


Lemma sequence_filter rows seq (f : A -> bool) :
  in_sequence prefix (key_pairs id number rows) seq ->
  in_sequence prefix (key_pairs id number (filter f rows)) seq.
Proof.
  intros [Hwf Hmono].
  assert (Hin : forall k s, In (k, s) (key_pairs id number (filter f rows)) ->
                            In (k, s) (key_pairs id number rows)).
  { intros k s H. destruct (keys_in id number _ _ _ H) as (r & Hr & <- & <-).
    apply filter_In in Hr. apply in_keys. tauto. }
  split.
  - intros k s H. apply Hwf. auto.
  - intros k s n k' s' n' H H'. apply Hmono; auto.
Qed.

End MoreSequence.






Lemma only_invoices_order_seq db db' :
  only_invoices_change db db' -> order_seq db' = order_seq db.
Proof. intros ->. reflexivity. Qed.


Lemma Order_save_status_orders today self db old :
  find_by_id Order.id (Order.id self) (orders db) = Some old ->
  orders (fst (Order_save_status today self db))
  = replace_by_id Order.id (Order.with_status old (Order.status self))
      (orders db)
  /\ order_seq (fst (Order_save_status today self db)) = order_seq db.
Proof.
  intros Hf. rewrite (Order_save_status_stored today self db old Hf).
  pose proof (handler_frame today self false
                (set_orders db
                   (replace_by_id Order.id
                      (Order.with_status old (Order.status self)) (orders db))
                   (order_seq db))) as F.
  now rewrite (frame_orders _ _ F), (only_invoices_order_seq _ _ F).
Qed.
















(** ** The order item endpoints *)



(** X17: No item endpoint ever touches a product or an order, whatever is
    posted: stock is neither checked nor taken, and the total of the
    order is not recomputed. *)
Theorem item_endpoints_bypass_stock_and_total data v k db :
  (products (fst (OrderItemViewSet_create data v db)) = products db
   /\ orders (fst (OrderItemViewSet_create data v db)) = orders db)
  /\ (products (fst (OrderItemViewSet_update k data v db)) = products db
      /\ orders (fst (OrderItemViewSet_update k data v db)) = orders db).
Proof.
  assert (Hsave : forall adding i,
             keeps (fun d => products d = products db /\ orders d = orders db)
                   (OrderItem_save adding i)).
  { intros adding i d H. unfold OrderItem_save. run.
    destruct (_ <? 0); [exact H|]. destruct adding; [exact H|].
    destruct (find_by_id _ _ _); exact H. }
  split.
  - apply (keeps_fst (fun d => products d = products db
                               /\ orders d = orders db));
      [|now split].
    apply inv_OrderItemViewSet_create. exact Hsave.
  - apply (keeps_fst (fun d => products d = products db
                               /\ orders d = orders db));
      [|now split].
    apply inv_OrderItemViewSet_update. exact Hsave.
Qed.

(** ** Quotes *)

(** A later save of a quote that has its number and its customer name:
    the row is rewritten, with the total derived when it is zero. *)
Lemma Quote_save_stored self db :
  Py.is_empty (Quote.quote_number self) = false ->
  Py.is_empty (Quote.customer_name self) = false ->
  Quote_save false self db
  = let self' :=
      if is_zero (Quote.total self)
      then Quote.with_total self
             (Quote.subtotal self - Quote.discount self + Quote.tax self)%Qc
      else self in
    (set_quotes db (replace_by_id Quote.id self' (quotes db)) (quote_seq db),
     Ok self').
Proof.
  intros Hn Hc. unfold Quote_save. unfold bind at 1, get at 1.
  assert (Hn' : forall q, Quote.quote_number q = Quote.quote_number self ->
                          Py.is_empty (Quote.quote_number q) = false)
    by (intros q ->; exact Hn).
  assert (Hc' : forall q, Quote.customer_name q = Quote.customer_name self ->
                          Py.is_empty (Quote.customer_name q) = false)
    by (intros q ->; exact Hc).
  destruct (is_zero (Quote.total self)).
  - rewrite Hn' by reflexivity. rewrite Hc' by reflexivity. reflexivity.
  - rewrite Hn, Hc. reflexivity.
Qed.

Lemma Quote_status_eqb_eq a b : Quote_status_eqb a b = true <-> a = b.
Proof. destruct a, b; simpl; split; congruence. Qed.

Lemma keeps_order_tables_Quote_save os its n adding q :
  keeps (fun d => orders d = os /\ order_items d = its /\ order_seq d = n)
        (Quote_save adding q).
Proof. apply inv_Quote_save. intros; assumption. Qed.

(** X18: Converting a quote to an order creates no order: whatever the quote,
    the order tables are those before.  The action refuses a quote that is
    not Accepted and writes nothing; an Accepted quote becomes Converted
    and keeps its number. *)
Theorem quote_conversion_creates_no_order k db :
  (orders (fst (QuoteViewSet_create_order k db)) = orders db
   /\ order_items (fst (QuoteViewSet_create_order k db)) = order_items db
   /\ order_seq (fst (QuoteViewSet_create_order k db)) = order_seq db)
  /\ (forall quote,
        find_by_id Quote.id k (quotes db) = Some quote ->
        Quote.status quote <> Quote.ACCEPTED ->
        QuoteViewSet_create_order k db
        = (db, Ok (Quote_HTTP_400_BAD_REQUEST OnlyAcceptedQuotes)))
  /\ (forall quote,
        find_by_id Quote.id k (quotes db) = Some quote ->
        Quote.status quote = Quote.ACCEPTED ->
        Py.is_empty (Quote.quote_number quote) = false ->
        Py.is_empty (Quote.customer_name quote) = false ->
        exists quote',
          QuoteViewSet_create_order k db
          = (set_quotes db (replace_by_id Quote.id quote' (quotes db))
               (quote_seq db),
             Ok (Quote_HTTP_200_OK quote'))
          /\ Quote.status quote' = Quote.CONVERTED
          /\ Quote.id quote' = k
          /\ Quote.quote_number quote' = Quote.quote_number quote).
Proof.
  split; [|split].
  - apply (keeps_fst (fun d => orders d = orders db
                               /\ order_items d = order_items db
                               /\ order_seq d = order_seq db));
      [|repeat split].
    unfold QuoteViewSet_create_order.
    apply keeps_bind; [intros d H; exact H|]. intros [quote|];
      [|apply keeps_ret].
    destruct (negb _); [apply keeps_ret|].
    apply keeps_bind; [apply keeps_order_tables_Quote_save
                      | intros; apply keeps_ret].
  - intros quote Hf Hs. unfold QuoteViewSet_create_order, get_quote.
    unfold bind at 1, bind at 1, get at 1, ret at 1. rewrite Hf.
    destruct (Quote_status_eqb _ _) eqn:E; [|reflexivity].
    apply Quote_status_eqb_eq in E. contradiction.
  - intros quote Hf Hs Hn Hc.
    destruct (find_by_id_some _ _ _ _ Hf) as [_ Hid].
    unfold QuoteViewSet_create_order, get_quote.
    unfold bind at 1, bind at 1, get at 1, ret at 1. rewrite Hf, Hs.
    cbn [Quote_status_eqb negb]. unfold bind at 1.
    rewrite Quote_save_stored by exact Hn || exact Hc. cbv zeta.
    eexists. split; [reflexivity|].
    destruct (is_zero _); repeat split; assumption.
Qed.

Lemma quote_conversion_creates_no_order_witness :
  QuoteViewSet_create_order 1 sample_quote_db
  = (sample_quote_db, Ok (Quote_HTTP_400_BAD_REQUEST OnlyAcceptedQuotes)).
Proof.
  apply (quote_conversion_creates_no_order 1 sample_quote_db) with
    (quote := sample_quote); [reflexivity | discriminate].
Defined.

(** X19: The status actions [send] and [update_status] check nothing of
    the current status: [send] makes a stored quote Sent and
    [update_status] gives it any status whose code it is sent, whatever
    the status was, Converted included; the number is kept.  A missing,
    empty or unknown code is answered 400 and nothing is written. *)
Theorem quote_status_is_unrestricted k db quote :
  find_by_id Quote.id k (quotes db) = Some quote ->
  Py.is_empty (Quote.quote_number quote) = false ->
  Py.is_empty (Quote.customer_name quote) = false ->
  (exists quote',
      QuoteViewSet_send k db
      = (set_quotes db (replace_by_id Quote.id quote' (quotes db))
           (quote_seq db),
         Ok (Quote_HTTP_200_OK quote'))
      /\ Quote.status quote' = Quote.SENT
      /\ Quote.id quote' = k
      /\ Quote.quote_number quote' = Quote.quote_number quote)
  /\ (forall code s,
        Quote_Status_of_code code = Some s ->
        exists quote',
          QuoteViewSet_update_status k (Some code) db
          = (set_quotes db (replace_by_id Quote.id quote' (quotes db))
               (quote_seq db),
             Ok (Quote_HTTP_200_OK quote'))
          /\ Quote.status quote' = s
          /\ Quote.id quote' = k
          /\ Quote.quote_number quote' = Quote.quote_number quote)
  /\ (forall new_status,
        match new_status with
        | None => True
        | Some code => Quote_Status_of_code code = None
        end ->
        QuoteViewSet_update_status k new_status db
        = (db, Ok (Quote_HTTP_400_BAD_REQUEST InvalidStatus))).
Proof.
  intros Hf Hn Hc. destruct (find_by_id_some _ _ _ _ Hf) as [_ Hid].
  split; [|split].
  - unfold QuoteViewSet_send, get_quote.
    unfold bind at 1, bind at 1, get at 1, ret at 1. rewrite Hf.
    unfold bind at 1.
    rewrite Quote_save_stored by exact Hn || exact Hc. cbv zeta.
    eexists. split; [reflexivity|].
    destruct (is_zero _); repeat split; assumption.
  - intros code s Hcode. unfold QuoteViewSet_update_status, get_quote.
    unfold bind at 1, bind at 1, get at 1, ret at 1. rewrite Hf, Hcode.
    assert (He : Py.is_empty code = false)
      by (destruct code; [discriminate | reflexivity]).
    rewrite He. unfold bind at 1.
    rewrite Quote_save_stored by exact Hn || exact Hc. cbv zeta.
    eexists. split; [reflexivity|].
    destruct (is_zero _); repeat split; assumption.
  - intros new_status Hbad. unfold QuoteViewSet_update_status, get_quote.
    unfold bind at 1, bind at 1, get at 1, ret at 1. rewrite Hf.
    destruct new_status as [code|]; [|reflexivity].
    rewrite Hbad. destruct (Py.is_empty code); reflexivity.
Qed.

Lemma quote_status_is_unrestricted_witness :
  map Quote.status
    (quotes (fst (QuoteViewSet_update_status 1 (Some "DR") sample_quote_db)))
  = [Quote.DRAFT].
Proof.
  destruct (quote_status_is_unrestricted 1 sample_quote_db sample_quote
              eq_refl eq_refl eq_refl) as (_ & H & _).
  destruct (H "DR" Quote.DRAFT eq_refl) as (quote' & Hrun & Hs & Hk & _).
  rewrite Hrun. cbn [fst quotes set_quotes sample_quote_db].
  unfold replace_by_id. cbn [map]. rewrite Hk.
  cbn [Quote.id sample_quote Z.eqb Pos.eqb]. now rewrite Hs.
Defined.

(** ** Stock movements *)

Lemma StockMovement_save_run adding self tbl db p :
  find_by_id Product.id (StockMovement.product self) (products db) = Some p ->
  0 <= Product.stock_quantity p + StockMovement.quantity self ->
  exists row tbl',
    StockMovement_save adding self tbl db
    = (set_products db
         (replace_by_id Product.id
            (Product.with_stock_quantity p
               (Product.stock_quantity p + StockMovement.quantity self))
            (products db)),
       Ok (row, tbl'))
    /\ StockMovement.product row = StockMovement.product self
    /\ StockMovement.quantity row = StockMovement.quantity self
    /\ (adding = true ->
        row = StockMovement.with_id self (stock_movement_seq tbl + 1)
        /\ stock_movements tbl' = (stock_movements tbl ++ [row])%list)
    /\ (adding = false ->
        In self (stock_movements tbl) ->
        row = self
        /\ stock_movements tbl'
           = replace_by_id StockMovement.id self (stock_movements tbl)).
Proof.
  intros Hf Hq. unfold StockMovement_save, Product_objects_get, Product_save.
  unfold bind, get, put, ret, raise. rewrite Hf.
  cbn [Product.stock_quantity Product.with_stock_quantity].
  destruct (Z.ltb_spec (Product.stock_quantity p
                        + StockMovement.quantity self) 0); [lia|].
  destruct adding.
  - eexists _, _. split; [reflexivity|]. repeat split; try discriminate.
  - destruct (find_by_id StockMovement.id _ _) eqn:E.
    + eexists _, _. split; [reflexivity|]. repeat split; try discriminate.
    + eexists _, _. split; [reflexivity|].
      split; [reflexivity|]. split; [reflexivity|].
      split; [discriminate|]. intros _ Hin. exfalso.
      unfold find_by_id in E.
      apply (find_none _ _ E) in Hin. now rewrite Z.eqb_refl in Hin.
Qed.

(** X20: Every save of a stock movement adds its quantity to the stock of the
    product before the row is written: a first save that would make the
    stock negative raises [IntegrityError] and records nothing, and a
    later save of a recorded movement adds the quantity once more while
    the table keeps its rows. *)
Theorem stock_movement_is_applied_at_each_save self tbl db p :
  find_by_id Product.id (StockMovement.product self) (products db) = Some p ->
  (Product.stock_quantity p + StockMovement.quantity self < 0 ->
   forall adding,
     StockMovement_save adding self tbl db = (db, Raise IntegrityError))
  /\ (0 <= Product.stock_quantity p + StockMovement.quantity self ->
      0 <= Product.stock_quantity p + 2 * StockMovement.quantity self ->
      exists row tbl1 db1 tbl2 db2 p2,
        StockMovement_save true self tbl db = (db1, Ok (row, tbl1))
        /\ stock_movements tbl1 = (stock_movements tbl ++ [row])%list
        /\ find_by_id Product.id (StockMovement.product self) (products db1)
           = Some (Product.with_stock_quantity p
                     (Product.stock_quantity p + StockMovement.quantity self))
        /\ StockMovement_save false row tbl1 db1 = (db2, Ok (row, tbl2))
        /\ List.length (stock_movements tbl2)
           = List.length (stock_movements tbl1)
        /\ find_by_id Product.id (StockMovement.product self) (products db2)
           = Some p2
        /\ Product.stock_quantity p2
           = Product.stock_quantity p + 2 * StockMovement.quantity self).
Proof.
  intros Hf. destruct (find_by_id_some _ _ _ _ Hf) as [_ Hpid]. split.
  - intros Hneg adding.
    unfold StockMovement_save, Product_objects_get, Product_save.
    unfold bind, get, put, ret, raise. rewrite Hf.
    cbn [Product.stock_quantity Product.with_stock_quantity].
    destruct (Z.ltb_spec (Product.stock_quantity p
                          + StockMovement.quantity self) 0); [|lia].
    reflexivity.
  - intros H1 H2.
    destruct (StockMovement_save_run true self tbl db p Hf H1)
      as (row & tbl1 & Hrun1 & Hprod & Hqty & Hadd & _).
    destruct (Hadd eq_refl) as [Hrow Htbl1].
    set (p1 := Product.with_stock_quantity p
                 (Product.stock_quantity p + StockMovement.quantity self))
      in *.
    set (db1 := set_products db (replace_by_id Product.id p1 (products db)))
      in *.
    assert (Hf1 : find_by_id Product.id (StockMovement.product row)
                    (products db1) = Some p1).
    { rewrite Hprod, <- Hpid. change (Product.id p) with (Product.id p1).
      cbn [products db1 set_products].
      apply find_replace_by_id with (old := p).
      change (Product.id p1) with (Product.id p). now rewrite Hpid. }
    assert (Hq1 : 0 <= Product.stock_quantity p1 + StockMovement.quantity row).
    { rewrite Hqty. cbn [p1 Product.stock_quantity Product.with_stock_quantity].
      lia. }
    destruct (StockMovement_save_run false row tbl1 db1 p1 Hf1 Hq1)
      as (row2 & tbl2 & Hrun2 & _ & _ & _ & Hupd).
    destruct (Hupd eq_refl) as [Hrow2 Htbl2].
    { rewrite Htbl1. apply in_or_app. right. now left. }
    subst row2.
    set (p2 := Product.with_stock_quantity p1
                 (Product.stock_quantity p1 + StockMovement.quantity row))
      in *.
    exists row, tbl1, db1, tbl2,
      (set_products db1 (replace_by_id Product.id p2 (products db1))), p2.
    split; [exact Hrun1|]. split; [exact Htbl1|].
    split; [now rewrite <- Hprod|]. split; [exact Hrun2|].
    split; [|split].
    + rewrite Htbl2. unfold replace_by_id. apply length_map.
    + rewrite <- Hprod, <- (proj2 (find_by_id_some _ _ _ _ Hf1)).
      change (Product.id p1) with (Product.id p2).
      cbn [products set_products].
      apply find_replace_by_id with (old := p1).
      change (Product.id p2) with (Product.id p1).
      rewrite (proj2 (find_by_id_some _ _ _ _ Hf1)). exact Hf1.
    + cbn [p2 p1 Product.stock_quantity Product.with_stock_quantity].
      rewrite Hqty. lia.
Qed.

Lemma stock_movement_is_applied_at_each_save_witness :
  exists row tbl1 db1 tbl2 db2,
    StockMovement_save true
      (StockMovement.mk 0 1 StockMovement.PURCHASE 10 "PO000001" "" 7)
      (mkMovements [] 0) sample_pending_db = (db1, Ok (row, tbl1))
    /\ StockMovement_save false row tbl1 db1 = (db2, Ok (row, tbl2))
    /\ map Product.stock_quantity (products db2) = [25; 3].
Proof.
  destruct (stock_movement_is_applied_at_each_save
              (StockMovement.mk 0 1 StockMovement.PURCHASE 10 "PO000001" "" 7)
              (mkMovements [] 0) sample_pending_db
              (Product.mk 1 "panel A" (Q2Qc 10) 5) eq_refl) as [_ H].
  destruct H as (row & tbl1 & db1 & tbl2 & db2 & p2 & H1 & _ & _ & H2 & _);
    [cbn; lia | cbn; lia |].
  exists row, tbl1, db1, tbl2, db2. split; [exact H1|]. split; [exact H2|].
  revert H1 H2. vm_compute. intros [= <- <- <-]. now intros [= <- _].
Defined.

(** ** From the creation of an order to its invoice *)




